(** * UIVirtualBoxManager: action enablement and batch execution

    A shallow embedding of the decision and coordination layer of
    [src/VBox/Frontends/VirtualBox/src/manager/UIVirtualBoxManager.cpp]:
    the enablement evaluator [isActionEnabled] with its item predicates,
    [updateActionsAppearance], the batch slots (discard, pause/resume,
    reset, shutdown, power off, start-or-show) and the slots that open a
    modal sub-flow behind the dynamic property "opened".

    Calls that leave the manager (the COM wrappers, the message center,
    the chooser widget, the wizards) are answered by a collaborator
    interface; every such call is recorded in an event log, so that the
    order of session acquisition, remote operation and release can be
    stated and proved. *)

From Stdlib Require Import ZArith String Ascii List Bool Lia.
From stdpp Require Import base decidable numbers option list functions.
Import ListNotations.

Local Open Scope string_scope.
Local Open Scope list_scope.

(** ** Plain data *)

(** [QUuid]: the opaque machine identifier returned by [pItem->id()]. *)
Definition QUuid : Type := N.

Definition QString : Type := string.

(** [QStringList::join]. *)
Definition join (sep : QString) (l : list QString) : QString :=
  String.concat sep l.

(** [KMachineState].
    Modelled from the spec: the enumeration is generated outside this file.
    Its constructors are the five states the manager compares against, the
    powered-off states the specification names (section 4.2: PoweredOff,
    Saved, Aborted), and [KMachineState_Other] for every further lifecycle
    state. *)
Inductive KMachineState : Type :=
| KMachineState_PoweredOff
| KMachineState_Saved
| KMachineState_Aborted
| KMachineState_Running
| KMachineState_Paused
| KMachineState_Teleporting
| KMachineState_LiveSnapshotting
| KMachineState_TeleportingPausedVM
| KMachineState_Other (n : nat).

Inductive ConfigurationAccessLevel : Type :=
| ConfigurationAccessLevel_Null
| ConfigurationAccessLevel_Other (n : nat).

Inductive UIToolType : Type :=
| UIToolType_Welcome
| UIToolType_Media
| UIToolType_Network
| UIToolType_Cloud
| UIToolType_Details
| UIToolType_Snapshots
| UIToolType_Logs
| UIToolType_Other (n : nat).

Inductive LaunchMode : Type :=
| LaunchMode_Invalid
| LaunchMode_Default
| LaunchMode_Headless
| LaunchMode_Separate.

#[global] Instance KMachineState_eq_dec : EqDecision KMachineState.
Proof. solve_decision. Defined.
#[global] Instance ConfigurationAccessLevel_eq_dec : EqDecision ConfigurationAccessLevel.
Proof. solve_decision. Defined.
#[global] Instance UIToolType_eq_dec : EqDecision UIToolType.
Proof. solve_decision. Defined.
#[global] Instance LaunchMode_eq_dec : EqDecision LaunchMode.
Proof. solve_decision. Defined.

(** [UIVirtualMachineItem]: what the manager reads from an item through its
    accessors ([id()], [name()], [machineState()], [accessible()],
    [configurationAccessLevel()], [canSwitchTo()], [settingsFile()]). *)
Record UIVirtualMachineItem : Type := mkItem {
  id : QUuid;
  name : QString;
  machineState : KMachineState;
  accessible : bool;
  configurationAccessLevel : ConfigurationAccessLevel;
  canSwitchTo : bool;
  settingsFile : QString
}.

(** ** Action indexes

    [isActionEnabled] takes an [int]; the named indexes are those the
    manager passes and the two further ones it connects to the add-machine
    slot, any other value is [UIActionIndex_Unknown]. *)
Inductive ActionIndex : Type :=
| UIActionIndex_M_Application_S_Preferences
| UIActionIndexST_M_File_S_ExportAppliance
| UIActionIndexST_M_File_S_ImportAppliance
| UIActionIndexST_M_Welcome_S_Add
| UIActionIndexST_M_Group_S_Rename
| UIActionIndexST_M_Group_S_Remove
| UIActionIndexST_M_Group_T_Pause
| UIActionIndexST_M_Group_S_Reset
| UIActionIndexST_M_Group_S_Discard
| UIActionIndexST_M_Group_S_ShowLogDialog
| UIActionIndexST_M_Group_S_Refresh
| UIActionIndexST_M_Group_S_ShowInFileManager
| UIActionIndexST_M_Group_S_CreateShortcut
| UIActionIndexST_M_Group_S_Sort
| UIActionIndexST_M_Machine_S_Settings
| UIActionIndexST_M_Machine_S_Clone
| UIActionIndexST_M_Machine_S_Move
| UIActionIndexST_M_Machine_S_ExportToOCI
| UIActionIndexST_M_Machine_S_Remove
| UIActionIndexST_M_Machine_S_AddGroup
| UIActionIndexST_M_Machine_T_Pause
| UIActionIndexST_M_Machine_S_Reset
| UIActionIndexST_M_Machine_S_Discard
| UIActionIndexST_M_Machine_S_ShowLogDialog
| UIActionIndexST_M_Machine_S_Refresh
| UIActionIndexST_M_Machine_S_ShowInFileManager
| UIActionIndexST_M_Machine_S_CreateShortcut
| UIActionIndexST_M_Machine_S_SortParent
| UIActionIndexST_M_Group_M_StartOrShow
| UIActionIndexST_M_Group_M_StartOrShow_S_StartNormal
| UIActionIndexST_M_Group_M_StartOrShow_S_StartHeadless
| UIActionIndexST_M_Group_M_StartOrShow_S_StartDetachable
| UIActionIndexST_M_Machine_M_StartOrShow
| UIActionIndexST_M_Machine_M_StartOrShow_S_StartNormal
| UIActionIndexST_M_Machine_M_StartOrShow_S_StartHeadless
| UIActionIndexST_M_Machine_M_StartOrShow_S_StartDetachable
| UIActionIndexST_M_Group_M_Close
| UIActionIndexST_M_Group_M_Close_S_Detach
| UIActionIndexST_M_Group_M_Close_S_SaveState
| UIActionIndexST_M_Group_M_Close_S_Shutdown
| UIActionIndexST_M_Group_M_Close_S_PowerOff
| UIActionIndexST_M_Machine_M_Close
| UIActionIndexST_M_Machine_M_Close_S_Detach
| UIActionIndexST_M_Machine_M_Close_S_SaveState
| UIActionIndexST_M_Machine_M_Close_S_Shutdown
| UIActionIndexST_M_Machine_M_Close_S_PowerOff
| UIActionIndexST_M_Group_M_Tools_T_Details
| UIActionIndexST_M_Group_M_Tools_T_Snapshots
| UIActionIndexST_M_Group_M_Tools_T_Logs
| UIActionIndexST_M_Machine_M_Tools_T_Details
| UIActionIndexST_M_Machine_M_Tools_T_Snapshots
| UIActionIndexST_M_Machine_M_Tools_T_Logs
| UIActionIndexST_M_Group_S_Add
| UIActionIndexST_M_Machine_S_Add
| UIActionIndex_Unknown (n : nat).

#[global] Instance ActionIndex_eq_dec : EqDecision ActionIndex.
Proof. solve_decision. Defined.

(** ** Action objects and the action pool *)

(** The value of the dynamic property "opened" of an action. *)
Inductive QVariant : Type :=
| QVariant_Invalid
| QVariant_Bool (b : bool).

Definition toBool (v : QVariant) : bool :=
  match v with
  | QVariant_Bool b => b
  | QVariant_Invalid => false
  end.

Record UIAction : Type := mkAction {
  property_opened : QVariant;
  action_enabled : bool;
  action_checked : bool;
  action_state : nat
}.

Definition setProperty_opened (v : QVariant) (a : UIAction) : UIAction :=
  mkAction v (action_enabled a) (action_checked a) (action_state a).
Definition setEnabled (b : bool) (a : UIAction) : UIAction :=
  mkAction (property_opened a) b (action_checked a) (action_state a).
Definition setChecked (b : bool) (a : UIAction) : UIAction :=
  mkAction (property_opened a) (action_enabled a) b (action_state a).
Definition setState (n : nat) (a : UIAction) : UIAction :=
  mkAction (property_opened a) (action_enabled a) (action_checked a) n.

(** [actionPool()->action(i)] is the lookup of a total map. *)
Abbreviation UIActionPool := (ActionIndex -> UIAction).

(** ** The chooser widget and the manager *)

Record UIVirtualBoxManagerWidget : Type := mkWidget {
  widget_currentItem : option UIVirtualMachineItem;
  widget_currentItems : list UIVirtualMachineItem;
  widget_isGroupSavingInProgress : bool;
  widget_isAllItemsOfOneGroupSelected : bool;
  widget_isSingleGroupSelected : bool;
  widget_currentMachineTool : UIToolType;
  widget_isCurrentStateItemSelected : bool
}.

Record UIVirtualBoxManager : Type := mkManager {
  m_pActionPool : UIActionPool;
  m_pWidget : UIVirtualBoxManagerWidget;
  m_fFirstMediumEnumerationHandled : bool
}.

Definition actionPool (mgr : UIVirtualBoxManager) : UIActionPool := m_pActionPool mgr.
Definition currentItem (mgr : UIVirtualBoxManager) := widget_currentItem (m_pWidget mgr).
Definition currentItems (mgr : UIVirtualBoxManager) := widget_currentItems (m_pWidget mgr).
Definition isGroupSavingInProgress (mgr : UIVirtualBoxManager) :=
  widget_isGroupSavingInProgress (m_pWidget mgr).
Definition isAllItemsOfOneGroupSelected (mgr : UIVirtualBoxManager) :=
  widget_isAllItemsOfOneGroupSelected (m_pWidget mgr).
Definition isSingleGroupSelected (mgr : UIVirtualBoxManager) :=
  widget_isSingleGroupSelected (m_pWidget mgr).

(** [actionPool()->action(i)->setXxx(..)]: the pool with one action replaced. *)
Definition withAction (i : ActionIndex) (f : UIAction -> UIAction)
    (mgr : UIVirtualBoxManager) : UIVirtualBoxManager :=
  mkManager (alter f i (m_pActionPool mgr)) (m_pWidget mgr)
            (m_fFirstMediumEnumerationHandled mgr).

Definition set_fFirstMediumEnumerationHandled (b : bool)
    (mgr : UIVirtualBoxManager) : UIVirtualBoxManager :=
  mkManager (m_pActionPool mgr) (m_pWidget mgr) b.

(** ** Events: every call that leaves the manager *)

Inductive Confirmation : Type :=
| confirmDiscardSavedState
| confirmResetMachine
| confirmACPIShutdownMachine
| confirmPowerOffMachine
| confirmStartMultipleMachines.

(** The [CConsole] and [CMachine] calls whose result code is tested. *)
Inductive RemoteCall : Type :=
| Call_Pause
| Call_Resume
| Call_Reset
| Call_PowerButton
| Call_PowerDown
| Call_DiscardSavedState.

(** Error reports of the message center. *)
Inductive Message : Type :=
| cannotDiscardSavedState (machine : QUuid)
| cannotPauseMachine (machine : QUuid)
| cannotResumeMachine (machine : QUuid)
| cannotACPIShutdownMachine (machine : QUuid)
| cannotPowerDownMachine_console (machine : QUuid)
| cannotPowerDownMachine_progress (machine : QUuid) (machineName : QString)
| cannotOpenMachine (file : QString)
| cannotReregisterExistingMachine (file : QString) (existing : QString).

(** The modal dialogs and wizards the manager executes. *)
Inductive Modal : Type :=
| UIWizardImportApp (strFileName : QString)
| UIWizardExportApp (names : list QString) (fExportToOCI : bool)
| UISettingsDialogGlobal
| QIFileDialog_getOpenFileNames
| UISettingsDialogMachine (uID : QUuid) (strCategory strControl : QString).

(** [EvExecModal d mgr]: the dialog [d] starts its nested event loop while
    the manager is in state [mgr]. *)
Inductive Event : Type :=
| EvExecModal (d : Modal) (mgr : UIVirtualBoxManager)
| EvConfirm (c : Confirmation) (names : QString) (answer : bool)
| EvOpenSession (machine : QUuid) (opened : bool)
| EvOpenExistingSession (machine : QUuid) (opened : bool)
| EvGetGuestEnteredACPIMode (machine : QUuid) (answer : bool)
| EvRemoteCall (c : RemoteCall) (machine : QUuid)
| EvShowModalProgressDialog (machine : QUuid)
| EvUnlockMachine (machine : QUuid)
| EvMessage (m : Message)
| EvLaunchMachine (machine : QUuid) (mode : LaunchMode)
| EvOpenURL (url : QString)
| EvOpenMachine (file : QString) (ok : bool)
| EvRegisterMachine (file : QString).

#[global] Instance Confirmation_eq_dec : EqDecision Confirmation.
Proof. solve_decision. Defined.
#[global] Instance RemoteCall_eq_dec : EqDecision RemoteCall.
Proof. solve_decision. Defined.

(** A session-acquisition event ([openSession] or [openExistingSession]). *)
Definition isSessionAcquire (e : Event) : bool :=
  match e with
  | EvOpenSession _ _ | EvOpenExistingSession _ _ => true
  | _ => false
  end.

Definition isLaunch (e : Event) : bool :=
  match e with
  | EvLaunchMachine _ _ => true
  | _ => false
  end.

Definition isConfirm (e : Event) : bool :=
  match e with
  | EvConfirm _ _ _ => true
  | _ => false
  end.


(** The events of the live ACPI probe: an existing session is opened, the
    console asked, the session released. *)
Definition isProbe (e : Event) : bool :=
  match e with
  | EvOpenExistingSession _ _ | EvGetGuestEnteredACPIMode _ _
  | EvUnlockMachine _ => true
  | _ => false
  end.

(** Does the event touch the given machine (session or remote call)? *)
Definition touches (machine : QUuid) (e : Event) : bool :=
  match e with
  | EvOpenSession m _ | EvOpenExistingSession m _
  | EvGetGuestEnteredACPIMode m _ | EvRemoteCall _ m
  | EvShowModalProgressDialog m | EvUnlockMachine m
  | EvLaunchMachine m _ => bool_decide (m = machine)
  | _ => false
  end.

(** ** The logging monad *)

Definition M (A : Type) : Type := (A * list Event)%type.

Definition ret {A : Type} (a : A) : M A := (a, []).

Definition bind {A B : Type} (m : M A) (f : A -> M B) : M B :=
  let (a, l1) := m in
  let (b, l2) := f a in
  (b, l1 ++ l2).

Definition emit (e : Event) : M unit := (tt, [e]).

Definition result {A : Type} (m : M A) : A := fst m.
Definition events {A : Type} (m : M A) : list Event := snd m.

Declare Scope vbox_scope.
Delimit Scope vbox_scope with vbox.
Notation "'let*' x ':=' c 'in' k" := (bind c (fun x => k))
  (at level 10, x name, c at level 100, k at level 200) : vbox_scope.
Notation "'do*' c 'in' k" := (bind c (fun _ => k))
  (at level 10, c at level 100, k at level 200) : vbox_scope.
Local Open Scope vbox_scope.

(** ** Collaborators

    The answers of everything the manager calls but does not define.  The
    static item predicates live in UIVirtualMachineItem.cpp; the rest is the
    message center, the global COM wrapper object and the modal dialogs.
    A modal sub-flow runs a nested event loop: it hands back the manager as
    it is when the dialog returns, or [None] when the action pool has been
    destroyed meanwhile (the case the slots guard by [if (actionPool())]). *)
Class Collaborators : Type := {
  (* UIVirtualMachineItem static predicates *)
  isItemEditable : UIVirtualMachineItem -> bool;
  isItemSaved : UIVirtualMachineItem -> bool;
  isItemPoweredOff : UIVirtualMachineItem -> bool;
  isItemStarted : UIVirtualMachineItem -> bool;
  isItemRunning : UIVirtualMachineItem -> bool;
  isItemRunningHeadless : UIVirtualMachineItem -> bool;
  isItemPaused : UIVirtualMachineItem -> bool;
  (* build and keyboard *)
  VBOX_WS_MAC : bool;
  shiftModifierPressed : bool;
  (* message center *)
  confirmAnswer : Confirmation -> QString -> bool;
  (* sessions, consoles, progress objects *)
  sessionOpens : QUuid -> bool;
  existingSessionOpens : QUuid -> bool;
  consoleIsNull : QUuid -> bool;
  guestEnteredACPIMode : QUuid -> bool;
  remoteCallIsOk : RemoteCall -> QUuid -> bool;
  progressIsOk : QUuid -> bool;
  progressResultCode : QUuid -> Z;
  machineName : QUuid -> QString;
  (* registry *)
  openMachineIsOk : QString -> bool;
  findMachineName : QString -> option QString;
  (* modal sub-flows *)
  darwinResolveAlias : QString -> QString;
  wizardImportIsValid : QString -> bool;
  modalResult : Modal -> UIVirtualBoxManager -> option UIVirtualBoxManager;
  chosenFileNames : UIVirtualBoxManager -> list QString
}.

(** [QString::endsWith(suffix, Qt::CaseInsensitive)]. *)
Definition toLower (c : ascii) : ascii :=
  let n := nat_of_ascii c in
  if (65 <=? n)%nat && (n <=? 90)%nat then ascii_of_nat (n + 32) else c.

Fixpoint string_rev_lower (s acc : string) : string :=
  match s with
  | EmptyString => acc
  | String c s' => string_rev_lower s' (String (toLower c) acc)
  end.

Definition endsWith_CaseInsensitive (s suffix : QString) : bool :=
  String.prefix (string_rev_lower suffix EmptyString) (string_rev_lower s EmptyString).

(** The two state tests of [sltPerformPauseOrResumeMachine]: the item is
    already paused (when pausing) or already running (when resuming). *)
Definition alreadyInRequestedState (fPause : bool) (pItem : UIVirtualMachineItem)
    : bool :=
  if fPause
  then bool_decide (machineState pItem = KMachineState_Paused) ||
       bool_decide (machineState pItem = KMachineState_TeleportingPausedVM)
  else bool_decide (machineState pItem = KMachineState_Running) ||
       bool_decide (machineState pItem = KMachineState_Teleporting) ||
       bool_decide (machineState pItem = KMachineState_LiveSnapshotting).

Section Manager.

Context {vbox : Collaborators}.

(** ** Calls on the collaborators, each leaving its event *)

(** A [CSession] wrapper: null, or a session on a machine. *)
Definition CSession : Type := option QUuid.

Definition openSession (machine : QUuid) : M CSession :=
  let fOpened := sessionOpens machine in
  do* emit (EvOpenSession machine fOpened) in
  ret (if fOpened then Some machine else None).

Definition openExistingSession (machine : QUuid) : M CSession :=
  let fOpened := existingSessionOpens machine in
  do* emit (EvOpenExistingSession machine fOpened) in
  ret (if fOpened then Some machine else None).

Definition UnlockMachine (session : QUuid) : M unit :=
  emit (EvUnlockMachine session).

Definition GetGuestEnteredACPIMode (session : QUuid) : M bool :=
  let fAnswer := guestEnteredACPIMode session in
  do* emit (EvGetGuestEnteredACPIMode session fAnswer) in
  ret fAnswer.

(** A console or machine call; the result is the wrapper's [isOk()]. *)
Definition remoteCall (c : RemoteCall) (session : QUuid) : M bool :=
  do* emit (EvRemoteCall c session) in
  ret (remoteCallIsOk c session).

Definition confirm (c : Confirmation) (names : QString) : M bool :=
  let fAnswer := confirmAnswer c names in
  do* emit (EvConfirm c names fAnswer) in
  ret fAnswer.

Definition report (m : Message) : M unit := emit (EvMessage m).

Definition showModalProgressDialog (session : QUuid) : M unit :=
  emit (EvShowModalProgressDialog session).

Definition launchMachine (machine : QUuid) (mode : LaunchMode) : M unit :=
  emit (EvLaunchMachine machine mode).

(** [exec()] of a modal dialog or wizard. *)
Definition execModal (d : Modal) (mgr : UIVirtualBoxManager)
    : M (option UIVirtualBoxManager) :=
  do* emit (EvExecModal d mgr) in
  ret (modalResult d mgr).

(** ** Item-list predicates *)

Definition isItemsPoweredOff (items : list UIVirtualMachineItem) : bool :=
  forallb isItemPoweredOff items.

Fixpoint isAtLeastOneItemAbleToShutdown (items : list UIVirtualMachineItem) : M bool :=
  match items with
  | [] => ret false
  | pItem :: rest =>
      (* Skip non-running machines: *)
      if negb (isItemRunning pItem) then isAtLeastOneItemAbleToShutdown rest
      else
        (* Skip session failures: *)
        let* session := openExistingSession (id pItem) in
        match session with
        | None => isAtLeastOneItemAbleToShutdown rest
        | Some s =>
            (* Skip console failures: *)
            if consoleIsNull s then
              do* UnlockMachine s in
              isAtLeastOneItemAbleToShutdown rest
            else
              let* fGuestEnteredACPIMode := GetGuestEnteredACPIMode s in
              do* UnlockMachine s in
              if fGuestEnteredACPIMode then ret true
              else isAtLeastOneItemAbleToShutdown rest
        end
  end.

Definition isAtLeastOneItemSupportsShortcuts (items : list UIVirtualMachineItem) : bool :=
  existsb (fun pItem =>
             accessible pItem &&
             (if VBOX_WS_MAC
              then endsWith_CaseInsensitive (settingsFile pItem) ".vbox"
              else true)) items.

Definition isAtLeastOneItemAccessible (items : list UIVirtualMachineItem) : bool :=
  existsb (fun pItem => accessible pItem) items.

Definition isAtLeastOneItemInaccessible (items : list UIVirtualMachineItem) : bool :=
  existsb (fun pItem => negb (accessible pItem)) items.

Definition isAtLeastOneItemRemovable (items : list UIVirtualMachineItem) : bool :=
  existsb (fun pItem => negb (accessible pItem) || isItemEditable pItem) items.

Definition isAtLeastOneItemCanBeStarted (items : list UIVirtualMachineItem) : bool :=
  existsb (fun pItem => isItemPoweredOff pItem && isItemEditable pItem) items.

Definition isAtLeastOneItemCanBeShown (items : list UIVirtualMachineItem) : bool :=
  existsb (fun pItem =>
             isItemStarted pItem && (canSwitchTo pItem || isItemRunningHeadless pItem)) items.

Definition isAtLeastOneItemCanBeStartedOrShown (items : list UIVirtualMachineItem) : bool :=
  existsb (fun pItem =>
             (isItemPoweredOff pItem && isItemEditable pItem) ||
             (isItemStarted pItem && (canSwitchTo pItem || isItemRunningHeadless pItem))) items.

Definition isAtLeastOneItemDiscardable (items : list UIVirtualMachineItem) : bool :=
  existsb (fun pItem => isItemSaved pItem && isItemEditable pItem) items.

Definition isAtLeastOneItemStarted (items : list UIVirtualMachineItem) : bool :=
  existsb isItemStarted items.

Definition isAtLeastOneItemRunning (items : list UIVirtualMachineItem) : bool :=
  existsb isItemRunning items.

(** Modelled from the spec: the static item predicates are defined in
    UIVirtualMachineItem.cpp; section 4.2 classifies a state as started when
    it is anything but PoweredOff, Saved, Aborted or Inaccessible, so that no
    item is both powered off and started. *)
Definition poweredOffExcludesStarted : Prop :=
  forall pItem : UIVirtualMachineItem,
    isItemPoweredOff pItem = true -> isItemStarted pItem = false.

(** ** The enablement evaluator *)

(** The indexes of the first switch of [isActionEnabled]: the actions that
    do not depend on the selection. *)
Definition isGlobalAction (iActionIndex : ActionIndex) : bool :=
  match iActionIndex with
  | UIActionIndex_M_Application_S_Preferences
  | UIActionIndexST_M_File_S_ExportAppliance
  | UIActionIndexST_M_File_S_ImportAppliance
  | UIActionIndexST_M_Welcome_S_Add => true
  | _ => false
  end.

(** The eight start-or-show indexes. *)
Definition isStartOrShowAction (iActionIndex : ActionIndex) : bool :=
  match iActionIndex with
  | UIActionIndexST_M_Group_M_StartOrShow
  | UIActionIndexST_M_Group_M_StartOrShow_S_StartNormal
  | UIActionIndexST_M_Group_M_StartOrShow_S_StartHeadless
  | UIActionIndexST_M_Group_M_StartOrShow_S_StartDetachable
  | UIActionIndexST_M_Machine_M_StartOrShow
  | UIActionIndexST_M_Machine_M_StartOrShow_S_StartNormal
  | UIActionIndexST_M_Machine_M_StartOrShow_S_StartHeadless
  | UIActionIndexST_M_Machine_M_StartOrShow_S_StartDetachable => true
  | _ => false
  end.

(** The body of [isActionEnabled]; [self] stands for the function itself in
    the four Close-submenu cases, which call it again with
    [UIActionIndexST_M_Machine_M_Close]. *)
Definition isActionEnabled_body
    (self : ActionIndex -> list UIVirtualMachineItem -> M bool)
    (mgr : UIVirtualBoxManager) (iActionIndex : ActionIndex)
    (items : list UIVirtualMachineItem) : M bool :=
  (* For known *global* action types: *)
  match iActionIndex with
  | UIActionIndex_M_Application_S_Preferences
  | UIActionIndexST_M_File_S_ExportAppliance
  | UIActionIndexST_M_File_S_ImportAppliance
  | UIActionIndexST_M_Welcome_S_Add =>
      ret (negb (toBool (property_opened (actionPool mgr iActionIndex))))
  | _ =>
  (* No *machine* actions enabled for empty item list: *)
  match items with
  | [] => ret false
  | pItem :: _ =>
  (* For known *machine* action types: *)
  match iActionIndex with
  | UIActionIndexST_M_Group_S_Rename
  | UIActionIndexST_M_Group_S_Remove =>
      ret (negb (isGroupSavingInProgress mgr) &&
           isItemsPoweredOff items)
  | UIActionIndexST_M_Group_S_Sort =>
      ret (negb (isGroupSavingInProgress mgr) &&
           isSingleGroupSelected mgr)
  | UIActionIndexST_M_Machine_S_Settings =>
      ret (negb (toBool (property_opened (actionPool mgr iActionIndex))) &&
           negb (isGroupSavingInProgress mgr) &&
           bool_decide (length items = 1%nat) &&
           negb (bool_decide (configurationAccessLevel pItem = ConfigurationAccessLevel_Null)) &&
           (negb (bool_decide (widget_currentMachineTool (m_pWidget mgr) = UIToolType_Snapshots)) ||
            widget_isCurrentStateItemSelected (m_pWidget mgr)))
  | UIActionIndexST_M_Machine_S_Clone
  | UIActionIndexST_M_Machine_S_Move =>
      ret (negb (isGroupSavingInProgress mgr) &&
           bool_decide (length items = 1%nat) &&
           isItemEditable pItem)
  | UIActionIndexST_M_Machine_S_ExportToOCI =>
      ret (negb (toBool (property_opened (actionPool mgr iActionIndex))) &&
           bool_decide (length items = 1%nat))
  | UIActionIndexST_M_Machine_S_Remove =>
      ret (negb (isGroupSavingInProgress mgr) &&
           isAtLeastOneItemRemovable items)
  | UIActionIndexST_M_Machine_S_AddGroup =>
      ret (negb (isGroupSavingInProgress mgr) &&
           negb (isAllItemsOfOneGroupSelected mgr) &&
           isItemsPoweredOff items)
  | UIActionIndexST_M_Group_M_StartOrShow
  | UIActionIndexST_M_Group_M_StartOrShow_S_StartNormal
  | UIActionIndexST_M_Group_M_StartOrShow_S_StartHeadless
  | UIActionIndexST_M_Group_M_StartOrShow_S_StartDetachable
  | UIActionIndexST_M_Machine_M_StartOrShow
  | UIActionIndexST_M_Machine_M_StartOrShow_S_StartNormal
  | UIActionIndexST_M_Machine_M_StartOrShow_S_StartHeadless
  | UIActionIndexST_M_Machine_M_StartOrShow_S_StartDetachable =>
      ret (negb (isGroupSavingInProgress mgr) &&
           isAtLeastOneItemCanBeStartedOrShown items &&
           (negb (bool_decide (widget_currentMachineTool (m_pWidget mgr) = UIToolType_Snapshots)) ||
            widget_isCurrentStateItemSelected (m_pWidget mgr)))
  | UIActionIndexST_M_Group_S_Discard
  | UIActionIndexST_M_Machine_S_Discard =>
      ret (negb (isGroupSavingInProgress mgr) &&
           isAtLeastOneItemDiscardable items &&
           (negb (bool_decide (widget_currentMachineTool (m_pWidget mgr) = UIToolType_Snapshots)) ||
            widget_isCurrentStateItemSelected (m_pWidget mgr)))
  | UIActionIndexST_M_Group_S_ShowLogDialog
  | UIActionIndexST_M_Machine_S_ShowLogDialog =>
      ret (isAtLeastOneItemAccessible items)
  | UIActionIndexST_M_Group_T_Pause
  | UIActionIndexST_M_Machine_T_Pause =>
      ret (isAtLeastOneItemStarted items)
  | UIActionIndexST_M_Group_S_Reset
  | UIActionIndexST_M_Machine_S_Reset =>
      ret (isAtLeastOneItemRunning items)
  | UIActionIndexST_M_Group_S_Refresh
  | UIActionIndexST_M_Machine_S_Refresh =>
      ret (isAtLeastOneItemInaccessible items)
  | UIActionIndexST_M_Group_S_ShowInFileManager
  | UIActionIndexST_M_Machine_S_ShowInFileManager =>
      ret (isAtLeastOneItemAccessible items)
  | UIActionIndexST_M_Machine_S_SortParent =>
      ret (negb (isGroupSavingInProgress mgr))
  | UIActionIndexST_M_Group_S_CreateShortcut
  | UIActionIndexST_M_Machine_S_CreateShortcut =>
      ret (isAtLeastOneItemSupportsShortcuts items)
  | UIActionIndexST_M_Group_M_Close
  | UIActionIndexST_M_Machine_M_Close =>
      ret (isAtLeastOneItemStarted items)
  | UIActionIndexST_M_Group_M_Close_S_Detach
  | UIActionIndexST_M_Machine_M_Close_S_Detach =>
      self UIActionIndexST_M_Machine_M_Close items
  | UIActionIndexST_M_Group_M_Close_S_SaveState
  | UIActionIndexST_M_Machine_M_Close_S_SaveState =>
      self UIActionIndexST_M_Machine_M_Close items
  | UIActionIndexST_M_Group_M_Close_S_Shutdown
  | UIActionIndexST_M_Machine_M_Close_S_Shutdown =>
      let* fClose := self UIActionIndexST_M_Machine_M_Close items in
      if fClose then isAtLeastOneItemAbleToShutdown items else ret false
  | UIActionIndexST_M_Group_M_Close_S_PowerOff
  | UIActionIndexST_M_Machine_M_Close_S_PowerOff =>
      self UIActionIndexST_M_Machine_M_Close items
  (* Unknown actions are disabled: *)
  | _ => ret false
  end
  end
  end.

(** [isActionEnabled]: the recursion is one call deep, since the case of
    [UIActionIndexST_M_Machine_M_Close] does not call back. *)
Definition isActionEnabled (mgr : UIVirtualBoxManager) (iActionIndex : ActionIndex)
    (items : list UIVirtualMachineItem) : M bool :=
  isActionEnabled_body
    (isActionEnabled_body (fun _ _ => ret false) mgr)
    mgr iActionIndex items.

(** ** Batch slots *)

(** The loop that prepares [machineNames] and the list of items the action
    applies to: each item is tested alone. *)
Fixpoint itemsEnabledFor (mgr : UIVirtualBoxManager) (iActionIndex : ActionIndex)
    (items : list UIVirtualMachineItem) : M (list QString * list UIVirtualMachineItem) :=
  match items with
  | [] => ret ([], [])
  | pItem :: rest =>
      let* fEnabled := isActionEnabled mgr iActionIndex [pItem] in
      let* acc := itemsEnabledFor mgr iActionIndex rest in
      ret (if fEnabled then (name pItem :: fst acc, pItem :: snd acc) else acc)
  end.

Fixpoint discardEach (itemsToDiscard : list UIVirtualMachineItem) : M unit :=
  match itemsToDiscard with
  | [] => ret tt
  | pItem :: rest =>
      (* Open a session to modify VM: *)
      let* comSession := openSession (id pItem) in
      match comSession with
      | None => ret tt
      | Some s =>
          let* fOk := remoteCall Call_DiscardSavedState s in
          do* (if negb fOk then report (cannotDiscardSavedState s) else ret tt) in
          (* Unlock machine finally: *)
          do* UnlockMachine s in
          discardEach rest
      end
  end.

(** [AssertMsgReturnVoid] leaves the slot; [AssertMsg] does not alter the
    control flow and is left out. *)
Definition sltPerformDiscardMachineState (mgr : UIVirtualBoxManager) : M unit :=
  let items := currentItems mgr in
  if bool_decide (items = []) then ret tt
  else
    let* prepared := itemsEnabledFor mgr UIActionIndexST_M_Group_S_Discard items in
    let machineNames := fst prepared in
    let itemsToDiscard := snd prepared in
    (* Confirm discarding saved VM state: *)
    let* fConfirmed := confirm confirmDiscardSavedState (join ", " machineNames) in
    if negb fConfirmed then ret tt
    else discardEach itemsToDiscard.

Fixpoint pauseOrResumeEach (mgr : UIVirtualBoxManager) (fPause : bool)
    (items : list UIVirtualMachineItem) : M unit :=
  match items with
  | [] => ret tt
  | pItem :: rest =>
      (* Get item state: *)
      let enmState := machineState pItem in
      (* Check if current item could be paused/resumed: *)
      let* fEnabled := isActionEnabled mgr UIActionIndexST_M_Group_T_Pause [pItem] in
      if negb fEnabled then pauseOrResumeEach mgr fPause rest
      (* Check if current item already paused: *)
      else if fPause &&
              (bool_decide (enmState = KMachineState_Paused) ||
               bool_decide (enmState = KMachineState_TeleportingPausedVM))
      then pauseOrResumeEach mgr fPause rest
      (* Check if current item already resumed: *)
      else if negb fPause &&
              (bool_decide (enmState = KMachineState_Running) ||
               bool_decide (enmState = KMachineState_Teleporting) ||
               bool_decide (enmState = KMachineState_LiveSnapshotting))
      then pauseOrResumeEach mgr fPause rest
      else
        (* Open a session to modify VM state: *)
        let* comSession := openExistingSession (id pItem) in
        match comSession with
        | None => ret tt
        | Some s =>
            (* Pause/resume VM: *)
            let* fOk := (if fPause then remoteCall Call_Pause s
                         else remoteCall Call_Resume s) in
            do* (if negb fOk
                 then (if fPause then report (cannotPauseMachine s)
                       else report (cannotResumeMachine s))
                 else ret tt) in
            (* Unlock machine finally: *)
            do* UnlockMachine s in
            pauseOrResumeEach mgr fPause rest
        end
  end.

Definition sltPerformPauseOrResumeMachine (mgr : UIVirtualBoxManager) (fPause : bool)
    : M unit :=
  let items := currentItems mgr in
  if bool_decide (items = []) then ret tt
  else pauseOrResumeEach mgr fPause items.

Fixpoint resetEach (itemsToReset : list UIVirtualMachineItem) : M unit :=
  match itemsToReset with
  | [] => ret tt
  | pItem :: rest =>
      let* comSession := openExistingSession (id pItem) in
      match comSession with
      | None => ret tt
      | Some s =>
          (* Reset VM: *)
          do* remoteCall Call_Reset s in
          do* UnlockMachine s in
          resetEach rest
      end
  end.

Definition sltPerformResetMachine (mgr : UIVirtualBoxManager) : M unit :=
  let items := currentItems mgr in
  if bool_decide (items = []) then ret tt
  else
    let* prepared := itemsEnabledFor mgr UIActionIndexST_M_Group_S_Reset items in
    let machineNames := fst prepared in
    let itemsToReset := snd prepared in
    (* Confirm reseting VM: *)
    let* fConfirmed := confirm confirmResetMachine (join ", " machineNames) in
    if negb fConfirmed then ret tt
    else resetEach itemsToReset.

Fixpoint shutdownEach (itemsToShutdown : list UIVirtualMachineItem) : M unit :=
  match itemsToShutdown with
  | [] => ret tt
  | pItem :: rest =>
      let* comSession := openExistingSession (id pItem) in
      match comSession with
      | None => ret tt
      | Some s =>
          (* ACPI Shutdown: *)
          let* fOk := remoteCall Call_PowerButton s in
          do* (if negb fOk then report (cannotACPIShutdownMachine s) else ret tt) in
          do* UnlockMachine s in
          shutdownEach rest
      end
  end.

Definition sltPerformShutdownMachine (mgr : UIVirtualBoxManager) : M unit :=
  let items := currentItems mgr in
  if bool_decide (items = []) then ret tt
  else
    let* prepared :=
      itemsEnabledFor mgr UIActionIndexST_M_Machine_M_Close_S_Shutdown items in
    let machineNames := fst prepared in
    let itemsToShutdown := snd prepared in
    (* Confirm ACPI shutdown current VM: *)
    let* fConfirmed := confirm confirmACPIShutdownMachine (join ", " machineNames) in
    if negb fConfirmed then ret tt
    else shutdownEach itemsToShutdown.

Fixpoint powerOffEach (itemsToPowerOff : list UIVirtualMachineItem) : M unit :=
  match itemsToPowerOff with
  | [] => ret tt
  | pItem :: rest =>
      (* Open a session to modify VM state: *)
      let* comSession := openExistingSession (id pItem) in
      match comSession with
      | None => ret tt
      | Some s =>
          (* Prepare machine power down: *)
          let* fOk := remoteCall Call_PowerDown s in
          do* (if fOk then
                 (* Show machine power down progress: *)
                 do* showModalProgressDialog s in
                 if negb (progressIsOk s) || negb (progressResultCode s =? 0)%Z
                 then report (cannotPowerDownMachine_progress s (machineName s))
                 else ret tt
               else report (cannotPowerDownMachine_console s)) in
          (* Unlock machine finally: *)
          do* UnlockMachine s in
          powerOffEach rest
      end
  end.

Definition sltPerformPowerOffMachine (mgr : UIVirtualBoxManager) : M unit :=
  let items := currentItems mgr in
  if bool_decide (items = []) then ret tt
  else
    let* prepared :=
      itemsEnabledFor mgr UIActionIndexST_M_Machine_M_Close_S_PowerOff items in
    let machineNames := fst prepared in
    let itemsToPowerOff := snd prepared in
    (* Confirm Power Off current VM: *)
    let* fConfirmed := confirm confirmPowerOffMachine (join ", " machineNames) in
    if negb fConfirmed then ret tt
    else powerOffEach itemsToPowerOff.

(** *** Start or show *)

(** The first loop of [performStartOrShowVirtualMachines]. *)
Fixpoint startableOf (items : list UIVirtualMachineItem)
    : list UIVirtualMachineItem * list QString :=
  match items with
  | [] => ([], [])
  | pItem :: rest =>
      let acc := startableOf rest in
      if isAtLeastOneItemCanBeStarted [pItem]
      then (pItem :: fst acc, name pItem :: snd acc)
      else acc
  end.

(** "Fetch item launch mode". *)
Definition itemLaunchMode (enmLaunchMode : LaunchMode) (pItem : UIVirtualMachineItem)
    : LaunchMode :=
  if bool_decide (enmLaunchMode = LaunchMode_Invalid)
  then (if isItemRunningHeadless pItem then LaunchMode_Separate
        else if shiftModifierPressed then LaunchMode_Headless
        else LaunchMode_Default)
  else enmLaunchMode.

Fixpoint launchEach (fStartConfirmed : bool) (enmLaunchMode : LaunchMode)
    (items : list UIVirtualMachineItem) : M unit :=
  match items with
  | [] => ret tt
  | pItem :: rest =>
      do* (if isAtLeastOneItemCanBeShown [pItem] ||
              (isAtLeastOneItemCanBeStarted [pItem] && fStartConfirmed)
           then
             let enmItemLaunchMode := itemLaunchMode enmLaunchMode pItem in
             (* Launch current VM: *)
             launchMachine (id pItem) enmItemLaunchMode
           else ret tt) in
      launchEach fStartConfirmed enmLaunchMode rest
  end.

Definition performStartOrShowVirtualMachines (mgr : UIVirtualBoxManager)
    (items : list UIVirtualMachineItem) (enmLaunchMode : LaunchMode) : M unit :=
  (* Do nothing while group saving is in progress: *)
  if isGroupSavingInProgress mgr then ret tt
  else
    (* Compose the list of startable items: *)
    let startableItems := fst (startableOf items) in
    let startableMachineNames := snd (startableOf items) in
    (* Initially we have start auto-confirmed; but if we have more than one
       item to start we should still ask user for a confirmation: *)
    let* fStartConfirmed :=
      (if (1 <? length startableItems)%nat
       then confirm confirmStartMultipleMachines (join ", " startableMachineNames)
       else ret true) in
    (* For every item => check if it could be launched: *)
    launchEach fStartConfirmed enmLaunchMode items.

Definition sltPerformStartOrShowMachine (mgr : UIVirtualBoxManager) : M unit :=
  let items := currentItems mgr in
  if bool_decide (items = []) then ret tt
  else performStartOrShowVirtualMachines mgr items LaunchMode_Invalid.

Definition sltPerformStartMachineNormal (mgr : UIVirtualBoxManager) : M unit :=
  let items := currentItems mgr in
  if bool_decide (items = []) then ret tt
  else performStartOrShowVirtualMachines mgr items LaunchMode_Default.

Definition sltPerformStartMachineHeadless (mgr : UIVirtualBoxManager) : M unit :=
  let items := currentItems mgr in
  if bool_decide (items = []) then ret tt
  else performStartOrShowVirtualMachines mgr items LaunchMode_Headless.

Definition sltPerformStartMachineDetachable (mgr : UIVirtualBoxManager) : M unit :=
  let items := currentItems mgr in
  if bool_decide (items = []) then ret tt
  else performStartOrShowVirtualMachines mgr items LaunchMode_Separate.

(** ** [updateActionsAppearance] *)

(** The actions whose enabled flag is recomputed, in the order of the
    source. *)
Definition enablementOrder : list ActionIndex :=
  [ UIActionIndex_M_Application_S_Preferences;
    UIActionIndexST_M_File_S_ExportAppliance;
    UIActionIndexST_M_File_S_ImportAppliance;
    UIActionIndexST_M_Welcome_S_Add;
    UIActionIndexST_M_Group_S_Rename;
    UIActionIndexST_M_Group_S_Remove;
    UIActionIndexST_M_Group_T_Pause;
    UIActionIndexST_M_Group_S_Reset;
    UIActionIndexST_M_Group_S_Discard;
    UIActionIndexST_M_Group_S_ShowLogDialog;
    UIActionIndexST_M_Group_S_Refresh;
    UIActionIndexST_M_Group_S_ShowInFileManager;
    UIActionIndexST_M_Group_S_CreateShortcut;
    UIActionIndexST_M_Group_S_Sort;
    UIActionIndexST_M_Machine_S_Settings;
    UIActionIndexST_M_Machine_S_Clone;
    UIActionIndexST_M_Machine_S_Move;
    UIActionIndexST_M_Machine_S_ExportToOCI;
    UIActionIndexST_M_Machine_S_Remove;
    UIActionIndexST_M_Machine_S_AddGroup;
    UIActionIndexST_M_Machine_T_Pause;
    UIActionIndexST_M_Machine_S_Reset;
    UIActionIndexST_M_Machine_S_Discard;
    UIActionIndexST_M_Machine_S_ShowLogDialog;
    UIActionIndexST_M_Machine_S_Refresh;
    UIActionIndexST_M_Machine_S_ShowInFileManager;
    UIActionIndexST_M_Machine_S_CreateShortcut;
    UIActionIndexST_M_Machine_S_SortParent;
    UIActionIndexST_M_Group_M_StartOrShow;
    UIActionIndexST_M_Group_M_StartOrShow_S_StartNormal;
    UIActionIndexST_M_Group_M_StartOrShow_S_StartHeadless;
    UIActionIndexST_M_Group_M_StartOrShow_S_StartDetachable;
    UIActionIndexST_M_Machine_M_StartOrShow;
    UIActionIndexST_M_Machine_M_StartOrShow_S_StartNormal;
    UIActionIndexST_M_Machine_M_StartOrShow_S_StartHeadless;
    UIActionIndexST_M_Machine_M_StartOrShow_S_StartDetachable;
    UIActionIndexST_M_Group_M_Close;
    UIActionIndexST_M_Group_M_Close_S_Detach;
    UIActionIndexST_M_Group_M_Close_S_SaveState;
    UIActionIndexST_M_Group_M_Close_S_Shutdown;
    UIActionIndexST_M_Group_M_Close_S_PowerOff;
    UIActionIndexST_M_Machine_M_Close;
    UIActionIndexST_M_Machine_M_Close_S_Detach;
    UIActionIndexST_M_Machine_M_Close_S_SaveState;
    UIActionIndexST_M_Machine_M_Close_S_Shutdown;
    UIActionIndexST_M_Machine_M_Close_S_PowerOff ].

(** [action(i)->setEnabled(isActionEnabled(i, items))] for each listed [i]. *)
Fixpoint updateEnabled (items : list UIVirtualMachineItem) (l : list ActionIndex)
    (mgr : UIVirtualBoxManager) : M UIVirtualBoxManager :=
  match l with
  | [] => ret mgr
  | i :: rest =>
      let* fEnabled := isActionEnabled mgr i items in
      updateEnabled items rest (withAction i (setEnabled fEnabled) mgr)
  end.

Definition updateActionsAppearance (mgr : UIVirtualBoxManager) : M UIVirtualBoxManager :=
  (* Get current items: *)
  let items := currentItems mgr in
  let* mgr := updateEnabled items enablementOrder mgr in
  (* Start/Show action is deremined by 1st item: *)
  let iState :=
    match currentItem mgr with
    | Some pItem =>
        if accessible pItem then (if isItemPoweredOff pItem then 0 else 1)%nat
        else 0%nat
    | None => 0%nat
    end in
  let mgr := withAction UIActionIndexST_M_Group_M_StartOrShow (setState iState) mgr in
  let mgr := withAction UIActionIndexST_M_Machine_M_StartOrShow (setState iState) mgr in
  (* Pause/Resume action is deremined by 1st started item: *)
  let pFirstStartedAction := List.find isItemStarted items in
  let fChecked :=
    match pFirstStartedAction with
    | Some pItem => isItemPaused pItem
    | None => false
    end in
  let mgr := withAction UIActionIndexST_M_Group_T_Pause (setChecked fChecked) mgr in
  let mgr := withAction UIActionIndexST_M_Machine_T_Pause (setChecked fChecked) mgr in
  (* Update action toggle states: *)
  ret
    match widget_currentMachineTool (m_pWidget mgr) with
    | UIToolType_Details =>
        withAction UIActionIndexST_M_Machine_M_Tools_T_Details (setChecked true)
          (withAction UIActionIndexST_M_Group_M_Tools_T_Details (setChecked true) mgr)
    | UIToolType_Snapshots =>
        withAction UIActionIndexST_M_Machine_M_Tools_T_Snapshots (setChecked true)
          (withAction UIActionIndexST_M_Group_M_Tools_T_Snapshots (setChecked true) mgr)
    | UIToolType_Logs =>
        withAction UIActionIndexST_M_Machine_M_Tools_T_Logs (setChecked true)
          (withAction UIActionIndexST_M_Group_M_Tools_T_Logs (setChecked true) mgr)
    | _ => mgr
    end.

(** ** Slots that open a modal sub-flow *)

Definition isEmpty (s : QString) : bool :=
  match s with
  | EmptyString => true
  | String _ _ => false
  end.

(** "Unlock the action allowing further calls": only when the action pool is
    still there. *)
Definition unlockAction (i : ActionIndex) (after : option UIVirtualBoxManager)
    : M (option UIVirtualBoxManager) :=
  match after with
  | Some mgr =>
      let mgr := withAction i (setProperty_opened QVariant_Invalid) mgr in
      let* mgr := updateActionsAppearance mgr in
      ret (Some mgr)
  | None => ret None
  end.

Definition sltOpenImportApplianceWizard (mgr : UIVirtualBoxManager)
    (strFileName : QString) : M (option UIVirtualBoxManager) :=
  let strTmpFile := if VBOX_WS_MAC then darwinResolveAlias strFileName else strFileName in
  (* Lock the action preventing cascade calls: *)
  let mgr := withAction UIActionIndexST_M_File_S_ImportAppliance
               (setProperty_opened (QVariant_Bool true)) mgr in
  let* mgr := updateActionsAppearance mgr in
  let* after :=
    (if isEmpty strFileName || wizardImportIsValid strTmpFile
     then execModal (UIWizardImportApp strTmpFile) mgr
     else ret (Some mgr)) in
  (* Unlock the action allowing further calls: *)
  unlockAction UIActionIndexST_M_File_S_ImportAppliance after.

(** [sender] is the action that invoked the slot, if any. *)
Definition sltOpenExportApplianceWizard (mgr : UIVirtualBoxManager)
    (sender : option ActionIndex) : M (option UIVirtualBoxManager) :=
  (* Get selected items: *)
  let items := currentItems mgr in
  (* Populate the list of VM names: *)
  let names := map name items in
  (* Lock the action preventing cascade calls: *)
  let mgr := withAction UIActionIndexST_M_File_S_ExportAppliance
               (setProperty_opened (QVariant_Bool true)) mgr in
  let mgr := withAction UIActionIndexST_M_Machine_S_ExportToOCI
               (setProperty_opened (QVariant_Bool true)) mgr in
  let* mgr := updateActionsAppearance mgr in
  let* after :=
    execModal (UIWizardExportApp names
                 (bool_decide (sender = Some UIActionIndexST_M_Machine_S_ExportToOCI)))
              mgr in
  (* Unlock the action allowing further calls: *)
  match after with
  | Some mgr =>
      let mgr := withAction UIActionIndexST_M_File_S_ExportAppliance
                   (setProperty_opened QVariant_Invalid) mgr in
      let mgr := withAction UIActionIndexST_M_Machine_S_ExportToOCI
                   (setProperty_opened QVariant_Invalid) mgr in
      let* mgr := updateActionsAppearance mgr in
      ret (Some mgr)
  | None => ret None
  end.

Definition sltOpenPreferencesDialog (mgr : UIVirtualBoxManager)
    : M (option UIVirtualBoxManager) :=
  let mgr := set_fFirstMediumEnumerationHandled true mgr in
  (* Lock the action preventing cascade calls: *)
  let mgr := withAction UIActionIndex_M_Application_S_Preferences
               (setProperty_opened (QVariant_Bool true)) mgr in
  let* mgr := updateActionsAppearance mgr in
  (* Create and execute global settings window: *)
  let* after := execModal UISettingsDialogGlobal mgr in
  (* Unlock the action allowing further calls: *)
  unlockAction UIActionIndex_M_Application_S_Preferences after.

Definition sltOpenAddMachineDialog (mgr : UIVirtualBoxManager)
    (strFileName : QString) : M (option UIVirtualBoxManager) :=
  let strTmpFile := if VBOX_WS_MAC then darwinResolveAlias strFileName else strFileName in
  (* Lock the action preventing cascade calls: *)
  let mgr := withAction UIActionIndexST_M_Welcome_S_Add
               (setProperty_opened (QVariant_Bool true)) mgr in
  let* mgr := updateActionsAppearance mgr in
  (* No file specified: *)
  let* chosen :=
    (if isEmpty strTmpFile then
       let* after := execModal QIFileDialog_getOpenFileNames mgr in
       ret (after, match chosenFileNames mgr with
                   | strFile :: _ => strFile
                   | [] => strTmpFile
                   end)
     else ret (Some mgr, strTmpFile)) in
  let strTmpFile := snd chosen in
  (* Unlock the action allowing further calls: *)
  let* after := unlockAction UIActionIndexST_M_Welcome_S_Add (fst chosen) in
  (* Nothing was chosen? *)
  if isEmpty strTmpFile then ret after
  else
    (* Make sure this machine can be opened: *)
    let fOk := openMachineIsOk strTmpFile in
    do* emit (EvOpenMachine strTmpFile fOk) in
    if negb fOk then
      do* report (cannotOpenMachine strTmpFile) in
      ret after
    else
      (* Make sure this machine was NOT registered already: *)
      match findMachineName strTmpFile with
      | Some strOldName =>
          do* report (cannotReregisterExistingMachine strTmpFile strOldName) in
          ret after
      | None =>
          (* Register that machine: *)
          do* emit (EvRegisterMachine strTmpFile) in
          ret after
      end.

(** [QString::split("%%")]. *)
Definition consHead (c : ascii) (parts : list QString) : list QString :=
  match parts with
  | part :: rest => String c part :: rest
  | [] => [String c EmptyString]
  end.

Fixpoint splitPercents (s : QString) : list QString :=
  match s with
  | EmptyString => [EmptyString]
  | String c rest =>
      match rest with
      | String c' rest' =>
          if Ascii.eqb c "%" && Ascii.eqb c' "%"
          then EmptyString :: splitPercents rest'
          else consHead c (splitPercents rest)
      | EmptyString => [String c EmptyString]
      end
  end.

(** [!strCategory.isEmpty() && strCategory[0] != '#']. *)
Definition isHref (strCategory : QString) : bool :=
  match strCategory with
  | String c _ => negb (Ascii.eqb c "#")
  | EmptyString => false
  end.

Definition sltOpenMachineSettingsDialog (mgr : UIVirtualBoxManager)
    (strCategory strControl : QString) (uID : option QUuid)
    : M (option UIVirtualBoxManager) :=
  (* Get current item: *)
  match currentItem mgr with
  | None => ret (Some mgr)
  | Some pItem =>
      (* Lock the action preventing cascade calls: *)
      let mgr := withAction UIActionIndexST_M_Machine_S_Settings
                   (setProperty_opened (QVariant_Bool true)) mgr in
      let* mgr := updateActionsAppearance mgr in
      let* after :=
        (if isHref strCategory then
           (* Process href from VM details / description: *)
           do* emit (EvOpenURL strCategory) in
           ret (Some mgr)
         else
           (* Check if control is coded into the URL by %%: *)
           let parts := splitPercents strCategory in
           let fCoded := isEmpty strControl && bool_decide (length parts = 2%nat) in
           let strCategory' := if fCoded then nth 0 parts EmptyString else strCategory in
           let strControl' := if fCoded then nth 1 parts EmptyString else strControl in
           let mgr := set_fFirstMediumEnumerationHandled true mgr in
           (* Create and execute corresponding VM settings window: *)
           execModal (UISettingsDialogMachine
                        (match uID with Some u => u | None => id pItem end)
                        strCategory' strControl') mgr) in
      (* Unlock the action allowing further calls: *)
      unlockAction UIActionIndexST_M_Machine_S_Settings after
  end.

(** The five slots behind the "opened" guard, with their arguments, and the
    actions each of them locks. *)
Inductive ModalSlot : Type :=
| Slot_ImportAppliance (strFileName : QString)
| Slot_ExportAppliance (sender : option ActionIndex)
| Slot_Preferences
| Slot_AddMachine (strFileName : QString)
| Slot_MachineSettings (strCategory strControl : QString) (uID : option QUuid).

Definition runSlot (slot : ModalSlot) (mgr : UIVirtualBoxManager)
    : M (option UIVirtualBoxManager) :=
  match slot with
  | Slot_ImportAppliance strFileName => sltOpenImportApplianceWizard mgr strFileName
  | Slot_ExportAppliance sender => sltOpenExportApplianceWizard mgr sender
  | Slot_Preferences => sltOpenPreferencesDialog mgr
  | Slot_AddMachine strFileName => sltOpenAddMachineDialog mgr strFileName
  | Slot_MachineSettings strCategory strControl uID =>
      sltOpenMachineSettingsDialog mgr strCategory strControl uID
  end.










(** The probe the shutdown filter runs for one item of the selection: an
    item that is started and running has an existing session asked for and,
    when the session opens, the console (unless null) asked about ACPI and
    the session released. *)
Definition shutdownProbeOf (pItem : UIVirtualMachineItem) : list Event :=
  if isItemStarted pItem && isItemRunning pItem then
    EvOpenExistingSession (id pItem) (existingSessionOpens (id pItem))
    :: (if existingSessionOpens (id pItem)
        then (if consoleIsNull (id pItem) then []
              else [EvGetGuestEnteredACPIMode (id pItem)
                      (guestEnteredACPIMode (id pItem))])
             ++ [EvUnlockMachine (id pItem)]
        else [])
  else [].

(** The log of a confirmation and of what is run once it is accepted. *)
Definition confirmedLog (c : Confirmation) (names : QString) (accepted : list Event)
    : list Event :=
  EvConfirm c names (confirmAnswer c names)
  :: (if confirmAnswer c names then accepted else []).

End Manager.

(** ** A family of concrete collaborators

    Used to run the slots on explicit inputs.
    Modelled from the spec: the item classification follows section 4.2
    (started is anything that is not PoweredOff, Saved, Aborted or
    inaccessible; running is Running and its teleporting and snapshotting
    variants; paused is Paused and TeleportingPausedVM); an item is editable
    when it is accessible and its machine is not locked by a session. *)
Record Scenario : Type := mkScenario {
  sc_locked : list QUuid;          (* machines locked by some session *)
  sc_headless : list QUuid;        (* machines running headless *)
  sc_declined : list Confirmation; (* confirmations the user declines *)
  sc_unreachable : list QUuid;     (* machines whose session fails to open *)
  sc_failing : list (RemoteCall * QUuid); (* remote calls that fail *)
  sc_failedProgress : list QUuid;  (* progress objects ending with an error *)
  sc_acpiReady : list QUuid        (* guests that entered ACPI mode *)
}.

Definition scenario_isItemRunning (pItem : UIVirtualMachineItem) : bool :=
  accessible pItem &&
  match machineState pItem with
  | KMachineState_Running | KMachineState_Teleporting
  | KMachineState_LiveSnapshotting => true
  | _ => false
  end.

Definition scenario_isItemPaused (pItem : UIVirtualMachineItem) : bool :=
  accessible pItem &&
  match machineState pItem with
  | KMachineState_Paused | KMachineState_TeleportingPausedVM => true
  | _ => false
  end.

Definition scenario_isItemStarted (pItem : UIVirtualMachineItem) : bool :=
  accessible pItem &&
  match machineState pItem with
  | KMachineState_PoweredOff | KMachineState_Saved | KMachineState_Aborted => false
  | _ => true
  end.

Definition scenarioCollaborators (sc : Scenario) : Collaborators := {|
  isItemEditable pItem :=
    accessible pItem && negb (bool_decide (id pItem ∈ sc_locked sc));
  isItemSaved pItem :=
    accessible pItem && bool_decide (machineState pItem = KMachineState_Saved);
  isItemPoweredOff pItem :=
    accessible pItem && bool_decide (machineState pItem = KMachineState_PoweredOff);
  isItemStarted := scenario_isItemStarted;
  isItemRunning := scenario_isItemRunning;
  isItemRunningHeadless pItem :=
    scenario_isItemRunning pItem && bool_decide (id pItem ∈ sc_headless sc);
  isItemPaused := scenario_isItemPaused;
  VBOX_WS_MAC := false;
  shiftModifierPressed := false;
  confirmAnswer c _ := negb (bool_decide (c ∈ sc_declined sc));
  sessionOpens machine := negb (bool_decide (machine ∈ sc_unreachable sc));
  existingSessionOpens machine := negb (bool_decide (machine ∈ sc_unreachable sc));
  consoleIsNull _ := false;
  guestEnteredACPIMode machine := bool_decide (machine ∈ sc_acpiReady sc);
  remoteCallIsOk c machine := negb (bool_decide ((c, machine) ∈ sc_failing sc));
  progressIsOk machine := negb (bool_decide (machine ∈ sc_failedProgress sc));
  progressResultCode machine :=
    if bool_decide (machine ∈ sc_failedProgress sc) then (-1)%Z else 0%Z;
  machineName _ := "vm";
  openMachineIsOk _ := true;
  findMachineName _ := None;
  darwinResolveAlias strFile := strFile;
  wizardImportIsValid _ := true;
  modalResult _ mgr := Some mgr;
  chosenFileNames _ := []
|}.

(** The scenario in which every answer is favourable. *)
Definition calm : Scenario := mkScenario [] [] [] [] [] [] [].

Definition noAction : UIAction := mkAction QVariant_Invalid false false 0.

(** A manager with a fresh action pool, the Details tool and a selection. *)
Definition managerOf (items : list UIVirtualMachineItem) : UIVirtualBoxManager :=
  mkManager (fun _ => noAction)
            (mkWidget (head items) items false false false UIToolType_Details false)
            false.

(** The same while the chooser is saving its group settings. *)
Definition managerSavingGroups (items : list UIVirtualMachineItem)
    : UIVirtualBoxManager :=
  mkManager (fun _ => noAction)
            (mkWidget (head items) items true false false UIToolType_Details false)
            false.

Definition machineIn (machine : QUuid) (strName : QString) (s : KMachineState)
    : UIVirtualMachineItem :=
  mkItem machine strName s true (ConfigurationAccessLevel_Other 0) false
         "/vms/vm.vbox".

(** * Further slots and bookkeeping *)

(** ** Sessions along a log

    [sessionStep held e]: the machine whose session is held after the event
    [e], or [None] when [e] breaks the discipline: a session is acquired
    while another is held; a console call, a progress dialog or a release
    names a machine whose session is not the one held; a confirmation is
    asked, or a wizard, settings dialog or file dialog of a guarded slot is
    entered, while a session is held.  Messages, launches and registry calls
    are not constrained: a batch reports a failure, as it shows its progress
    dialog, under the session of the machine concerned. *)
Definition sessionStep (held : option QUuid) (e : Event) : option (option QUuid) :=
  match e, held with
  | EvOpenSession machine fOpened, None
  | EvOpenExistingSession machine fOpened, None =>
      Some (if fOpened then Some machine else None)
  | EvOpenSession _ _, Some _
  | EvOpenExistingSession _ _, Some _ => None
  | EvGetGuestEnteredACPIMode machine _, Some h
  | EvRemoteCall _ machine, Some h
  | EvShowModalProgressDialog machine, Some h =>
      if bool_decide (machine = h) then Some held else None
  | EvGetGuestEnteredACPIMode _ _, None
  | EvRemoteCall _ _, None
  | EvShowModalProgressDialog _, None => None
  | EvUnlockMachine machine, Some h =>
      if bool_decide (machine = h) then Some None else None
  | EvUnlockMachine _, None => None
  | EvExecModal _ _, Some _
  | EvConfirm _ _ _, Some _ => None
  | _, _ => Some held
  end.

Fixpoint sessionRun (held : option QUuid) (log : list Event) : option (option QUuid) :=
  match log with
  | [] => Some held
  | e :: rest =>
      match sessionStep held e with
      | Some held' => sessionRun held' rest
      | None => None
      end
  end.

(** The log keeps the discipline and ends with no session held. *)
Definition sessionsBalanced (log : list Event) : Prop :=
  sessionRun None log = Some None.

(** Events that neither need nor change a session. *)
Definition isSessionNeutral (e : Event) : bool :=
  match e with
  | EvMessage _ | EvLaunchMachine _ _ | EvOpenURL _
  | EvOpenMachine _ _ | EvRegisterMachine _ => true
  | _ => false
  end.

(** The items a batch loop reaches: those up to and including the first one
    whose session cannot be opened. *)
Fixpoint upToFirstUnreachable (fOpens : UIVirtualMachineItem -> bool)
    (items : list UIVirtualMachineItem) : list UIVirtualMachineItem :=
  match items with
  | [] => []
  | pItem :: rest =>
      pItem :: (if fOpens pItem then upToFirstUnreachable fOpens rest else [])
  end.

Section FurtherSlots.

Context {vbox : Collaborators}.

(** A pause or resume batch goes on after an item it passes over (not
    started, or already in the requested state) and after an item whose
    session it could open. *)
Definition pauseOrResumeContinues (fPause : bool) (pItem : UIVirtualMachineItem)
    : bool :=
  negb (isItemStarted pItem) ||
  alreadyInRequestedState fPause pItem ||
  existingSessionOpens (id pItem).

(** The calls of the add-machine slot on the registry, with their
    reports. *)
Definition isRegistryCall (e : Event) : bool :=
  match e with
  | EvOpenMachine _ _ | EvRegisterMachine _
  | EvMessage (cannotOpenMachine _)
  | EvMessage (cannotReregisterExistingMachine _ _) => true
  | _ => false
  end.

(** The file the add-machine slot goes on with: the one it was given or,
    when none was given, the first one chosen in the file dialog, opened
    once the action is locked and the actions are refreshed. *)
Definition addMachineFile (mgr : UIVirtualBoxManager) (strFileName : QString)
    : QString :=
  let strTmpFile := if VBOX_WS_MAC then darwinResolveAlias strFileName else strFileName in
  if isEmpty strTmpFile then
    match chosenFileNames
            (result (updateActionsAppearance
                       (withAction UIActionIndexST_M_Welcome_S_Add
                          (setProperty_opened (QVariant_Bool true)) mgr))) with
    | strFile :: _ => strFile
    | [] => strTmpFile
    end
  else strTmpFile.

Definition sltGroupCloseMenuAboutToShow (mgr : UIVirtualBoxManager)
    : M UIVirtualBoxManager :=
  (* Get selected items: *)
  let items := currentItems mgr in
  if bool_decide (items = []) then ret mgr
  else
    let* fEnabled := isActionEnabled mgr UIActionIndexST_M_Group_M_Close_S_Shutdown items in
    ret (withAction UIActionIndexST_M_Group_M_Close_S_Shutdown (setEnabled fEnabled) mgr).

Definition sltMachineCloseMenuAboutToShow (mgr : UIVirtualBoxManager)
    : M UIVirtualBoxManager :=
  (* Get selected items: *)
  let items := currentItems mgr in
  if bool_decide (items = []) then ret mgr
  else
    let* fEnabled := isActionEnabled mgr UIActionIndexST_M_Machine_M_Close_S_Shutdown items in
    ret (withAction UIActionIndexST_M_Machine_M_Close_S_Shutdown (setEnabled fEnabled) mgr).

(** The refresh slots: each is a call of [updateActionsAppearance]
    ([updateActionsVisibility], where called first, touches the visibility of
    menus only). *)
Definition sltHandleGroupSavingProgressChange (mgr : UIVirtualBoxManager)
    : M UIVirtualBoxManager := updateActionsAppearance mgr.

Definition sltCurrentSnapshotItemChange (mgr : UIVirtualBoxManager)
    : M UIVirtualBoxManager := updateActionsAppearance mgr.

Definition sltHandleStateChange (mgr : UIVirtualBoxManager) (uID : QUuid)
    : M UIVirtualBoxManager := updateActionsAppearance mgr.

End FurtherSlots.

(** ** Slots with further collaborators *)

(** A dialog of the manager-dialog family, known by its address. *)
Definition QIManagerDialog : Type := N.

Inductive FurtherMessage : Type :=
| cannotSaveMachineState_progress (machine : QUuid) (machineName : QString)
| cannotSaveMachineState_machine (machine : QUuid)
| cannotMoveMachine_progress (machine : QUuid) (machineName : QString)
| cannotMoveMachine_machine (machine : QUuid).

(** The events of the slots below: those of the first part, and the calls
    these slots add. *)
Inductive FurtherEvent : Type :=
| EvBase (e : Event)
| EvSaveState (machine : QUuid)
| EvGetExistingDirectory (strChosen : QString)
| EvMoveTo (machine : QUuid) (strFolder : QString)
| EvFurtherMessage (m : FurtherMessage)
| EvOpenInFileManager (strPath : QString)
| EvCreateMachineShortcut (strSettingsFile strDesktop strName : QString)
                          (machine : QUuid)
| EvSetToolsType (enmType : UIToolType)
| EvCloseMachineTool (enmType : UIToolType)
| EvPrepareLogViewer (machine : QUuid) (pDialog : option QIManagerDialog)
| EvShowDialog (pDialog : QIManagerDialog)
| EvCleanupLogViewer (pDialog : option QIManagerDialog)
| EvLaunchKnownMachine (machine : QUuid)
| EvSetEPInstallationRequested (fRequested : bool)
| EvDoExtPackInstallation (strFile : QString)
| EvQueueMediumEnumerationFinish
| EvBaseClassShowEvent.

Definition MF (A : Type) : Type := (A * list FurtherEvent)%type.

Definition fret {A : Type} (a : A) : MF A := (a, []).

Definition fbind {A B : Type} (m : MF A) (f : A -> MF B) : MF B :=
  let (a, l1) := m in
  let (b, l2) := f a in
  (b, l1 ++ l2).

Definition femit (e : FurtherEvent) : MF unit := (tt, [e]).

(** A computation of the first part, run among the further ones. *)
Definition lift {A : Type} (m : M A) : MF A := (fst m, map EvBase (snd m)).

Definition fresult {A : Type} (m : MF A) : A := fst m.
Definition fevents {A : Type} (m : MF A) : list FurtherEvent := snd m.

(** The events of the first part within a further log. *)
Fixpoint baseEvents (log : list FurtherEvent) : list Event :=
  match log with
  | [] => []
  | EvBase e :: rest => e :: baseEvents rest
  | _ :: rest => baseEvents rest
  end.

(** [sessionStep] extended: saving the state and moving a machine are calls
    on the machine of the session held. *)
Definition furtherSessionStep (held : option QUuid) (e : FurtherEvent)
    : option (option QUuid) :=
  match e with
  | EvBase e' => sessionStep held e'
  | EvSaveState machine | EvMoveTo machine _ =>
      if bool_decide (held = Some machine) then Some held else None
  | _ => Some held
  end.

Fixpoint furtherSessionRun (held : option QUuid) (log : list FurtherEvent)
    : option (option QUuid) :=
  match log with
  | [] => Some held
  | e :: rest =>
      match furtherSessionStep held e with
      | Some held' => furtherSessionRun held' rest
      | None => None
      end
  end.

Declare Scope further_scope.
Delimit Scope further_scope with further.
Notation "'let*' x ':=' c 'in' k" := (fbind c (fun x => k))
  (at level 10, x name, c at level 100, k at level 200) : further_scope.
Notation "'do*' c 'in' k" := (fbind c (fun _ => k))
  (at level 10, c at level 100, k at level 200) : further_scope.

(** The answers the further slots need: of the COM wrappers (saving,
    moving, paths, hardware identifiers), of the file dialog, of the desktop
    services, of the chooser widget and of the log-viewer factory. *)
(** A URL, known by its text. *)
Definition QUrl : Type := QString.

(** The lists of file extensions the URL handler asks about. *)
Inductive FileExts : Type :=
| VBoxFileExts
| OVFFileExts
| VBoxExtPackFileExts.

Class FurtherCollaborators : Type := {
  saveStateIsOk : QUuid -> bool;
  sessionMachineAcquired : QUuid -> bool;
  existingDirectory : QString;
  moveToIsOk : QUuid -> QString -> bool;
  settingsFilePath : QUuid -> QString;
  desktopLocation : QString;
  hardwareUUID : QUuid -> QString;
  isMachineToolOpened : UIToolType -> bool;
  prepareLogViewer : QUuid -> option QIManagerDialog;
  (* sltHandleOpenUrlCall *)
  VBOX_GUI_WITH_NETWORK_MANAGER : bool;
  takeArgumentUrls : list QUrl;
  toLocalFile : QUrl -> QString;
  fileExists : QString -> bool;
  hasAllowedExtension : QString -> FileExts -> bool;
  (* [FindMachine] on a file: the machine, when the call is ok and the
     machine not null *)
  findMachineByFile : QString -> option QUuid
}.

Section FurtherCollaboratorSlots.

Context {vbox : Collaborators} {further : FurtherCollaborators}.

Local Open Scope further_scope.





Fixpoint showInFileManagerEach (mgr : UIVirtualBoxManager)
    (items : list UIVirtualMachineItem) : MF unit :=
  match items with
  | [] => fret tt
  | pItem :: rest =>
      (* Check if that item could be shown in file-browser: *)
      let* fEnabled :=
        lift (isActionEnabled mgr UIActionIndexST_M_Group_S_ShowInFileManager [pItem]) in
      do* (if negb fEnabled then fret tt
           else
             (* Show VM in filebrowser: *)
             femit (EvOpenInFileManager (settingsFilePath (id pItem)))) in
      showInFileManagerEach mgr rest
  end.

Definition sltShowMachineInFileManager (mgr : UIVirtualBoxManager) : MF unit :=
  let items := currentItems mgr in
  if bool_decide (items = []) then fret tt
  else showInFileManagerEach mgr items.

Fixpoint createMachineShortcutEach (mgr : UIVirtualBoxManager)
    (items : list UIVirtualMachineItem) : MF unit :=
  match items with
  | [] => fret tt
  | pItem :: rest =>
      (* Check if shortcuts could be created for this item: *)
      let* fEnabled :=
        lift (isActionEnabled mgr UIActionIndexST_M_Group_S_CreateShortcut [pItem]) in
      do* (if negb fEnabled then fret tt
           else
             (* Create shortcut for this VM: *)
             femit (EvCreateMachineShortcut (settingsFilePath (id pItem))
                      desktopLocation (machineName (id pItem)) (id pItem))) in
      createMachineShortcutEach mgr rest
  end.

Definition sltPerformCreateMachineShortcut (mgr : UIVirtualBoxManager) : MF unit :=
  let items := currentItems mgr in
  if bool_decide (items = []) then fret tt
  else createMachineShortcutEach mgr items.

End FurtherCollaboratorSlots.

(** ** The log viewers

    [m_logViewers] is a [QMap] from the hardware identifier of a machine to
    the address of its log-viewer dialog (possibly null); it is kept as the
    list of its entries in the order of the keys, the order in which the
    map is iterated. *)
From Stdlib Require Sorted OrderedTypeEx.
From Stdlib Require Import Btauto.

Definition QMap (V : Type) : Type := list (QString * V).

Definition LogViewers : Type := QMap (option QIManagerDialog).

(** [QMap::find]: the entry of a key, if there is one. *)
Fixpoint qmap_find {V : Type} (m : QMap V) (strKey : QString) : option V :=
  match m with
  | [] => None
  | (strEntry, v) :: rest =>
      if String.eqb strEntry strKey then Some v else qmap_find rest strKey
  end.

(** [QMap::insert]: the value of an existing key is replaced, a new key
    takes its place in the order of the keys. *)
Fixpoint qmap_insert {V : Type} (strKey : QString) (v : V) (m : QMap V) : QMap V :=
  match m with
  | [] => [(strKey, v)]
  | (strEntry, v') :: rest =>
      match String.compare strKey strEntry with
      | Eq => (strEntry, v) :: rest
      | Lt => (strKey, v) :: (strEntry, v') :: rest
      | Gt => (strEntry, v') :: qmap_insert strKey v rest
      end
  end.

(** [QMap::remove]. *)
Definition qmap_remove {V : Type} (strKey : QString) (m : QMap V) : QMap V :=
  List.filter (fun entry => negb (String.eqb (fst entry) strKey)) m.

(** [QMap::keys]. *)
Definition qmap_keys {V : Type} (m : QMap V) : list QString := map fst m.

(** [QMap::value]: a default-constructed value (here the null pointer) for
    a missing key. *)
Definition qmap_value (m : LogViewers) (strKey : QString) : option QIManagerDialog :=
  match qmap_find m strKey with
  | Some pDialog => pDialog
  | None => None
  end.

(** The map after [m_logViewers[strKey]] was evaluated: the subscript
    operator of a non-const map creates a missing entry, with a null
    pointer. *)
Definition qmap_subscripted (m : LogViewers) (strKey : QString) : LogViewers :=
  match qmap_find m strKey with
  | Some _ => m
  | None => qmap_insert strKey None m
  end.

(** The keys grow strictly along the map. *)
Definition qmap_sorted {V : Type} (m : QMap V) : Prop :=
  Sorted.StronglySorted (fun strKey strNext => String.compare strKey strNext = Lt)
                 (qmap_keys m).

(** The search of [sltCloseLogViewerWindow] and the [erase] that follows:
    the map without the first entry that holds the dialog, when there is
    one. *)
Fixpoint eraseFirstHolding (pSender : QIManagerDialog) (m : LogViewers)
    : option LogViewers :=
  match m with
  | [] => None
  | (strEntry, pDialog) :: rest =>
      if bool_decide (pDialog = Some pSender) then Some rest
      else
        match eraseFirstHolding pSender rest with
        | Some rest' => Some ((strEntry, pDialog) :: rest')
        | None => None
        end
  end.

(** The map once the open slot has handled an item for which the log may be
    shown: an entry with a dialog is kept, a missing or null entry receives
    what the factory prepared (or stays, or becomes, a null entry). *)
Definition viewersAfterItem (strKey : QString) (pPrepared : option QIManagerDialog)
    (viewers : LogViewers) : LogViewers :=
  match qmap_value (qmap_subscripted viewers strKey) strKey with
  | None =>
      match pPrepared with
      | Some pDialog => qmap_insert strKey (Some pDialog) (qmap_subscripted viewers strKey)
      | None => qmap_subscripted viewers strKey
      end
  | Some _ => qmap_subscripted viewers strKey
  end.

Section LogViewerSlots.

Context {vbox : Collaborators} {further : FurtherCollaborators}.

Local Open Scope further_scope.

Fixpoint openLogViewerEach (mgr : UIVirtualBoxManager)
    (items : list UIVirtualMachineItem) (viewers : LogViewers) : MF LogViewers :=
  match items with
  | [] => fret viewers
  | pItem :: rest =>
      (* Check if log could be show for the current item: *)
      let* fEnabled :=
        lift (isActionEnabled mgr UIActionIndexST_M_Group_S_ShowLogDialog [pItem]) in
      if negb fEnabled then openLogViewerEach mgr rest viewers
      else
        let strKey := hardwareUUID (id pItem) in
        let viewers := qmap_subscripted viewers strKey in
        let* shown :=
          (match qmap_value viewers strKey with
           | None =>
               (* Create and Show VM Log Viewer: *)
               let pLogViewerDialog := prepareLogViewer (id pItem) in
               do* femit (EvPrepareLogViewer (id pItem) pLogViewerDialog) in
               fret (pLogViewerDialog,
                     match pLogViewerDialog with
                     | Some pDialog => qmap_insert strKey (Some pDialog) viewers
                     | None => viewers
                     end)
           | Some pDialog => fret (Some pDialog, viewers)
           end) in
        do* (match fst shown with
             | Some pDialog =>
                 (* Show instance: *)
                 femit (EvShowDialog pDialog)
             | None => fret tt
             end) in
        openLogViewerEach mgr rest (snd shown)
  end.

Definition sltOpenLogViewerWindow (mgr : UIVirtualBoxManager) (viewers : LogViewers)
    : MF LogViewers :=
  (* Get selected items: *)
  let items := currentItems mgr in
  if bool_decide (items = []) then fret viewers
  else
    (* First check if instance of widget opened the embedded way: *)
    do* (if isMachineToolOpened UIToolType_Logs then
           do* femit (EvSetToolsType UIToolType_Details) in
           femit (EvCloseMachineTool UIToolType_Logs)
         else fret tt) in
    (* For each selected item: *)
    openLogViewerEach mgr items viewers.

(** What the loop shows when each item for which the log may be shown has
    its dialog in the map already. *)
Definition shownDialogs (viewers : LogViewers) (items : list UIVirtualMachineItem)
    : list FurtherEvent :=
  flat_map (fun pItem =>
              if accessible pItem
              then match qmap_value viewers (hardwareUUID (id pItem)) with
                   | Some pDialog => [EvShowDialog pDialog]
                   | None => []
                   end
              else []) items.

(** "Just wipe out everything". *)
Fixpoint wipeLogViewers (keys : list QString) (viewers : LogViewers) : MF LogViewers :=
  match keys with
  | [] => fret viewers
  | strKey :: rest =>
      (* First remove each log-viewer dialog from the map: *)
      let pDialog := qmap_value viewers strKey in
      let viewers := qmap_remove strKey viewers in
      do* femit (EvCleanupLogViewer pDialog) in
      wipeLogViewers rest viewers
  end.

(** [pSender] is [qobject_cast<QIManagerDialog*>(sender())]. *)
Definition sltCloseLogViewerWindow (pSender : option QIManagerDialog)
    (viewers : LogViewers) : MF LogViewers :=
  match pSender with
  | Some pDialog =>
      (* Search for the sender of the signal within the m_logViewers map: *)
      match eraseFirstHolding pDialog viewers with
      | None => fret viewers
      | Some viewers' =>
          (* First remove this log-viewer dialog from the map: *)
          do* femit (EvCleanupLogViewer (Some pDialog)) in
          fret viewers'
      end
  | None => wipeLogViewers (qmap_keys viewers) viewers
  end.

End LogViewerSlots.

(** ** Actions enabled by one item

    The machine actions whose case of [isActionEnabled] asks for "at least
    one item" of some kind, the two Shutdown indexes apart. *)
Definition isAnyItemAction (iActionIndex : ActionIndex) : bool :=
  match iActionIndex with
  | UIActionIndexST_M_Machine_S_Remove
  | UIActionIndexST_M_Group_M_StartOrShow
  | UIActionIndexST_M_Group_M_StartOrShow_S_StartNormal
  | UIActionIndexST_M_Group_M_StartOrShow_S_StartHeadless
  | UIActionIndexST_M_Group_M_StartOrShow_S_StartDetachable
  | UIActionIndexST_M_Machine_M_StartOrShow
  | UIActionIndexST_M_Machine_M_StartOrShow_S_StartNormal
  | UIActionIndexST_M_Machine_M_StartOrShow_S_StartHeadless
  | UIActionIndexST_M_Machine_M_StartOrShow_S_StartDetachable
  | UIActionIndexST_M_Group_S_Discard
  | UIActionIndexST_M_Machine_S_Discard
  | UIActionIndexST_M_Group_S_ShowLogDialog
  | UIActionIndexST_M_Machine_S_ShowLogDialog
  | UIActionIndexST_M_Group_T_Pause
  | UIActionIndexST_M_Machine_T_Pause
  | UIActionIndexST_M_Group_S_Reset
  | UIActionIndexST_M_Machine_S_Reset
  | UIActionIndexST_M_Group_S_Refresh
  | UIActionIndexST_M_Machine_S_Refresh
  | UIActionIndexST_M_Group_S_ShowInFileManager
  | UIActionIndexST_M_Machine_S_ShowInFileManager
  | UIActionIndexST_M_Group_S_CreateShortcut
  | UIActionIndexST_M_Machine_S_CreateShortcut
  | UIActionIndexST_M_Group_M_Close
  | UIActionIndexST_M_Machine_M_Close
  | UIActionIndexST_M_Group_M_Close_S_Detach
  | UIActionIndexST_M_Machine_M_Close_S_Detach
  | UIActionIndexST_M_Group_M_Close_S_SaveState
  | UIActionIndexST_M_Machine_M_Close_S_SaveState
  | UIActionIndexST_M_Group_M_Close_S_PowerOff
  | UIActionIndexST_M_Machine_M_Close_S_PowerOff => true
  | _ => false
  end.

(** The two Shutdown indexes. *)
Definition isShutdownAction (iActionIndex : ActionIndex) : bool :=
  match iActionIndex with
  | UIActionIndexST_M_Group_M_Close_S_Shutdown
  | UIActionIndexST_M_Machine_M_Close_S_Shutdown => true
  | _ => false
  end.

(** ** Menu visibility *)

(** The menus of the menu bar, as the action pool indexes them. *)
Inductive MenuIndex : Type :=
| UIActionIndexST_M_Welcome
| UIActionIndexST_M_Group
| UIActionIndexST_M_Machine
| UIActionIndexST_M_Medium
| UIActionIndexST_M_Network
| UIActionIndexST_M_Cloud
| UIActionIndexST_M_Snapshot
| UIActionIndex_M_Log.

#[global] Instance MenuIndex_eq_dec : EqDecision MenuIndex.
Proof. solve_decision. Defined.

(** What the widget answers about the chooser and the global tools. *)
Record ChooserSelection : Type := mkChooserSelection {
  isGlobalItemSelected : bool;
  isGroupItemSelected : bool;
  isMachineItemSelected : bool;
  currentGlobalTool : UIToolType
}.

(** The visibility of the menus and of their shortcuts. *)
Record MenuBar : Type := mkMenuBar {
  menu_visible : MenuIndex -> bool;
  menu_shortcutsVisible : MenuIndex -> bool
}.

Definition setVisible (i : MenuIndex) (fVisible : bool) (bar : MenuBar) : MenuBar :=
  mkMenuBar (<[i := fVisible]> (menu_visible bar)) (menu_shortcutsVisible bar).

Definition setShortcutsVisible (i : MenuIndex) (fVisible : bool) (bar : MenuBar)
    : MenuBar :=
  mkMenuBar (menu_visible bar) (<[i := fVisible]> (menu_shortcutsVisible bar)).

Definition updateActionsVisibility (mgr : UIVirtualBoxManager)
    (selection : ChooserSelection) (bar : MenuBar) : MenuBar :=
  (* Determine whether Machine or Group menu should be shown at all: *)
  let fGlobalMenuShown := isGlobalItemSelected selection in
  let fGroupMenuShown := isGroupItemSelected selection && isSingleGroupSelected mgr in
  let fMachineMenuShown :=
    isMachineItemSelected selection && negb (isSingleGroupSelected mgr) in
  let bar := setVisible UIActionIndexST_M_Welcome fGlobalMenuShown bar in
  let bar := setVisible UIActionIndexST_M_Group fGroupMenuShown bar in
  let bar := setVisible UIActionIndexST_M_Machine fMachineMenuShown bar in
  (* Determine whether Media menu should be visible: *)
  let fMediumMenuShown :=
    fGlobalMenuShown && bool_decide (currentGlobalTool selection = UIToolType_Media) in
  let bar := setVisible UIActionIndexST_M_Medium fMediumMenuShown bar in
  (* Determine whether Network menu should be visible: *)
  let fNetworkMenuShown :=
    fGlobalMenuShown && bool_decide (currentGlobalTool selection = UIToolType_Network) in
  let bar := setVisible UIActionIndexST_M_Network fNetworkMenuShown bar in
  (* Determine whether Cloud menu should be visible: *)
  let fCloudMenuShown :=
    fGlobalMenuShown && bool_decide (currentGlobalTool selection = UIToolType_Cloud) in
  let bar := setVisible UIActionIndexST_M_Cloud fCloudMenuShown bar in
  (* Determine whether Snapshots menu should be visible: *)
  let fSnapshotMenuShown :=
    (fMachineMenuShown || fGroupMenuShown) &&
    bool_decide (widget_currentMachineTool (m_pWidget mgr) = UIToolType_Snapshots) in
  let bar := setVisible UIActionIndexST_M_Snapshot fSnapshotMenuShown bar in
  (* Determine whether Logs menu should be visible: *)
  let fLogViewerMenuShown :=
    (fMachineMenuShown || fGroupMenuShown) &&
    bool_decide (widget_currentMachineTool (m_pWidget mgr) = UIToolType_Logs) in
  let bar := setVisible UIActionIndex_M_Log fLogViewerMenuShown bar in
  (* Hide action shortcuts: *)
  let bar := if negb fGlobalMenuShown
             then setShortcutsVisible UIActionIndexST_M_Welcome false bar else bar in
  let bar := if negb fGroupMenuShown
             then setShortcutsVisible UIActionIndexST_M_Group false bar else bar in
  let bar := if negb fMachineMenuShown
             then setShortcutsVisible UIActionIndexST_M_Machine false bar else bar in
  (* Show action shortcuts: *)
  let bar := if fGlobalMenuShown
             then setShortcutsVisible UIActionIndexST_M_Welcome true bar else bar in
  let bar := if fGroupMenuShown
             then setShortcutsVisible UIActionIndexST_M_Group true bar else bar in
  let bar := if fMachineMenuShown
             then setShortcutsVisible UIActionIndexST_M_Machine true bar else bar in
  bar.

(** The three menus that exclude one another among the global tools. *)
Definition isGlobalToolMenu (i : MenuIndex) : bool :=
  match i with
  | UIActionIndexST_M_Medium | UIActionIndexST_M_Network | UIActionIndexST_M_Cloud => true
  | _ => false
  end.

(** The three menus whose shortcuts follow their visibility. *)
Definition isChooserMenu (i : MenuIndex) : bool :=
  match i with
  | UIActionIndexST_M_Welcome | UIActionIndexST_M_Group | UIActionIndexST_M_Machine => true
  | _ => false
  end.

(** ** Show events *)

Section ShowEvents.

Local Open Scope further_scope.

Definition polishEvent : MF unit :=
  (* Make sure user warned about inaccessible media: *)
  femit EvQueueMediumEnumerationFinish.

(** The value returned is [m_fPolished] after the event. *)
Definition showEvent (m_fPolished : bool) : MF bool :=
  (* Call to base-class: *)
  do* femit EvBaseClassShowEvent in
  (* Is polishing required? *)
  if negb m_fPolished then
    (* Pass the show-event to polish-event: *)
    do* polishEvent in
    (* Mark as polished: *)
    fret true
  else fret m_fPolished.

(** A window shown [n] times in a row. *)
Fixpoint showEvents (n : nat) (m_fPolished : bool) : MF bool :=
  match n with
  | O => fret m_fPolished
  | S n' =>
      let* m_fPolished := showEvent m_fPolished in
      showEvents n' m_fPolished
  end.

Definition isPolish (e : FurtherEvent) : bool :=
  match e with
  | EvQueueMediumEnumerationFinish => true
  | _ => false
  end.

End ShowEvents.

(** ** URLs passed to the manager *)

(** The import wizard starts. *)
Definition isImportWizard (e : FurtherEvent) : bool :=
  match e with
  | EvBase (EvExecModal (UIWizardImportApp _) _) => true
  | _ => false
  end.

(** How a call of [sltHandleOpenUrlCall] ends: it returns, with the manager
    as the last modal slot left it (none when the action pool was destroyed
    during a dialog), or it asks a destroyed action pool for an action. *)
Inductive UrlCallResult : Type :=
| UrlCallReturned (after : option UIVirtualBoxManager)
| UrlCallNullActionPool.

Section UrlSlots.

Context {vbox : Collaborators} {further : FurtherCollaborators}.

Local Open Scope further_scope.

Definition urlLocalFile (url : QUrl) : QString :=
  if VBOX_WS_MAC then darwinResolveAlias (toLocalFile url) else toLocalFile url.

Fixpoint openUrlEach (after : option UIVirtualBoxManager) (list : list QUrl)
    : MF UrlCallResult :=
  match list with
  | [] => fret (UrlCallReturned after)
  | url :: rest =>
      let strFile := urlLocalFile url in
      (* If there is such file exists: *)
      if negb (isEmpty strFile) && fileExists strFile then
        (* And has allowed VBox config file extension: *)
        if hasAllowedExtension strFile VBoxFileExts then
          (* Handle VBox config file: *)
          match findMachineByFile strFile with
          | Some machine =>
              do* femit (EvLaunchKnownMachine machine) in
              openUrlEach after rest
          | None =>
              match after with
              | Some mgr =>
                  let* after := lift (sltOpenAddMachineDialog mgr strFile) in
                  openUrlEach after rest
              | None => fret UrlCallNullActionPool
              end
          end
        (* And has allowed VBox OVF file extension: *)
        else if hasAllowedExtension strFile OVFFileExts then
          (* Allow only one file at the time: *)
          match after with
          | Some mgr =>
              let* after := lift (sltOpenImportApplianceWizard mgr strFile) in
              fret (UrlCallReturned after)
          | None => fret UrlCallNullActionPool
          end
        (* And has allowed VBox extension pack file extension: *)
        else if hasAllowedExtension strFile VBoxExtPackFileExts then
          (* Prevent update manager from proposing us to update EP: *)
          do* (if VBOX_GUI_WITH_NETWORK_MANAGER
               then femit (EvSetEPInstallationRequested true) else fret tt) in
          (* Propose the user to install EP described by the arguments @a list. *)
          do* femit (EvDoExtPackInstallation strFile) in
          (* Allow update manager to propose us to update EP: *)
          do* (if VBOX_GUI_WITH_NETWORK_MANAGER
               then femit (EvSetEPInstallationRequested false) else fret tt) in
          openUrlEach after rest
        else openUrlEach after rest
      else openUrlEach after rest
  end.

Definition sltHandleOpenUrlCall (mgr : UIVirtualBoxManager) (list : list QUrl)
    : MF UrlCallResult :=
  (* If passed list is empty, we take the one from VBoxGlobal: *)
  let list := if bool_decide (list = []) then takeArgumentUrls else list in
  (* Check if we are can handle the dropped urls: *)
  openUrlEach (Some mgr) list.

(** The URLs the loop does something for. *)
Definition urlIsHandled (url : QUrl) : bool :=
  let strFile := urlLocalFile url in
  negb (isEmpty strFile) && fileExists strFile &&
  (hasAllowedExtension strFile VBoxFileExts ||
   hasAllowedExtension strFile OVFFileExts ||
   hasAllowedExtension strFile VBoxExtPackFileExts).

(** The URLs of an appliance the import wizard is opened for. *)
Definition urlIsAppliance (url : QUrl) : bool :=
  let strFile := urlLocalFile url in
  negb (isEmpty strFile) && fileExists strFile &&
  negb (hasAllowedExtension strFile VBoxFileExts) &&
  hasAllowedExtension strFile OVFFileExts.

End UrlSlots.

(** ** Further collaborators for the statements at explicit inputs

    Every call succeeds; the log viewer prepared for a machine is the
    dialog with the number of the machine; every file exists, and its kind
    is read off the end of its name. *)
Definition furtherScenario : FurtherCollaborators := {|
  saveStateIsOk _ := true;
  sessionMachineAcquired _ := true;
  existingDirectory := "/vms/moved";
  moveToIsOk _ _ := true;
  settingsFilePath _ := "/vms/vm.vbox";
  desktopLocation := "/desktop";
  hardwareUUID machine :=
    if (machine =? 1)%N then "hw-1" else if (machine =? 2)%N then "hw-2" else "hw-x";
  isMachineToolOpened _ := false;
  prepareLogViewer machine := Some machine;
  VBOX_GUI_WITH_NETWORK_MANAGER := true;
  takeArgumentUrls := [];
  toLocalFile url := url;
  fileExists _ := true;
  hasAllowedExtension strFile exts :=
    match exts with
    | VBoxFileExts => endsWith_CaseInsensitive strFile ".vbox"
    | OVFFileExts => endsWith_CaseInsensitive strFile ".ova"
    | VBoxExtPackFileExts => endsWith_CaseInsensitive strFile ".vbox-extpack"
    end;
  findMachineByFile _ := None
|}.

(** The map in which machine 1 has the dialog 7 and machine 2 a null entry. *)
Definition viewersOfA : LogViewers := [("hw-1", Some 7%N); ("hw-2", None)].

(** * Properties *)

Create Rewrite HintDb vbox_monad.

Section Properties.

Context {vbox : Collaborators}.

(** ** The logging monad *)

Lemma result_ret {A : Type} (a : A) : result (ret a) = a.
Proof. reflexivity. Qed.

Lemma events_ret {A : Type} (a : A) : events (ret a) = [].
Proof. reflexivity. Qed.

Lemma result_bind {A B : Type} (m : M A) (f : A -> M B) :
  result (bind m f) = result (f (result m)).
Proof. destruct m as [a l]; unfold bind, result; simpl. now destruct (f a). Qed.

Lemma events_bind {A B : Type} (m : M A) (f : A -> M B) :
  events (bind m f) = events m ++ events (f (result m)).
Proof. destruct m as [a l]; unfold bind, events, result; simpl. now destruct (f a). Qed.

Lemma events_emit (e : Event) : events (emit e) = [e].
Proof. reflexivity. Qed.

#[local] Hint Rewrite @result_ret @events_ret @result_bind @events_bind events_emit : vbox_monad.

Ltac run := repeat (autorewrite with vbox_monad; simpl).

(** ** The evaluator on the Close submenu *)

(** The two-layer definition satisfies the recursive equation of the
    source. *)
Lemma isActionEnabled_unfold mgr iActionIndex items :
  isActionEnabled mgr iActionIndex items
  = isActionEnabled_body (isActionEnabled mgr) mgr iActionIndex items.
Proof. destruct iActionIndex, items; reflexivity. Qed.

Lemma isActionEnabled_Close mgr pItem rest :
  isActionEnabled mgr UIActionIndexST_M_Machine_M_Close (pItem :: rest)
  = ret (isAtLeastOneItemStarted (pItem :: rest)).
Proof. reflexivity. Qed.

Lemma isActionEnabled_PowerOff mgr pItem rest :
  isActionEnabled mgr UIActionIndexST_M_Machine_M_Close_S_PowerOff (pItem :: rest)
  = ret (isAtLeastOneItemStarted (pItem :: rest)).
Proof. reflexivity. Qed.

Lemma isAtLeastOneItemStarted_single pItem :
  isAtLeastOneItemStarted [pItem] = isItemStarted pItem.
Proof. unfold isAtLeastOneItemStarted; simpl. apply orb_false_r. Qed.

(** C1. Power-off batch isolation: on the selection [m1; m2], both enabled
    for PowerOff, with the confirmation accepted and both sessions opening,
    a remote failure of m1's power-down (the console call fails, or its
    progress ends with an error) is reported for m1 and m1's session is
    released; m2 is then processed in full: its session is acquired, the
    power-down performed, the session released, and nothing is reported for
    it. *)
Theorem C1_powerOff_batch_isolation (mgr : UIVirtualBoxManager)
    (m1 m2 : UIVirtualMachineItem) :
  currentItems mgr = [m1; m2] ->
  result (isActionEnabled mgr UIActionIndexST_M_Machine_M_Close_S_PowerOff [m1]) = true ->
  result (isActionEnabled mgr UIActionIndexST_M_Machine_M_Close_S_PowerOff [m2]) = true ->
  confirmAnswer confirmPowerOffMachine (join ", " [name m1; name m2]) = true ->
  existingSessionOpens (id m1) = true ->
  existingSessionOpens (id m2) = true ->
  (remoteCallIsOk Call_PowerDown (id m1) = false \/
   progressIsOk (id m1) = false \/
   progressResultCode (id m1) <> 0%Z) ->
  remoteCallIsOk Call_PowerDown (id m2) = true ->
  progressIsOk (id m2) = true ->
  progressResultCode (id m2) = 0%Z ->
  exists failure : list Event,
    (failure = [EvMessage (cannotPowerDownMachine_console (id m1))] \/
     failure = [EvShowModalProgressDialog (id m1);
                EvMessage (cannotPowerDownMachine_progress (id m1) (machineName (id m1)))]) /\
    events (sltPerformPowerOffMachine mgr) =
      [EvConfirm confirmPowerOffMachine (join ", " [name m1; name m2]) true;
       EvOpenExistingSession (id m1) true;
       EvRemoteCall Call_PowerDown (id m1)]
      ++ failure ++
      [EvUnlockMachine (id m1);
       EvOpenExistingSession (id m2) true;
       EvRemoteCall Call_PowerDown (id m2);
       EvShowModalProgressDialog (id m2);
       EvUnlockMachine (id m2)].
Proof.
  intros Hsel He1 He2 Hconfirm Hs1 Hs2 Hfail Hok2 Hp2 Hc2.
  rewrite isActionEnabled_PowerOff in He1, He2.
  rewrite result_ret, isAtLeastOneItemStarted_single in He1, He2.
  assert (Hrun :
    events (sltPerformPowerOffMachine mgr) =
      EvConfirm confirmPowerOffMachine (join ", " [name m1; name m2]) true
      :: events (powerOffEach [m1; m2])).
  { unfold sltPerformPowerOffMachine. rewrite Hsel.
    cbn [bool_decide decide_rel list_eq_nil_dec].
    cbn [itemsEnabledFor]. rewrite !isActionEnabled_PowerOff.
    rewrite !isAtLeastOneItemStarted_single, He1, He2.
    cbn -[join powerOffEach]. unfold confirm. rewrite Hconfirm.
    cbn -[join powerOffEach]. now destruct (powerOffEach [m1; m2]). }
  rewrite Hrun. clear Hrun.
  assert (Htail : events (powerOffEach [m2]) =
            [EvOpenExistingSession (id m2) true;
             EvRemoteCall Call_PowerDown (id m2);
             EvShowModalProgressDialog (id m2);
             EvUnlockMachine (id m2)]).
  { cbn. unfold openExistingSession, remoteCall. rewrite Hs2, Hok2, Hp2, Hc2.
    reflexivity. }
  change (powerOffEach [m1; m2]) with
    (let* comSession := openExistingSession (id m1) in
     match comSession with
     | None => ret tt
     | Some s =>
         let* fOk := remoteCall Call_PowerDown s in
         do* (if fOk then
                do* showModalProgressDialog s in
                if negb (progressIsOk s) || negb (progressResultCode s =? 0)%Z
                then report (cannotPowerDownMachine_progress s (machineName s))
                else ret tt
              else report (cannotPowerDownMachine_console s)) in
         do* UnlockMachine s in
         powerOffEach [m2]
     end).
  remember (powerOffEach [m2]) as tail eqn:Etail.
  unfold openExistingSession. rewrite Hs1.
  destruct (remoteCallIsOk Call_PowerDown (id m1)) eqn:Hok1.
  - exists [EvShowModalProgressDialog (id m1);
            EvMessage (cannotPowerDownMachine_progress (id m1) (machineName (id m1)))].
    split; [now right|].
    assert (Hbad : negb (progressIsOk (id m1)) || negb (progressResultCode (id m1) =? 0)%Z = true).
    { destruct Hfail as [H|[H|H]]; [discriminate| |].
      - now rewrite H.
      - apply Z.eqb_neq in H. rewrite H. now rewrite orb_true_r. }
    run. unfold remoteCall. run. rewrite Hok1. run. rewrite Hbad. run.
    rewrite Htail. reflexivity.
  - exists [EvMessage (cannotPowerDownMachine_console (id m1))].
    split; [now left|].
    run. unfold remoteCall. run. rewrite Hok1. run.
    rewrite Htail. reflexivity.
Qed.


(** ** Start or show *)

Lemma events_launchEach_declined enmLaunchMode items :
  Forall (fun pItem => isAtLeastOneItemCanBeShown [pItem] = false) items ->
  events (launchEach false enmLaunchMode items) = [].
Proof.
  induction 1 as [|pItem rest Hshown _ IH]; [reflexivity|].
  cbn [launchEach]. rewrite Hshown, andb_false_r. run. exact IH.
Qed.

Lemma startable_not_shown pItem :
  poweredOffExcludesStarted ->
  isAtLeastOneItemCanBeStarted [pItem] = true ->
  isAtLeastOneItemCanBeShown [pItem] = false.
Proof.
  intros Hlaw Hstart. unfold isAtLeastOneItemCanBeStarted in Hstart.
  unfold isAtLeastOneItemCanBeShown. simpl in *.
  rewrite orb_false_r in *. apply andb_prop in Hstart as [Hoff _].
  now rewrite (Hlaw _ Hoff).
Qed.

(** C2. Start confirmation gating: for a start batch on [m1; m2], both
    enabled for Start by the evaluator and both startable, the first event is
    the single confirmation query, carrying the joined names; what follows is
    the two launches when the user accepted and nothing at all when the user
    declined, so that no session is acquired and no machine is launched
    before the query nor after a refusal. *)
Theorem C2_start_confirmation_gating (mgr : UIVirtualBoxManager)
    (m1 m2 : UIVirtualMachineItem) (enmLaunchMode : LaunchMode) :
  poweredOffExcludesStarted ->
  result (isActionEnabled mgr UIActionIndexST_M_Machine_M_StartOrShow_S_StartNormal [m1]) = true ->
  result (isActionEnabled mgr UIActionIndexST_M_Machine_M_StartOrShow_S_StartNormal [m2]) = true ->
  isAtLeastOneItemCanBeStarted [m1] = true ->
  isAtLeastOneItemCanBeStarted [m2] = true ->
  let names := join ", " [name m1; name m2] in
  let fAnswer := confirmAnswer confirmStartMultipleMachines names in
  let log := events (performStartOrShowVirtualMachines mgr [m1; m2] enmLaunchMode) in
  log = EvConfirm confirmStartMultipleMachines names fAnswer
        :: (if fAnswer
            then [EvLaunchMachine (id m1) (itemLaunchMode enmLaunchMode m1);
                  EvLaunchMachine (id m2) (itemLaunchMode enmLaunchMode m2)]
            else []) /\
  length (filter (fun e => isConfirm e = true) log) = 1%nat /\
  (fAnswer = false ->
   Forall (fun e => isSessionAcquire e = false /\ isLaunch e = false) log).
Proof.
  intros Hlaw He1 _ Hs1 Hs2 names fAnswer log.
  assert (Hgs : isGroupSavingInProgress mgr = false).
  { cbn in He1. destruct (isGroupSavingInProgress mgr); [discriminate|reflexivity]. }
  assert (Hlog : log = EvConfirm confirmStartMultipleMachines names fAnswer
        :: (if fAnswer
            then [EvLaunchMachine (id m1) (itemLaunchMode enmLaunchMode m1);
                  EvLaunchMachine (id m2) (itemLaunchMode enmLaunchMode m2)]
            else [])).
  { subst log. unfold performStartOrShowVirtualMachines. rewrite Hgs.
    cbn [startableOf]. rewrite Hs1, Hs2. cbn [fst snd length Nat.ltb Nat.leb].
    rewrite events_bind. unfold confirm at 1.
    fold names. fold fAnswer. cbn [events emit bind ret snd app].
    f_equal. unfold confirm. fold names. fold fAnswer.
    cbn [result bind emit ret fst].
    destruct fAnswer.
    - cbn [launchEach]. rewrite Hs1, Hs2, !orb_true_r. reflexivity.
    - apply events_launchEach_declined.
      repeat constructor; now apply startable_not_shown. }
  split; [exact Hlog|]. rewrite Hlog. split.
  - destruct fAnswer; reflexivity.
  - intros ->. repeat constructor.
Qed.

(** ** The evaluator *)

Lemma isAtLeastOneItemAbleToShutdown_true items :
  result (isAtLeastOneItemAbleToShutdown items) = true ->
  exists pItem,
    In pItem items /\
    isItemRunning pItem = true /\
    consoleIsNull (id pItem) = false /\
    guestEnteredACPIMode (id pItem) = true /\
    In (EvOpenExistingSession (id pItem) true)
       (events (isAtLeastOneItemAbleToShutdown items)) /\
    In (EvGetGuestEnteredACPIMode (id pItem) true)
       (events (isAtLeastOneItemAbleToShutdown items)) /\
    In (EvUnlockMachine (id pItem))
       (events (isAtLeastOneItemAbleToShutdown items)).
Proof.
  induction items as [|pItem rest IH]; [discriminate|].
  cbn [isAtLeastOneItemAbleToShutdown].
  destruct (isAtLeastOneItemAbleToShutdown rest) as [fRest logRest].
  unfold result, events in IH; cbn [fst snd] in IH.
  assert (Hrest :
    forall prefix,
      fRest = true ->
      exists p,
        In p (pItem :: rest) /\ isItemRunning p = true /\
        consoleIsNull (id p) = false /\ guestEnteredACPIMode (id p) = true /\
        In (EvOpenExistingSession (id p) true) (prefix ++ logRest) /\
        In (EvGetGuestEnteredACPIMode (id p) true) (prefix ++ logRest) /\
        In (EvUnlockMachine (id p)) (prefix ++ logRest)).
  { intros prefix Hr. destruct (IH Hr) as (p & Hin & Hp).
    exists p. split; [now right|].
    destruct Hp as (? & ? & ? & ? & ? & ?).
    repeat split; try assumption; apply in_or_app; now right. }
  unfold openExistingSession, GetGuestEnteredACPIMode.
  destruct (isItemRunning pItem) eqn:Hrun; cbn [negb].
  - destruct (existingSessionOpens (id pItem)) eqn:Hopen; cbn.
    + destruct (consoleIsNull (id pItem)) eqn:Hnull; cbn.
      * intros Hr.
        apply (Hrest [EvOpenExistingSession (id pItem) true; EvUnlockMachine (id pItem)] Hr).
      * destruct (guestEnteredACPIMode (id pItem)) eqn:Hacpi; cbn.
        -- intros _. exists pItem. repeat split; try assumption; simpl; auto.
        -- intros Hr.
           apply (Hrest [EvOpenExistingSession (id pItem) true;
                         EvGetGuestEnteredACPIMode (id pItem) false;
                         EvUnlockMachine (id pItem)] Hr).
    + intros Hr.
      apply (Hrest [EvOpenExistingSession (id pItem) false] Hr).
  - intros Hr. apply (Hrest [] Hr).
Qed.

Lemma isActionEnabled_Shutdown mgr iActionIndex pItem rest :
  iActionIndex = UIActionIndexST_M_Group_M_Close_S_Shutdown \/
  iActionIndex = UIActionIndexST_M_Machine_M_Close_S_Shutdown ->
  isActionEnabled mgr iActionIndex (pItem :: rest)
  = if isAtLeastOneItemStarted (pItem :: rest)
    then isAtLeastOneItemAbleToShutdown (pItem :: rest)
    else ret false.
Proof.
  intros [-> | ->]; unfold isActionEnabled; cbn [isActionEnabled_body];
    unfold bind, ret;
    destruct (isAtLeastOneItemStarted (pItem :: rest));
    try reflexivity;
    now destruct (isAtLeastOneItemAbleToShutdown (pItem :: rest)).
Qed.

(** C3. Shutdown is enabled only if some item of the selection is started
    and some running item's guest has entered ACPI mode, the latter being
    asked of the console through an existing session opened for the purpose
    and released afterwards; for a single running machine whose guest has
    not entered ACPI mode the action is disabled, after exactly that probe
    when the machine is started and its session and console are available. *)
Theorem C3_shutdown_requires_live_acpi (mgr : UIVirtualBoxManager)
    (iActionIndex : ActionIndex) :
  iActionIndex = UIActionIndexST_M_Group_M_Close_S_Shutdown \/
  iActionIndex = UIActionIndexST_M_Machine_M_Close_S_Shutdown ->
  (forall items,
     result (isActionEnabled mgr iActionIndex items) = true ->
     (exists pItem, In pItem items /\ isItemStarted pItem = true) /\
     (exists pItem,
        In pItem items /\
        isItemRunning pItem = true /\
        consoleIsNull (id pItem) = false /\
        guestEnteredACPIMode (id pItem) = true /\
        In (EvOpenExistingSession (id pItem) true)
           (events (isActionEnabled mgr iActionIndex items)) /\
        In (EvGetGuestEnteredACPIMode (id pItem) true)
           (events (isActionEnabled mgr iActionIndex items)) /\
        In (EvUnlockMachine (id pItem))
           (events (isActionEnabled mgr iActionIndex items)))) /\
  (forall m,
     isItemRunning m = true ->
     guestEnteredACPIMode (id m) = false ->
     result (isActionEnabled mgr iActionIndex [m]) = false /\
     (isItemStarted m = true ->
      existingSessionOpens (id m) = true ->
      consoleIsNull (id m) = false ->
      events (isActionEnabled mgr iActionIndex [m])
      = [EvOpenExistingSession (id m) true;
         EvGetGuestEnteredACPIMode (id m) false;
         EvUnlockMachine (id m)])).
Proof.
  intros Hidx. split.
  - intros [|pItem rest].
    + destruct Hidx as [-> | ->]; discriminate.
    + rewrite (isActionEnabled_Shutdown _ _ _ _ Hidx).
      destruct (isAtLeastOneItemStarted (pItem :: rest)) eqn:Hstarted;
        [|discriminate].
      intros Hable. split.
      * apply existsb_exists in Hstarted. exact Hstarted.
      * exact (isAtLeastOneItemAbleToShutdown_true _ Hable).
  - intros m Hrun Hacpi. rewrite (isActionEnabled_Shutdown _ _ _ _ Hidx).
    rewrite isAtLeastOneItemStarted_single.
    destruct (isItemStarted m) eqn:Hstarted.
    + split.
      * cbn [isAtLeastOneItemAbleToShutdown]. rewrite Hrun. cbn [negb].
        unfold openExistingSession, GetGuestEnteredACPIMode.
        destruct (existingSessionOpens (id m)); run; [|reflexivity].
        destruct (consoleIsNull (id m)); run; [reflexivity|].
        rewrite Hacpi. reflexivity.
      * intros _ Hopen Hnull.
        cbn [isAtLeastOneItemAbleToShutdown]. rewrite Hrun. cbn [negb].
        unfold openExistingSession, GetGuestEnteredACPIMode.
        run. rewrite Hopen. run. rewrite Hnull. run. rewrite Hacpi. reflexivity.
    + split; [reflexivity|discriminate].
Qed.

(** C5. On the empty selection every action outside the four global ones is
    disabled, without any call to a collaborator; a global action is enabled
    there exactly when its "opened" property is not set. *)
Theorem C5_empty_selection_disables_machine_actions (mgr : UIVirtualBoxManager)
    (iActionIndex : ActionIndex) :
  (isGlobalAction iActionIndex = false ->
   isActionEnabled mgr iActionIndex [] = ret false) /\
  (isGlobalAction iActionIndex = true ->
   In iActionIndex [UIActionIndex_M_Application_S_Preferences;
                    UIActionIndexST_M_File_S_ExportAppliance;
                    UIActionIndexST_M_File_S_ImportAppliance;
                    UIActionIndexST_M_Welcome_S_Add] /\
   isActionEnabled mgr iActionIndex []
   = ret (negb (toBool (property_opened (actionPool mgr iActionIndex))))) /\
  (result (isActionEnabled mgr iActionIndex []) = true ->
   isGlobalAction iActionIndex = true).
Proof.
  destruct iActionIndex; cbn; repeat split; intros; try reflexivity;
    try discriminate; auto 10.
Qed.

Lemma isActionEnabled_StartOrShow mgr iActionIndex pItem rest :
  isStartOrShowAction iActionIndex = true ->
  isActionEnabled mgr iActionIndex (pItem :: rest)
  = ret (negb (isGroupSavingInProgress mgr) &&
         isAtLeastOneItemCanBeStartedOrShown (pItem :: rest) &&
         (negb (bool_decide (widget_currentMachineTool (m_pWidget mgr) = UIToolType_Snapshots)) ||
          widget_isCurrentStateItemSelected (m_pWidget mgr))).
Proof. destruct iActionIndex; try discriminate; reflexivity. Qed.

(** C4 (amended). For a single powered-off machine that is editable, a start
    action is enabled exactly when group saving is not in progress and the
    current machine tool is not Snapshots or the current-state item is
    selected; for a single powered-off machine that is not editable the
    start action is disabled. *)
Theorem C4_start_enabled_for_powered_off_editable (mgr : UIVirtualBoxManager)
    (iActionIndex : ActionIndex) (m : UIVirtualMachineItem) :
  poweredOffExcludesStarted ->
  isStartOrShowAction iActionIndex = true ->
  isItemPoweredOff m = true ->
  (isItemEditable m = true ->
   isActionEnabled mgr iActionIndex [m]
   = ret (negb (isGroupSavingInProgress mgr) &&
          (negb (bool_decide (widget_currentMachineTool (m_pWidget mgr) = UIToolType_Snapshots)) ||
           widget_isCurrentStateItemSelected (m_pWidget mgr)))) /\
  (isItemEditable m = true ->
   isGroupSavingInProgress mgr = false ->
   widget_currentMachineTool (m_pWidget mgr) <> UIToolType_Snapshots \/
   widget_isCurrentStateItemSelected (m_pWidget mgr) = true ->
   result (isActionEnabled mgr iActionIndex [m]) = true) /\
  (isItemEditable m = false ->
   isActionEnabled mgr iActionIndex [m] = ret false).
Proof.
  intros Hlaw Hidx Hoff.
  rewrite (isActionEnabled_StartOrShow _ _ _ _ Hidx).
  unfold isAtLeastOneItemCanBeStartedOrShown. cbn [existsb].
  rewrite Hoff, (Hlaw _ Hoff). cbn [andb orb].
  repeat split.
  - intros ->. cbn [orb]. now rewrite andb_true_r.
  - intros -> -> Hgate. cbn.
    destruct Hgate as [Htool | ->]; [|now rewrite orb_true_r].
    now rewrite bool_decide_eq_false_2.
  - intros ->. cbn. now rewrite andb_false_r.
Qed.

(** C6 (amended). The Settings action is enabled exactly when its "opened"
    property is not set, group saving is not in progress, the selection is a
    single item whose configuration access level is not Null, and the
    current machine tool is not Snapshots or the current-state item is
    selected.  The accessibility of the item is not tested on its own. *)
Theorem C6_settings_enabled_iff (mgr : UIVirtualBoxManager)
    (items : list UIVirtualMachineItem) :
  events (isActionEnabled mgr UIActionIndexST_M_Machine_S_Settings items) = [] /\
  (result (isActionEnabled mgr UIActionIndexST_M_Machine_S_Settings items) = true
   <->
   toBool (property_opened (actionPool mgr UIActionIndexST_M_Machine_S_Settings)) = false /\
   isGroupSavingInProgress mgr = false /\
   (exists pItem, items = [pItem] /\
                  configurationAccessLevel pItem <> ConfigurationAccessLevel_Null) /\
   (widget_currentMachineTool (m_pWidget mgr) <> UIToolType_Snapshots \/
    widget_isCurrentStateItemSelected (m_pWidget mgr) = true)).
Proof.
  destruct items as [|pItem rest].
  - split; [reflexivity|]. split; [discriminate|].
    intros (_ & _ & (p & Hp & _) & _). discriminate.
  - split; [reflexivity|].
    change (result (isActionEnabled mgr UIActionIndexST_M_Machine_S_Settings (pItem :: rest)))
      with (negb (toBool (property_opened (actionPool mgr UIActionIndexST_M_Machine_S_Settings))) &&
            negb (isGroupSavingInProgress mgr) &&
            bool_decide (length (pItem :: rest) = 1%nat) &&
            negb (bool_decide (configurationAccessLevel pItem = ConfigurationAccessLevel_Null)) &&
            (negb (bool_decide (widget_currentMachineTool (m_pWidget mgr) = UIToolType_Snapshots)) ||
             widget_isCurrentStateItemSelected (m_pWidget mgr))).
    rewrite !andb_true_iff, orb_true_iff, !negb_true_iff,
      !bool_decide_eq_false, bool_decide_eq_true.
    split.
    + intros ((((Hopened & Hgs) & Hlen) & Hlevel) & Hgate).
      repeat split; try assumption.
      exists pItem. split; [|assumption].
      destruct rest; [reflexivity|discriminate].
    + intros (Hopened & Hgs & (p & Hp & Hlevel) & Hgate).
      injection Hp as <- ->. repeat split; assumption.
Qed.

Lemma bind_ret_l {A B : Type} (a : A) (f : A -> M B) : bind (ret a) f = f a.
Proof. unfold bind, ret. now destruct (f a). Qed.

(** ** [updateActionsAppearance] *)

Lemma find_none_started (items : list UIVirtualMachineItem) :
  (forall p, In p items -> isItemStarted p = false) ->
  List.find isItemStarted items = None.
Proof.
  induction items as [|p rest IH]; intros Hall; [reflexivity|].
  cbn [List.find]. rewrite (Hall p (or_introl eq_refl)).
  apply IH. intros q Hq. apply Hall. now right.
Qed.

Lemma find_first_started (before after : list UIVirtualMachineItem) pItem :
  (forall p, In p before -> isItemStarted p = false) ->
  isItemStarted pItem = true ->
  List.find isItemStarted (before ++ pItem :: after) = Some pItem.
Proof.
  induction before as [|p rest IH]; intros Hall Hstarted.
  - cbn. now rewrite Hstarted.
  - cbn [app List.find]. rewrite (Hall p (or_introl eq_refl)).
    apply IH; [|assumption]. intros q Hq. apply Hall. now right.
Qed.

Lemma pause_toggles_checked mgr :
  let mgr' := result (updateActionsAppearance mgr) in
  let fChecked :=
    match List.find isItemStarted (currentItems mgr) with
    | Some pItem => isItemPaused pItem
    | None => false
    end in
  action_checked (actionPool mgr' UIActionIndexST_M_Group_T_Pause) = fChecked /\
  action_checked (actionPool mgr' UIActionIndexST_M_Machine_T_Pause) = fChecked.
Proof.
  cbv zeta. unfold updateActionsAppearance.
  rewrite result_bind, result_ret.
  set (mgr1 := result (updateEnabled (currentItems mgr) enablementOrder mgr)).
  cbn [m_pWidget withAction].
  destruct (widget_currentMachineTool (m_pWidget mgr1));
    unfold withAction, actionPool; cbn [m_pActionPool];
    repeat (rewrite fn_lookup_alter_ne by discriminate);
    rewrite ?fn_lookup_alter; split; reflexivity.
Qed.

(** C9. After [updateActionsAppearance] the two Pause/Resume toggles carry
    the same checked state, fixed by the first started item of the selection
    alone: unchecked when no selected item is started, and otherwise checked
    exactly when the first started item is paused, whatever items follow
    it. *)
Theorem C9_pause_toggle_follows_first_started_item (mgr : UIVirtualBoxManager) :
  let mgr' := result (updateActionsAppearance mgr) in
  let fChecked := action_checked (actionPool mgr' UIActionIndexST_M_Group_T_Pause) in
  action_checked (actionPool mgr' UIActionIndexST_M_Machine_T_Pause) = fChecked /\
  ((forall p, In p (currentItems mgr) -> isItemStarted p = false) ->
   fChecked = false) /\
  (forall before pItem after,
     currentItems mgr = before ++ pItem :: after ->
     (forall p, In p before -> isItemStarted p = false) ->
     isItemStarted pItem = true ->
     fChecked = isItemPaused pItem).
Proof.
  cbv zeta. destruct (pause_toggles_checked mgr) as [Hgroup Hmachine].
  rewrite Hgroup, Hmachine. repeat split.
  - intros Hnone. now rewrite find_none_started.
  - intros before pItem after Hsel Hbefore Hstarted.
    now rewrite Hsel, find_first_started.
Qed.

(** ** Pause and resume *)

Lemma isActionEnabled_Pause mgr pItem rest :
  isActionEnabled mgr UIActionIndexST_M_Group_T_Pause (pItem :: rest)
  = ret (isAtLeastOneItemStarted (pItem :: rest)).
Proof. reflexivity. Qed.

Lemma pauseOrResumeEach_skip mgr fPause pItem rest :
  alreadyInRequestedState fPause pItem = true ->
  pauseOrResumeEach mgr fPause (pItem :: rest) = pauseOrResumeEach mgr fPause rest.
Proof.
  intros Halready. cbn [pauseOrResumeEach].
  rewrite isActionEnabled_Pause, bind_ret_l, isAtLeastOneItemStarted_single.
  destruct (isItemStarted pItem); cbn [negb]; [|reflexivity].
  unfold alreadyInRequestedState in Halready.
  destruct fPause; cbn [negb andb]; now rewrite Halready.
Qed.

Lemma pauseOrResumeEach_not_started mgr fPause pItem rest :
  isItemStarted pItem = false ->
  pauseOrResumeEach mgr fPause (pItem :: rest) = pauseOrResumeEach mgr fPause rest.
Proof.
  intros Hstarted. cbn [pauseOrResumeEach].
  rewrite isActionEnabled_Pause, bind_ret_l, isAtLeastOneItemStarted_single.
  now rewrite Hstarted.
Qed.

Lemma pauseOrResumeEach_step mgr fPause pItem rest :
  isItemStarted pItem = true ->
  alreadyInRequestedState fPause pItem = false ->
  pauseOrResumeEach mgr fPause (pItem :: rest)
  = let* comSession := openExistingSession (id pItem) in
    match comSession with
    | None => ret tt
    | Some s =>
        let* fOk := (if fPause then remoteCall Call_Pause s
                     else remoteCall Call_Resume s) in
        do* (if negb fOk
             then (if fPause then report (cannotPauseMachine s)
                   else report (cannotResumeMachine s))
             else ret tt) in
        do* UnlockMachine s in
        pauseOrResumeEach mgr fPause rest
    end.
Proof.
  intros Hstarted Halready. cbn [pauseOrResumeEach].
  rewrite isActionEnabled_Pause, bind_ret_l, isAtLeastOneItemStarted_single.
  rewrite Hstarted. cbn [negb].
  unfold alreadyInRequestedState in Halready.
  destruct fPause; cbn [negb andb]; now rewrite Halready.
Qed.

Lemma pauseOrResumeEach_untouched mgr fPause machine items :
  (forall p, In p items -> id p = machine -> alreadyInRequestedState fPause p = true) ->
  Forall (fun e => touches machine e = false)
         (events (pauseOrResumeEach mgr fPause items)).
Proof.
  induction items as [|pItem rest IH]; intros Hall; [constructor|].
  assert (IH' := IH (fun p Hp => Hall p (or_intror Hp))).
  destruct (isItemStarted pItem) eqn:Hstarted;
    [|now rewrite pauseOrResumeEach_not_started].
  destruct (alreadyInRequestedState fPause pItem) eqn:Halready;
    [now rewrite pauseOrResumeEach_skip|].
  assert (Hother : id pItem <> machine).
  { intros Heq. rewrite (Hall pItem (or_introl eq_refl) Heq) in Halready.
    discriminate. }
  assert (Hdec : bool_decide (id pItem = machine) = false)
    by now apply bool_decide_eq_false_2.
  rewrite pauseOrResumeEach_step by assumption.
  unfold openExistingSession, remoteCall, report, UnlockMachine.
  destruct (existingSessionOpens (id pItem)); run.
  - destruct fPause; run;
      [destruct (remoteCallIsOk Call_Pause (id pItem))
      |destruct (remoteCallIsOk Call_Resume (id pItem))];
      run; repeat (constructor; [exact Hdec || reflexivity|]); exact IH'.
  - repeat constructor. exact Hdec.
Qed.

(** C10. A pause batch passes over every item that is already Paused or
    TeleportingPausedVM, and a resume batch over every item that is already
    Running, Teleporting or LiveSnapshotting: the batch runs as if the item
    were not selected, and no session is opened on, no call issued to and no
    release performed for a machine whose selected items are all in the
    requested state. *)
Theorem C10_pause_resume_skips_items_in_requested_state
    (mgr : UIVirtualBoxManager) (fPause : bool) :
  (forall before pItem after,
     alreadyInRequestedState fPause pItem = true ->
     pauseOrResumeEach mgr fPause (before ++ pItem :: after)
     = pauseOrResumeEach mgr fPause (before ++ after)) /\
  (forall pItem,
     currentItems mgr = [pItem] ->
     alreadyInRequestedState fPause pItem = true ->
     events (sltPerformPauseOrResumeMachine mgr fPause) = []) /\
  (forall machine,
     (forall p, In p (currentItems mgr) -> id p = machine ->
                alreadyInRequestedState fPause p = true) ->
     Forall (fun e => touches machine e = false)
            (events (sltPerformPauseOrResumeMachine mgr fPause))).
Proof.
  repeat split.
  - intros before pItem after Halready.
    induction before as [|p rest IH].
    + now apply pauseOrResumeEach_skip.
    + cbn [app pauseOrResumeEach]. now rewrite IH.
  - intros pItem Hsel Halready. unfold sltPerformPauseOrResumeMachine.
    rewrite Hsel. cbn [bool_decide decide_rel list_eq_nil_dec].
    now rewrite pauseOrResumeEach_skip.
  - intros machine Hall. unfold sltPerformPauseOrResumeMachine.
    destruct (bool_decide (currentItems mgr = [])); [constructor|].
    now apply pauseOrResumeEach_untouched.
Qed.

(** ** Batches behind a confirmation *)

Lemma probes_isAtLeastOneItemAbleToShutdown items :
  Forall (fun e => isProbe e = true) (events (isAtLeastOneItemAbleToShutdown items)).
Proof.
  induction items as [|pItem rest IH]; [constructor|].
  cbn [isAtLeastOneItemAbleToShutdown].
  destruct (isAtLeastOneItemAbleToShutdown rest) as [fRest logRest].
  unfold events in IH; cbn [snd] in IH.
  unfold openExistingSession, GetGuestEnteredACPIMode.
  destruct (isItemRunning pItem); cbn [negb]; [|exact IH].
  destruct (existingSessionOpens (id pItem)); cbn;
    [|constructor; [reflexivity|exact IH]].
  destruct (consoleIsNull (id pItem)); cbn;
    [repeat (constructor; [reflexivity|]); exact IH|].
  destruct (guestEnteredACPIMode (id pItem)); cbn;
    repeat (constructor; [reflexivity|]); [constructor|exact IH].
Qed.

Lemma probes_isActionEnabled mgr iActionIndex items :
  Forall (fun e => isProbe e = true) (events (isActionEnabled mgr iActionIndex items)).
Proof.
  destruct items as [|pItem rest]; [destruct iActionIndex; constructor|].
  destruct iActionIndex; try (cbn; constructor);
    (rewrite isActionEnabled_Shutdown by auto;
     destruct (isAtLeastOneItemStarted (pItem :: rest));
     [apply probes_isAtLeastOneItemAbleToShutdown|constructor]).
Qed.

Lemma probes_itemsEnabledFor mgr iActionIndex items :
  Forall (fun e => isProbe e = true) (events (itemsEnabledFor mgr iActionIndex items)).
Proof.
  induction items as [|pItem rest IH]; [constructor|].
  cbn [itemsEnabledFor]. rewrite !events_bind, events_ret, app_nil_r.
  apply Forall_app. split; [apply probes_isActionEnabled|exact IH].
Qed.

Lemma pure_itemsEnabledFor mgr iActionIndex items :
  (forall pItem, events (isActionEnabled mgr iActionIndex [pItem]) = []) ->
  events (itemsEnabledFor mgr iActionIndex items) = [].
Proof.
  intros Hpure. induction items as [|pItem rest IH]; [reflexivity|].
  cbn [itemsEnabledFor]. rewrite !events_bind, events_ret, Hpure, IH. reflexivity.
Qed.

(** The common shape of the four slots: prepare, confirm, run. *)
Lemma events_confirmed_batch (prepare : M (list QString * list UIVirtualMachineItem))
    (c : Confirmation) (each : list UIVirtualMachineItem -> M unit) :
  events (let* prepared := prepare in
          let machineNames := fst prepared in
          let itemsToRun := snd prepared in
          let* fConfirmed := confirm c (join ", " machineNames) in
          if negb fConfirmed then ret tt else each itemsToRun)
  = events prepare ++
    confirmedLog c (join ", " (fst (result prepare)))
                 (events (each (snd (result prepare)))).
Proof.
  rewrite events_bind. f_equal. cbv zeta. rewrite events_bind.
  unfold confirmedLog, confirm.
  destruct (confirmAnswer c (join ", " (fst (result prepare)))); reflexivity.
Qed.

Lemma launches_launchEach fStartConfirmed enmLaunchMode items :
  Forall (fun e => isLaunch e = true)
         (events (launchEach fStartConfirmed enmLaunchMode items)).
Proof.
  induction items as [|pItem rest IH]; [constructor|].
  cbn [launchEach]. rewrite events_bind. apply Forall_app. split; [|exact IH].
  destruct (isAtLeastOneItemCanBeShown [pItem] ||
            isAtLeastOneItemCanBeStarted [pItem] && fStartConfirmed);
    repeat constructor.
Qed.

Lemma events_isActionEnabled_Shutdown_single mgr pItem :
  events (isActionEnabled mgr UIActionIndexST_M_Machine_M_Close_S_Shutdown [pItem])
  = shutdownProbeOf pItem.
Proof.
  rewrite isActionEnabled_Shutdown by (now right).
  unfold shutdownProbeOf, isAtLeastOneItemStarted. cbn [existsb].
  rewrite orb_false_r.
  destruct (isItemStarted pItem); cbn [andb]; [|reflexivity].
  cbn [isAtLeastOneItemAbleToShutdown].
  destruct (isItemRunning pItem); cbn [negb]; [|reflexivity].
  unfold openExistingSession, GetGuestEnteredACPIMode, UnlockMachine.
  destruct (existingSessionOpens (id pItem)); cbn; [|reflexivity].
  destruct (consoleIsNull (id pItem)); cbn; [reflexivity|].
  destruct (guestEnteredACPIMode (id pItem)); reflexivity.
Qed.

Lemma events_itemsEnabledFor_Shutdown mgr items :
  events (itemsEnabledFor mgr UIActionIndexST_M_Machine_M_Close_S_Shutdown items)
  = flat_map shutdownProbeOf items.
Proof.
  induction items as [|pItem rest IH]; [reflexivity|].
  cbn [itemsEnabledFor flat_map].
  rewrite !events_bind, events_ret, app_nil_r, IH.
  now rewrite events_isActionEnabled_Shutdown_single.
Qed.

(** C7 (amended). On a non-empty selection the reset, power-off, discard and
    shutdown batches ask for their confirmation whatever the number of
    eligible items, one included, and run their per-item loop only when it is
    accepted: once it is declined nothing follows.  For reset, power off and
    discard the confirmation is the first event, so a declined batch opens no
    session at all; the shutdown batch has by then run its filter, which for
    each item of the selection that is started and running asks for one
    probing session and releases it when it opened.  The start batch alone
    is size-gated: while group saving is in progress it asks and launches
    nothing, and otherwise it asks exactly when more than one item is
    startable, and goes on to its launches. *)
Theorem C7_confirmation_not_size_gated_except_start (mgr : UIVirtualBoxManager) :
  currentItems mgr <> [] ->
  (let prepared :=
     result (itemsEnabledFor mgr UIActionIndexST_M_Group_S_Reset (currentItems mgr)) in
   events (sltPerformResetMachine mgr)
   = confirmedLog confirmResetMachine (join ", " (fst prepared))
                  (events (resetEach (snd prepared)))) /\
  (let prepared :=
     result (itemsEnabledFor mgr UIActionIndexST_M_Machine_M_Close_S_PowerOff
                             (currentItems mgr)) in
   events (sltPerformPowerOffMachine mgr)
   = confirmedLog confirmPowerOffMachine (join ", " (fst prepared))
                  (events (powerOffEach (snd prepared)))) /\
  (let prepared :=
     result (itemsEnabledFor mgr UIActionIndexST_M_Group_S_Discard (currentItems mgr)) in
   events (sltPerformDiscardMachineState mgr)
   = confirmedLog confirmDiscardSavedState (join ", " (fst prepared))
                  (events (discardEach (snd prepared)))) /\
  (let prepared :=
     result (itemsEnabledFor mgr UIActionIndexST_M_Machine_M_Close_S_Shutdown
                             (currentItems mgr)) in
   events (sltPerformShutdownMachine mgr)
   = flat_map shutdownProbeOf (currentItems mgr) ++
     confirmedLog confirmACPIShutdownMachine (join ", " (fst prepared))
                  (events (shutdownEach (snd prepared)))) /\
  (forall items enmLaunchMode,
     let startableItems := fst (startableOf items) in
     let names := join ", " (snd (startableOf items)) in
     exists launches,
       Forall (fun e => isLaunch e = true) launches /\
       events (performStartOrShowVirtualMachines mgr items enmLaunchMode)
       = if isGroupSavingInProgress mgr then []
         else (if (1 <? length startableItems)%nat
               then [EvConfirm confirmStartMultipleMachines names
                               (confirmAnswer confirmStartMultipleMachines names)]
               else []) ++ launches).
Proof.
  intros Hsel.
  assert (Hdec : bool_decide (currentItems mgr = []) = false)
    by now apply bool_decide_eq_false_2.
  split; [|split; [|split; [|split]]].
  - unfold sltPerformResetMachine. rewrite Hdec, events_confirmed_batch.
    now rewrite pure_itemsEnabledFor.
  - unfold sltPerformPowerOffMachine. rewrite Hdec, events_confirmed_batch.
    now rewrite pure_itemsEnabledFor.
  - unfold sltPerformDiscardMachineState. rewrite Hdec, events_confirmed_batch.
    now rewrite pure_itemsEnabledFor.
  - unfold sltPerformShutdownMachine. rewrite Hdec, events_confirmed_batch.
    now rewrite events_itemsEnabledFor_Shutdown.
  - intros items enmLaunchMode. cbv zeta.
    unfold performStartOrShowVirtualMachines.
    destruct (isGroupSavingInProgress mgr).
    + exists []. split; [constructor|reflexivity].
    + rewrite events_bind.
      destruct (1 <? length (fst (startableOf items)))%nat.
      * eexists. split; [apply launches_launchEach|]. reflexivity.
      * eexists. split; [apply launches_launchEach|]. reflexivity.
Qed.

Lemma confirmedLog_declined c names accepted :
  confirmAnswer c names = false ->
  confirmedLog c names accepted = [EvConfirm c names false].
Proof. unfold confirmedLog. now intros ->. Qed.

(** ** The "opened" guard *)



Lemma opened_withAction_other i f mgr j :
  (forall a, property_opened (f a) = property_opened a) ->
  property_opened (actionPool (withAction i f mgr) j)
  = property_opened (actionPool mgr j).
Proof.
  intros Hf. unfold withAction, actionPool. cbn [m_pActionPool].
  destruct (decide (i = j)) as [->|Hne].
  - now rewrite fn_lookup_alter.
  - now rewrite fn_lookup_alter_ne.
Qed.

Lemma enabled_withAction_other i f mgr j :
  (forall a, action_enabled (f a) = action_enabled a) ->
  action_enabled (actionPool (withAction i f mgr) j)
  = action_enabled (actionPool mgr j).
Proof.
  intros Hf. unfold withAction, actionPool. cbn [m_pActionPool].
  destruct (decide (i = j)) as [->|Hne].
  - now rewrite fn_lookup_alter.
  - now rewrite fn_lookup_alter_ne.
Qed.

Lemma opened_updateEnabled items l mgr i :
  property_opened (actionPool (result (updateEnabled items l mgr)) i)
  = property_opened (actionPool mgr i).
Proof.
  revert mgr. induction l as [|j rest IH]; intros mgr; [reflexivity|].
  cbn [updateEnabled]. rewrite result_bind, IH.
  now apply opened_withAction_other.
Qed.

Lemma toolToggles_preserve (P : UIVirtualBoxManager -> Prop) mgr :
  (forall i b m, P m -> P (withAction i (setChecked b) m)) ->
  P mgr ->
  P match widget_currentMachineTool (m_pWidget mgr) with
    | UIToolType_Details =>
        withAction UIActionIndexST_M_Machine_M_Tools_T_Details (setChecked true)
          (withAction UIActionIndexST_M_Group_M_Tools_T_Details (setChecked true) mgr)
    | UIToolType_Snapshots =>
        withAction UIActionIndexST_M_Machine_M_Tools_T_Snapshots (setChecked true)
          (withAction UIActionIndexST_M_Group_M_Tools_T_Snapshots (setChecked true) mgr)
    | UIToolType_Logs =>
        withAction UIActionIndexST_M_Machine_M_Tools_T_Logs (setChecked true)
          (withAction UIActionIndexST_M_Group_M_Tools_T_Logs (setChecked true) mgr)
    | _ => mgr
    end.
Proof.
  intros Hstep Hmgr.
  destruct (widget_currentMachineTool (m_pWidget mgr)); auto.
Qed.

Lemma opened_updateActionsAppearance mgr i :
  property_opened (actionPool (result (updateActionsAppearance mgr)) i)
  = property_opened (actionPool mgr i).
Proof.
  unfold updateActionsAppearance. rewrite result_bind, result_ret.
  apply (toolToggles_preserve
           (fun m => property_opened (actionPool m i) = property_opened (actionPool mgr i))).
  - intros j b m Hm. now rewrite opened_withAction_other.
  - rewrite !opened_withAction_other by reflexivity. apply opened_updateEnabled.
Qed.





Lemma probes_updateEnabled items l mgr :
  Forall (fun e => isProbe e = true) (events (updateEnabled items l mgr)).
Proof.
  revert mgr. induction l as [|i rest IH]; intros mgr; [constructor|].
  cbn [updateEnabled]. rewrite events_bind. apply Forall_app.
  split; [apply probes_isActionEnabled|apply IH].
Qed.

Lemma probes_updateActionsAppearance mgr :
  Forall (fun e => isProbe e = true) (events (updateActionsAppearance mgr)).
Proof.
  unfold updateActionsAppearance. rewrite events_bind, events_ret, app_nil_r.
  apply probes_updateEnabled.
Qed.


























End Properties.

(** * The statements at explicit inputs *)

Lemma scenario_poweredOffExcludesStarted (sc : Scenario) :
  @poweredOffExcludesStarted (scenarioCollaborators sc).
Proof.
  intros [machine strName s fAccessible level fSwitch strFile].
  destruct fAccessible, s; intros Hoff; try reflexivity;
    vm_compute in Hoff; discriminate.
Defined.

Definition vmA_running : UIVirtualMachineItem := machineIn 1%N "vm-A" KMachineState_Running.
Definition vmB_running : UIVirtualMachineItem := machineIn 2%N "vm-B" KMachineState_Running.
Definition vmA_off : UIVirtualMachineItem := machineIn 1%N "vm-A" KMachineState_PoweredOff.
Definition vmB_off : UIVirtualMachineItem := machineIn 2%N "vm-B" KMachineState_PoweredOff.
Definition vmA_paused : UIVirtualMachineItem := machineIn 1%N "vm-A" KMachineState_Paused.

(** The power-down of machine 1 fails. *)
Definition powerDownFails : Scenario :=
  mkScenario [] [] [] [] [(Call_PowerDown, 1%N)] [] [].

(** The user declines to start several machines. *)
Definition startDeclined : Scenario :=
  mkScenario [] [] [confirmStartMultipleMachines] [] [] [] [].

(** The guest of machine 1 is ready for ACPI, the user declines the shutdown. *)
Definition shutdownDeclined : Scenario :=
  mkScenario [] [] [confirmACPIShutdownMachine] [] [] [] [1%N].

(** The user declines the reset. *)
Definition resetDeclined : Scenario :=
  mkScenario [] [] [confirmResetMachine] [] [] [] [].

(** Machine 1 is locked by a session, hence not editable. *)
Definition lockedA : Scenario := mkScenario [1%N] [] [] [] [] [] [].

Lemma C1_powerOff_batch_isolation_witness :
  exists failure : list Event,
    (failure = [EvMessage (cannotPowerDownMachine_console 1%N)] \/
     failure = [EvShowModalProgressDialog 1%N;
                EvMessage (cannotPowerDownMachine_progress 1%N "vm")]) /\
    events (@sltPerformPowerOffMachine (scenarioCollaborators powerDownFails)
              (managerOf [vmA_running; vmB_running])) =
      [EvConfirm confirmPowerOffMachine "vm-A, vm-B" true;
       EvOpenExistingSession 1%N true;
       EvRemoteCall Call_PowerDown 1%N]
      ++ failure ++
      [EvUnlockMachine 1%N;
       EvOpenExistingSession 2%N true;
       EvRemoteCall Call_PowerDown 2%N;
       EvShowModalProgressDialog 2%N;
       EvUnlockMachine 2%N].
Proof.
  apply (@C1_powerOff_batch_isolation (scenarioCollaborators powerDownFails)
           (managerOf [vmA_running; vmB_running]) vmA_running vmB_running);
    try reflexivity.
  left. reflexivity.
Defined.

Lemma C2_start_confirmation_gating_witness :
  events (@performStartOrShowVirtualMachines (scenarioCollaborators startDeclined)
            (managerOf [vmA_off; vmB_off]) [vmA_off; vmB_off] LaunchMode_Default)
  = [EvConfirm confirmStartMultipleMachines "vm-A, vm-B" false].
Proof.
  apply (@C2_start_confirmation_gating (scenarioCollaborators startDeclined)
           (managerOf [vmA_off; vmB_off]) vmA_off vmB_off LaunchMode_Default
           (scenario_poweredOffExcludesStarted startDeclined)
           eq_refl eq_refl eq_refl eq_refl).
Defined.

Lemma C3_shutdown_requires_live_acpi_witness :
  result (@isActionEnabled (scenarioCollaborators calm) (managerOf [vmA_running])
            UIActionIndexST_M_Machine_M_Close_S_Shutdown [vmA_running]) = false /\
  events (@isActionEnabled (scenarioCollaborators calm) (managerOf [vmA_running])
            UIActionIndexST_M_Machine_M_Close_S_Shutdown [vmA_running])
  = [EvOpenExistingSession 1%N true;
     EvGetGuestEnteredACPIMode 1%N false;
     EvUnlockMachine 1%N].
Proof.
  destruct (@C3_shutdown_requires_live_acpi (scenarioCollaborators calm)
              (managerOf [vmA_running])
              UIActionIndexST_M_Machine_M_Close_S_Shutdown
              (or_intror eq_refl)) as [_ Hsingle].
  destruct (Hsingle vmA_running eq_refl eq_refl) as [Hdisabled Hprobe].
  split; [exact Hdisabled|].
  apply Hprobe; reflexivity.
Defined.

(** C4, as stated, fails while the chooser is saving its groups: the machine
    is powered off and editable, and yet the start action is disabled. *)
Lemma C4_counterexample :
  @isItemPoweredOff (scenarioCollaborators calm) vmA_off = true /\
  @isItemEditable (scenarioCollaborators calm) vmA_off = true /\
  result (@isActionEnabled (scenarioCollaborators calm) (managerSavingGroups [vmA_off])
            UIActionIndexST_M_Machine_M_StartOrShow_S_StartNormal [vmA_off]) = false.
Proof. repeat split. Qed.

Lemma C4_start_enabled_for_powered_off_editable_witness :
  result (@isActionEnabled (scenarioCollaborators calm) (managerOf [vmA_off])
            UIActionIndexST_M_Machine_M_StartOrShow_S_StartNormal [vmA_off]) = true /\
  @isActionEnabled (scenarioCollaborators lockedA) (managerOf [vmA_off])
     UIActionIndexST_M_Machine_M_StartOrShow_S_StartNormal [vmA_off] = (false, []).
Proof.
  split.
  - apply (@C4_start_enabled_for_powered_off_editable (scenarioCollaborators calm)
             (managerOf [vmA_off])
             UIActionIndexST_M_Machine_M_StartOrShow_S_StartNormal vmA_off
             (scenario_poweredOffExcludesStarted calm) eq_refl eq_refl);
      [reflexivity|reflexivity|left; discriminate].
  - apply (@C4_start_enabled_for_powered_off_editable (scenarioCollaborators lockedA)
             (managerOf [vmA_off])
             UIActionIndexST_M_Machine_M_StartOrShow_S_StartNormal vmA_off
             (scenario_poweredOffExcludesStarted lockedA) eq_refl eq_refl).
    reflexivity.
Defined.

Lemma C5_empty_selection_disables_machine_actions_witness :
  @isActionEnabled (scenarioCollaborators calm) (managerOf [])
     UIActionIndexST_M_Machine_S_Reset [] = (false, []) /\
  @isActionEnabled (scenarioCollaborators calm) (managerOf [])
     UIActionIndexST_M_File_S_ImportAppliance [] = (true, []).
Proof.
  split.
  - apply (@C5_empty_selection_disables_machine_actions (scenarioCollaborators calm)
             (managerOf []) UIActionIndexST_M_Machine_S_Reset). reflexivity.
  - apply (@C5_empty_selection_disables_machine_actions (scenarioCollaborators calm)
             (managerOf []) UIActionIndexST_M_File_S_ImportAppliance). reflexivity.
Defined.

(** C6, as stated, fails while the chooser is saving its groups: one
    accessible item with a configuration access level, no settings dialog
    open, and yet the action is disabled. *)
Lemma C6_counterexample :
  length [vmA_off] = 1%nat /\
  accessible vmA_off = true /\
  configurationAccessLevel vmA_off <> ConfigurationAccessLevel_Null /\
  toBool (property_opened
            (actionPool (managerSavingGroups [vmA_off]) UIActionIndexST_M_Machine_S_Settings))
  = false /\
  result (@isActionEnabled (scenarioCollaborators calm) (managerSavingGroups [vmA_off])
            UIActionIndexST_M_Machine_S_Settings [vmA_off]) = false.
Proof. repeat split. discriminate. Qed.

Lemma C6_settings_enabled_iff_witness :
  result (@isActionEnabled (scenarioCollaborators calm) (managerOf [vmA_off])
            UIActionIndexST_M_Machine_S_Settings [vmA_off]) = true.
Proof.
  apply (@C6_settings_enabled_iff (scenarioCollaborators calm) (managerOf [vmA_off])
           [vmA_off]).
  repeat split.
  - exists vmA_off. split; [reflexivity|discriminate].
  - left. discriminate.
Defined.

(** C7, as stated, fails for the shutdown batch: with one eligible machine
    and the confirmation declined, the log still holds a session opened (and
    released) by the ACPI probe of the filter. *)
Lemma C7_counterexample :
  snd (result (@itemsEnabledFor (scenarioCollaborators shutdownDeclined)
                 (managerOf [vmA_running])
                 UIActionIndexST_M_Machine_M_Close_S_Shutdown [vmA_running]))
  = [vmA_running] /\
  events (@sltPerformShutdownMachine (scenarioCollaborators shutdownDeclined)
            (managerOf [vmA_running]))
  = [EvOpenExistingSession 1%N true;
     EvGetGuestEnteredACPIMode 1%N true;
     EvUnlockMachine 1%N;
     EvConfirm confirmACPIShutdownMachine "vm-A" false] /\
  existsb isSessionAcquire
    (events (@sltPerformShutdownMachine (scenarioCollaborators shutdownDeclined)
               (managerOf [vmA_running]))) = true.
Proof. repeat split. Qed.

Lemma C7_confirmation_not_size_gated_except_start_witness :
  events (@sltPerformResetMachine (scenarioCollaborators resetDeclined)
            (managerOf [vmA_running]))
  = [EvConfirm confirmResetMachine "vm-A" false].
Proof.
  destruct (@C7_confirmation_not_size_gated_except_start
              (scenarioCollaborators resetDeclined) (managerOf [vmA_running]))
    as [Hreset _].
  - discriminate.
  - exact Hreset.
Defined.




Lemma C9_pause_toggle_follows_first_started_item_witness :
  action_checked
    (actionPool (result (@updateActionsAppearance (scenarioCollaborators calm)
                           (managerOf [vmB_off; vmA_paused; vmB_running])))
                UIActionIndexST_M_Group_T_Pause) = true.
Proof.
  destruct (@C9_pause_toggle_follows_first_started_item (scenarioCollaborators calm)
              (managerOf [vmB_off; vmA_paused; vmB_running])) as (_ & _ & Hfirst).
  apply (Hfirst [vmB_off] vmA_paused [vmB_running]).
  - reflexivity.
  - intros p [<-|[]]. reflexivity.
  - reflexivity.
Defined.

Lemma C10_pause_resume_skips_items_in_requested_state_witness :
  events (@sltPerformPauseOrResumeMachine (scenarioCollaborators calm)
            (managerOf [vmA_paused]) true) = [].
Proof.
  destruct (@C10_pause_resume_skips_items_in_requested_state
              (scenarioCollaborators calm) (managerOf [vmA_paused]) true)
    as (_ & Hsingle & _).
  apply (Hsingle vmA_paused); reflexivity.
Defined.

(** * Further properties *)

Section FurtherProperties.

Context {vbox : Collaborators}.

#[local] Hint Rewrite @result_ret @events_ret @result_bind @events_bind events_emit : vbox_monad.

Ltac run := repeat (autorewrite with vbox_monad; simpl).

(** ** The evaluator *)

Lemma events_isActionEnabled_not_shutdown mgr iActionIndex items :
  iActionIndex <> UIActionIndexST_M_Group_M_Close_S_Shutdown ->
  iActionIndex <> UIActionIndexST_M_Machine_M_Close_S_Shutdown ->
  events (isActionEnabled mgr iActionIndex items) = [].
Proof.
  intros Hgroup Hmachine.
  destruct iActionIndex, items; try reflexivity; contradiction.
Qed.

(** The verdict depends on the manager through the "opened" properties and
    the answers of the chooser widget only. *)
Lemma isActionEnabled_ext (mgr1 mgr2 : UIVirtualBoxManager)
    (iActionIndex : ActionIndex) (items : list UIVirtualMachineItem) :
  (forall i, property_opened (m_pActionPool mgr1 i) = property_opened (m_pActionPool mgr2 i)) ->
  m_pWidget mgr1 = m_pWidget mgr2 ->
  isActionEnabled mgr1 iActionIndex items = isActionEnabled mgr2 iActionIndex items.
Proof.
  intros Hopened Hwidget.
  unfold isActionEnabled, isActionEnabled_body, isGroupSavingInProgress,
    isSingleGroupSelected, isAllItemsOfOneGroupSelected, actionPool.
  destruct iActionIndex, items; rewrite ?Hopened, ?Hwidget; reflexivity.
Qed.

Lemma widget_updateEnabled items l mgr :
  m_pWidget (result (updateEnabled items l mgr)) = m_pWidget mgr.
Proof.
  revert mgr. induction l as [|i rest IH]; intros mgr; [reflexivity|].
  cbn [updateEnabled]. rewrite result_bind, IH. reflexivity.
Qed.

Lemma handled_updateEnabled items l mgr :
  m_fFirstMediumEnumerationHandled (result (updateEnabled items l mgr))
  = m_fFirstMediumEnumerationHandled mgr.
Proof.
  revert mgr. induction l as [|i rest IH]; intros mgr; [reflexivity|].
  cbn [updateEnabled]. rewrite result_bind, IH. reflexivity.
Qed.

Lemma events_updateEnabled items l mgr0 mgr :
  (forall j, property_opened (m_pActionPool mgr j) = property_opened (m_pActionPool mgr0 j)) ->
  m_pWidget mgr = m_pWidget mgr0 ->
  events (updateEnabled items l mgr)
  = flat_map (fun i => events (isActionEnabled mgr0 i items)) l.
Proof.
  revert mgr. induction l as [|j rest IH]; intros mgr Hopened Hwidget; [reflexivity|].
  cbn [updateEnabled flat_map]. rewrite events_bind.
  rewrite (isActionEnabled_ext mgr mgr0 j items Hopened Hwidget). f_equal.
  apply IH; [|exact Hwidget].
  intros k. rewrite <- Hopened.
  apply (opened_withAction_other j (setEnabled _) mgr k). reflexivity.
Qed.

Lemma flat_map_shutdown_only {B : Type} (f : ActionIndex -> list B) (l : list ActionIndex) :
  (forall i, isShutdownAction i = false -> f i = []) ->
  flat_map f l = flat_map f (List.filter isShutdownAction l).
Proof.
  intros Hother. induction l as [|i rest IH]; [reflexivity|].
  cbn [flat_map List.filter]. destruct (isShutdownAction i) eqn:Hi.
  - cbn [flat_map]. now rewrite IH.
  - now rewrite (Hother i Hi).
Qed.

Lemma events_isActionEnabled_Shutdown mgr iActionIndex items :
  isShutdownAction iActionIndex = true ->
  events (isActionEnabled mgr iActionIndex items)
  = if isAtLeastOneItemStarted items
    then events (isAtLeastOneItemAbleToShutdown items)
    else [].
Proof.
  intros Hkind.
  assert (Hcase : iActionIndex = UIActionIndexST_M_Group_M_Close_S_Shutdown \/
                  iActionIndex = UIActionIndexST_M_Machine_M_Close_S_Shutdown)
    by (destruct iActionIndex; try discriminate Hkind; auto).
  destruct items as [|pItem rest]; [destruct Hcase as [-> | ->]; reflexivity|].
  rewrite (isActionEnabled_Shutdown _ _ _ _ Hcase).
  now destruct (isAtLeastOneItemStarted (pItem :: rest)).
Qed.

(** X1. A refresh of the actions asks the evaluator about forty-six actions
    and leaves in its log the Shutdown probe of the current selection twice,
    once for the Shutdown action of the Group menu and once for that of the
    Machine menu, and nothing else: when some item of the selection is
    started, each run of the probe opens, asks and releases a session per
    running item (up to the first guest found ready); when none is started,
    or nothing is selected, the refresh leaves no event at all. *)
Theorem updateActionsAppearance_probes_twice (mgr : UIVirtualBoxManager) :
  let items := currentItems mgr in
  let probe := if isAtLeastOneItemStarted items
               then events (isAtLeastOneItemAbleToShutdown items)
               else [] in
  length enablementOrder = 46%nat /\
  events (updateActionsAppearance mgr) = probe ++ probe /\
  events (isActionEnabled mgr UIActionIndexST_M_Group_M_Close_S_Shutdown items) = probe /\
  events (isActionEnabled mgr UIActionIndexST_M_Machine_M_Close_S_Shutdown items) = probe.
Proof.
  cbv zeta. split; [reflexivity|]. split; [|split].
  - unfold updateActionsAppearance. rewrite events_bind, events_ret, app_nil_r.
    rewrite (events_updateEnabled _ _ mgr mgr) by reflexivity.
    rewrite flat_map_shutdown_only.
    + change (List.filter isShutdownAction enablementOrder)
        with [UIActionIndexST_M_Group_M_Close_S_Shutdown;
              UIActionIndexST_M_Machine_M_Close_S_Shutdown].
      cbn [flat_map]. rewrite app_nil_r.
      now rewrite !events_isActionEnabled_Shutdown by reflexivity.
    + intros i Hi. apply events_isActionEnabled_not_shutdown;
        intros ->; discriminate Hi.
  - now apply events_isActionEnabled_Shutdown.
  - now apply events_isActionEnabled_Shutdown.
Qed.

Lemma enabled_updateEnabled_verdict items l mgr0 mgr i :
  (forall j, property_opened (m_pActionPool mgr j) = property_opened (m_pActionPool mgr0 j)) ->
  m_pWidget mgr = m_pWidget mgr0 ->
  (In i l ->
   action_enabled (actionPool (result (updateEnabled items l mgr)) i)
   = result (isActionEnabled mgr0 i items)) /\
  (~ In i l ->
   action_enabled (actionPool (result (updateEnabled items l mgr)) i)
   = action_enabled (actionPool mgr i)).
Proof.
  revert mgr. induction l as [|j rest IH]; intros mgr Hopened Hwidget.
  - split; [intros []|reflexivity].
  - cbn [updateEnabled]. rewrite result_bind.
    rewrite (isActionEnabled_ext mgr mgr0 j items Hopened Hwidget).
    set (mgr1 := withAction j (setEnabled (result (isActionEnabled mgr0 j items))) mgr).
    destruct (IH mgr1) as [IHin IHout].
    + intros k. rewrite <- Hopened.
      apply (opened_withAction_other j (setEnabled _) mgr k). reflexivity.
    + exact Hwidget.
    + assert (Hhead : j = i ->
                action_enabled (actionPool mgr1 i) = result (isActionEnabled mgr0 i items)).
      { intros ->. unfold mgr1, withAction, actionPool. cbn [m_pActionPool].
        now rewrite fn_lookup_alter. }
      assert (Hother : j <> i ->
                action_enabled (actionPool mgr1 i) = action_enabled (actionPool mgr i)).
      { intros Hne. unfold mgr1, withAction, actionPool. cbn [m_pActionPool].
        now rewrite fn_lookup_alter_ne. }
      split.
      * intros Hin. destruct (in_dec ActionIndex_eq_dec i rest) as [Hrest|Hrest].
        -- now apply IHin.
        -- rewrite (IHout Hrest). apply Hhead.
           destruct Hin as [Heq|Hin]; [exact Heq|contradiction].
      * intros Hout. rewrite IHout by (intros Hin; apply Hout; now right).
        apply Hother. intros Heq. apply Hout. now left.
Qed.

Lemma widget_updateActionsAppearance mgr :
  m_pWidget (result (updateActionsAppearance mgr)) = m_pWidget mgr.
Proof.
  unfold updateActionsAppearance. rewrite result_bind, result_ret.
  apply (toolToggles_preserve (fun m => m_pWidget m = m_pWidget mgr)).
  - intros j b m Hm. exact Hm.
  - cbn [withAction m_pWidget]. apply widget_updateEnabled.
Qed.

Lemma handled_updateActionsAppearance mgr :
  m_fFirstMediumEnumerationHandled (result (updateActionsAppearance mgr))
  = m_fFirstMediumEnumerationHandled mgr.
Proof.
  unfold updateActionsAppearance. rewrite result_bind, result_ret.
  apply (toolToggles_preserve
           (fun m => m_fFirstMediumEnumerationHandled m
                     = m_fFirstMediumEnumerationHandled mgr)).
  - intros j b m Hm. exact Hm.
  - cbn [withAction m_fFirstMediumEnumerationHandled]. apply handled_updateEnabled.
Qed.

Lemma enabled_updateActionsAppearance_verdict mgr i :
  (In i enablementOrder ->
   action_enabled (actionPool (result (updateActionsAppearance mgr)) i)
   = result (isActionEnabled mgr i (currentItems mgr))) /\
  (~ In i enablementOrder ->
   action_enabled (actionPool (result (updateActionsAppearance mgr)) i)
   = action_enabled (actionPool mgr i)).
Proof.
  destruct (enabled_updateEnabled_verdict (currentItems mgr) enablementOrder mgr mgr i
              (fun j => eq_refl) eq_refl) as [Hin Hout].
  unfold updateActionsAppearance. rewrite result_bind, result_ret.
  set (mgr1 := result (updateEnabled (currentItems mgr) enablementOrder mgr)) in *.
  match goal with
  | |- (_ -> action_enabled (actionPool ?m i) = _) /\ _ =>
      assert (Henabled : action_enabled (actionPool m i) = action_enabled (actionPool mgr1 i))
  end.
  { apply (toolToggles_preserve
             (fun m => action_enabled (actionPool m i) = action_enabled (actionPool mgr1 i))).
    - intros j b m Hm. now rewrite enabled_withAction_other.
    - now rewrite !enabled_withAction_other by reflexivity. }
  rewrite Henabled. split; assumption.
Qed.

(** X2. After [updateActionsAppearance] the enabled flag of every action of
    the refresh list is the evaluator's verdict for the current selection,
    and it is also the verdict the evaluator gives on the refreshed manager:
    the refresh changes neither the "opened" properties nor the answers of
    the widget nor the enumeration flag, and so cannot alter a verdict.  The
    enabled flag of an action outside the list is left as it was. *)
Theorem updateActionsAppearance_enabled_is_verdict (mgr : UIVirtualBoxManager)
    (i : ActionIndex) :
  let mgr' := result (updateActionsAppearance mgr) in
  (In i enablementOrder ->
   action_enabled (actionPool mgr' i)
   = result (isActionEnabled mgr i (currentItems mgr)) /\
   action_enabled (actionPool mgr' i)
   = result (isActionEnabled mgr' i (currentItems mgr'))) /\
  (~ In i enablementOrder ->
   action_enabled (actionPool mgr' i) = action_enabled (actionPool mgr i)) /\
  property_opened (actionPool mgr' i) = property_opened (actionPool mgr i) /\
  m_pWidget mgr' = m_pWidget mgr /\
  m_fFirstMediumEnumerationHandled mgr' = m_fFirstMediumEnumerationHandled mgr.
Proof.
  cbv zeta.
  assert (Hext : forall a items,
            isActionEnabled (result (updateActionsAppearance mgr)) a items
            = isActionEnabled mgr a items).
  { intros a items. apply isActionEnabled_ext.
    - intros j. apply opened_updateActionsAppearance.
    - apply widget_updateActionsAppearance. }
  repeat split.
  - now apply enabled_updateActionsAppearance_verdict.
  - rewrite Hext. unfold currentItems. rewrite widget_updateActionsAppearance.
    now apply enabled_updateActionsAppearance_verdict.
  - intros Hout. now apply enabled_updateActionsAppearance_verdict.
  - apply opened_updateActionsAppearance.
  - apply widget_updateActionsAppearance.
  - apply handled_updateActionsAppearance.
Qed.

Lemma fields_withAction_setEnabled j b mgr i :
  property_opened (actionPool (withAction j (setEnabled b) mgr) i)
  = property_opened (actionPool mgr i) /\
  action_checked (actionPool (withAction j (setEnabled b) mgr) i)
  = action_checked (actionPool mgr i) /\
  action_state (actionPool (withAction j (setEnabled b) mgr) i)
  = action_state (actionPool mgr i).
Proof.
  unfold withAction, actionPool. cbn [m_pActionPool].
  destruct (decide (j = i)) as [->|Hne].
  - rewrite fn_lookup_alter. repeat split.
  - rewrite fn_lookup_alter_ne by assumption. repeat split.
Qed.

(** X3. Opening a Close menu refreshes its Shutdown entry only: on a
    non-empty selection the entry's enabled flag becomes the evaluator's
    verdict, the very flag a full refresh would give it, and no other action
    and no other field of the entry changes; on an empty selection nothing
    is done and no collaborator is called. *)
Theorem closeMenuAboutToShow_refreshes_shutdown_only (mgr : UIVirtualBoxManager) :
  let group := result (sltGroupCloseMenuAboutToShow mgr) in
  let machine := result (sltMachineCloseMenuAboutToShow mgr) in
  let refreshed := result (updateActionsAppearance mgr) in
  (currentItems mgr = [] ->
   sltGroupCloseMenuAboutToShow mgr = ret mgr /\
   sltMachineCloseMenuAboutToShow mgr = ret mgr) /\
  (currentItems mgr <> [] ->
   action_enabled (actionPool group UIActionIndexST_M_Group_M_Close_S_Shutdown)
   = action_enabled (actionPool refreshed UIActionIndexST_M_Group_M_Close_S_Shutdown) /\
   action_enabled (actionPool machine UIActionIndexST_M_Machine_M_Close_S_Shutdown)
   = action_enabled (actionPool refreshed UIActionIndexST_M_Machine_M_Close_S_Shutdown)) /\
  (forall i,
     i <> UIActionIndexST_M_Group_M_Close_S_Shutdown ->
     actionPool group i = actionPool mgr i) /\
  (forall i,
     i <> UIActionIndexST_M_Machine_M_Close_S_Shutdown ->
     actionPool machine i = actionPool mgr i) /\
  (forall i,
     property_opened (actionPool group i) = property_opened (actionPool mgr i) /\
     action_checked (actionPool group i) = action_checked (actionPool mgr i) /\
     action_state (actionPool group i) = action_state (actionPool mgr i) /\
     property_opened (actionPool machine i) = property_opened (actionPool mgr i) /\
     action_checked (actionPool machine i) = action_checked (actionPool mgr i) /\
     action_state (actionPool machine i) = action_state (actionPool mgr i)).
Proof.
  cbv zeta. unfold sltGroupCloseMenuAboutToShow, sltMachineCloseMenuAboutToShow.
  split; [|split; [|split; [|split]]].
  - intros ->. split; reflexivity.
  - intros Hsel. rewrite (bool_decide_eq_false_2 _ Hsel).
    rewrite !result_bind, !result_ret.
    unfold withAction, actionPool at 1 3. cbn [m_pActionPool].
    rewrite !fn_lookup_alter. cbn [action_enabled setEnabled].
    split; symmetry; apply enabled_updateActionsAppearance_verdict; cbn; auto 50.
  - intros i Hne. destruct (bool_decide (currentItems mgr = [])); [reflexivity|].
    rewrite result_bind, result_ret. unfold withAction, actionPool. cbn [m_pActionPool].
    now rewrite fn_lookup_alter_ne.
  - intros i Hne. destruct (bool_decide (currentItems mgr = [])); [reflexivity|].
    rewrite result_bind, result_ret. unfold withAction, actionPool. cbn [m_pActionPool].
    now rewrite fn_lookup_alter_ne.
  - intros i. destruct (bool_decide (currentItems mgr = [])); [repeat split|].
    rewrite !result_bind, !result_ret.
    destruct (fields_withAction_setEnabled UIActionIndexST_M_Group_M_Close_S_Shutdown
                (result (isActionEnabled mgr UIActionIndexST_M_Group_M_Close_S_Shutdown
                           (currentItems mgr))) mgr i) as (? & ? & ?).
    destruct (fields_withAction_setEnabled UIActionIndexST_M_Machine_M_Close_S_Shutdown
                (result (isActionEnabled mgr UIActionIndexST_M_Machine_M_Close_S_Shutdown
                           (currentItems mgr))) mgr i) as (? & ? & ?).
    repeat split; assumption.
Qed.

(** ** The items of a batch *)

(** X4. The filter that precedes a confirmation keeps exactly the items for
    which the action is enabled when the item is selected alone, in the order
    of the selection, and gathers their names in the same order. *)
Theorem itemsEnabledFor_filters_selection (mgr : UIVirtualBoxManager)
    (iActionIndex : ActionIndex) (items : list UIVirtualMachineItem) :
  let kept := List.filter (fun pItem => result (isActionEnabled mgr iActionIndex [pItem]))
                          items in
  result (itemsEnabledFor mgr iActionIndex items) = (map name kept, kept).
Proof.
  cbv zeta. induction items as [|pItem rest IH]; [reflexivity|].
  cbn [itemsEnabledFor List.filter]. rewrite !result_bind, result_ret, IH.
  now destruct (result (isActionEnabled mgr iActionIndex [pItem])).
Qed.

(** ** The batch loops *)

Lemma events_discardEach_cons pItem rest :
  events (discardEach (pItem :: rest))
  = events (discardEach [pItem]) ++
    (if sessionOpens (id pItem) then events (discardEach rest) else []).
Proof.
  cbn [discardEach]. unfold openSession, remoteCall.
  destruct (sessionOpens (id pItem)); run; [|reflexivity].
  destruct (remoteCallIsOk Call_DiscardSavedState (id pItem)); reflexivity.
Qed.

Lemma events_resetEach_cons pItem rest :
  events (resetEach (pItem :: rest))
  = events (resetEach [pItem]) ++
    (if existingSessionOpens (id pItem) then events (resetEach rest) else []).
Proof.
  cbn [resetEach]. unfold openExistingSession, remoteCall.
  destruct (existingSessionOpens (id pItem)); run; reflexivity.
Qed.

Lemma events_shutdownEach_cons pItem rest :
  events (shutdownEach (pItem :: rest))
  = events (shutdownEach [pItem]) ++
    (if existingSessionOpens (id pItem) then events (shutdownEach rest) else []).
Proof.
  cbn [shutdownEach]. unfold openExistingSession, remoteCall.
  destruct (existingSessionOpens (id pItem)); run; [|reflexivity].
  destruct (remoteCallIsOk Call_PowerButton (id pItem)); reflexivity.
Qed.

Lemma events_powerOffEach_cons pItem rest :
  events (powerOffEach (pItem :: rest))
  = events (powerOffEach [pItem]) ++
    (if existingSessionOpens (id pItem) then events (powerOffEach rest) else []).
Proof.
  cbn [powerOffEach]. unfold openExistingSession, remoteCall.
  destruct (existingSessionOpens (id pItem)); run; [|reflexivity].
  destruct (remoteCallIsOk Call_PowerDown (id pItem)); run; [|reflexivity].
  destruct (negb (progressIsOk (id pItem)) || negb (progressResultCode (id pItem) =? 0)%Z);
    reflexivity.
Qed.

Lemma events_pauseOrResumeEach_cons mgr fPause pItem rest :
  events (pauseOrResumeEach mgr fPause (pItem :: rest))
  = events (pauseOrResumeEach mgr fPause [pItem]) ++
    (if pauseOrResumeContinues fPause pItem
     then events (pauseOrResumeEach mgr fPause rest) else []).
Proof.
  unfold pauseOrResumeContinues.
  destruct (isItemStarted pItem) eqn:Hstarted.
  - destruct (alreadyInRequestedState fPause pItem) eqn:Halready.
    + now rewrite !pauseOrResumeEach_skip by assumption.
    + rewrite !pauseOrResumeEach_step by assumption.
      unfold openExistingSession, remoteCall. cbn [negb orb].
      destruct (existingSessionOpens (id pItem)); run; [|reflexivity].
      destruct fPause;
        [destruct (remoteCallIsOk Call_Pause (id pItem))
        |destruct (remoteCallIsOk Call_Resume (id pItem))]; reflexivity.
  - now rewrite !pauseOrResumeEach_not_started by assumption.
Qed.

(** A loop obeying the cons law runs item by item over the items it
    reaches. *)
Lemma events_loop_reached (each : list UIVirtualMachineItem -> M unit)
    (fOpens : UIVirtualMachineItem -> bool) :
  events (each []) = [] ->
  (forall pItem rest,
     events (each (pItem :: rest))
     = events (each [pItem]) ++ (if fOpens pItem then events (each rest) else [])) ->
  forall items,
    events (each items)
    = flat_map (fun pItem => events (each [pItem])) (upToFirstUnreachable fOpens items).
Proof.
  intros Hnil Hcons. induction items as [|pItem rest IH]; [exact Hnil|].
  rewrite Hcons. cbn [upToFirstUnreachable flat_map]. f_equal.
  destruct (fOpens pItem); [exact IH|reflexivity].
Qed.

Lemma events_batch_loops (mgr : UIVirtualBoxManager)
    (fPause : bool) (items : list UIVirtualMachineItem) :
  events (discardEach items)
  = flat_map (fun pItem => events (discardEach [pItem]))
             (upToFirstUnreachable (fun pItem => sessionOpens (id pItem)) items) /\
  events (resetEach items)
  = flat_map (fun pItem => events (resetEach [pItem]))
             (upToFirstUnreachable (fun pItem => existingSessionOpens (id pItem)) items) /\
  events (shutdownEach items)
  = flat_map (fun pItem => events (shutdownEach [pItem]))
             (upToFirstUnreachable (fun pItem => existingSessionOpens (id pItem)) items) /\
  events (powerOffEach items)
  = flat_map (fun pItem => events (powerOffEach [pItem]))
             (upToFirstUnreachable (fun pItem => existingSessionOpens (id pItem)) items) /\
  events (pauseOrResumeEach mgr fPause items)
  = flat_map (fun pItem => events (pauseOrResumeEach mgr fPause [pItem]))
             (upToFirstUnreachable (pauseOrResumeContinues fPause) items).
Proof.
  repeat split.
  - apply (events_loop_reached discardEach); [reflexivity|].
    intros; apply events_discardEach_cons.
  - apply (events_loop_reached resetEach); [reflexivity|].
    intros; apply events_resetEach_cons.
  - apply (events_loop_reached shutdownEach); [reflexivity|].
    intros; apply events_shutdownEach_cons.
  - apply (events_loop_reached powerOffEach); [reflexivity|].
    intros; apply events_powerOffEach_cons.
  - apply (events_loop_reached (pauseOrResumeEach mgr fPause)); [reflexivity|].
    intros; apply events_pauseOrResumeEach_cons.
Qed.

(** X5. Each batch loop handles its items one by one, in order, up to and
    including the first item whose session cannot be opened, and none after
    it: the log of the loop is the concatenation of the logs the loop gives
    for each reached item alone.  A remote failure on an item therefore never
    stops the batch, a null session always does. *)
Theorem batch_loops_run_up_to_first_unreachable (mgr : UIVirtualBoxManager)
    (fPause : bool) (items : list UIVirtualMachineItem) :
  events (discardEach items)
  = flat_map (fun pItem => events (discardEach [pItem]))
             (upToFirstUnreachable (fun pItem => sessionOpens (id pItem)) items) /\
  events (resetEach items)
  = flat_map (fun pItem => events (resetEach [pItem]))
             (upToFirstUnreachable (fun pItem => existingSessionOpens (id pItem)) items) /\
  events (shutdownEach items)
  = flat_map (fun pItem => events (shutdownEach [pItem]))
             (upToFirstUnreachable (fun pItem => existingSessionOpens (id pItem)) items) /\
  events (powerOffEach items)
  = flat_map (fun pItem => events (powerOffEach [pItem]))
             (upToFirstUnreachable (fun pItem => existingSessionOpens (id pItem)) items) /\
  events (pauseOrResumeEach mgr fPause items)
  = flat_map (fun pItem => events (pauseOrResumeEach mgr fPause [pItem]))
             (upToFirstUnreachable (pauseOrResumeContinues fPause) items).
Proof. apply events_batch_loops. Qed.

(** The log of a loop on one reached item whose session fails is the failed
    acquisition and nothing else. *)
Lemma events_each_unreachable pItem :
  (sessionOpens (id pItem) = false ->
   events (discardEach [pItem]) = [EvOpenSession (id pItem) false]) /\
  (existingSessionOpens (id pItem) = false ->
   events (resetEach [pItem]) = [EvOpenExistingSession (id pItem) false] /\
   events (shutdownEach [pItem]) = [EvOpenExistingSession (id pItem) false] /\
   events (powerOffEach [pItem]) = [EvOpenExistingSession (id pItem) false]).
Proof.
  split.
  - intros Hopen. cbn [discardEach]. unfold openSession. now rewrite Hopen.
  - intros Hopen. cbn [resetEach shutdownEach powerOffEach].
    unfold openExistingSession. now rewrite Hopen.
Qed.

(** ** Sessions are released *)

Lemma sessionRun_app held l1 l2 :
  sessionRun held (l1 ++ l2)
  = match sessionRun held l1 with
    | Some held' => sessionRun held' l2
    | None => None
    end.
Proof.
  revert held. induction l1 as [|e l1 IH]; intros held; [reflexivity|].
  cbn [app sessionRun]. destruct (sessionStep held e); [apply IH|reflexivity].
Qed.

Lemma sessionsBalanced_nil : sessionsBalanced [].
Proof. reflexivity. Qed.

Lemma sessionsBalanced_app l1 l2 :
  sessionsBalanced l1 -> sessionsBalanced l2 -> sessionsBalanced (l1 ++ l2).
Proof.
  unfold sessionsBalanced. intros H1 H2. now rewrite sessionRun_app, H1.
Qed.

Lemma sessionsBalanced_flat_map {A : Type} (f : A -> list Event) (l : list A) :
  (forall a, sessionsBalanced (f a)) -> sessionsBalanced (flat_map f l).
Proof.
  intros Hf. induction l as [|a l IH]; [reflexivity|].
  cbn [flat_map]. now apply sessionsBalanced_app.
Qed.

Lemma sessionRun_neutral held log :
  Forall (fun e => isSessionNeutral e = true) log -> sessionRun held log = Some held.
Proof.
  induction 1 as [|e rest He _ IH]; [reflexivity|].
  cbn [sessionRun]. destruct e; try discriminate He; destruct held; exact IH.
Qed.

Lemma sessionsBalanced_neutral log :
  Forall (fun e => isSessionNeutral e = true) log -> sessionsBalanced log.
Proof. apply sessionRun_neutral. Qed.

Lemma sessionsBalanced_cons_neutral e log :
  isSessionNeutral e = true -> sessionsBalanced log -> sessionsBalanced (e :: log).
Proof.
  intros He Hlog. apply (sessionsBalanced_app [e] log); [|exact Hlog].
  apply sessionsBalanced_neutral. now constructor.
Qed.

Ltac balanced_step :=
  unfold sessionsBalanced; cbn [sessionRun sessionStep];
  rewrite ?bool_decide_eq_true_2 by reflexivity;
  cbn [sessionRun sessionStep].

Lemma sessionsBalanced_isAtLeastOneItemAbleToShutdown items :
  sessionsBalanced (events (isAtLeastOneItemAbleToShutdown items)).
Proof.
  induction items as [|pItem rest IH]; [reflexivity|].
  cbn [isAtLeastOneItemAbleToShutdown].
  destruct (isAtLeastOneItemAbleToShutdown rest) as [fRest logRest].
  unfold events in IH; cbn [snd] in IH.
  unfold openExistingSession, GetGuestEnteredACPIMode.
  destruct (isItemRunning pItem); cbn [negb]; [|exact IH].
  destruct (existingSessionOpens (id pItem)); cbn; [|exact IH].
  destruct (consoleIsNull (id pItem)); cbn.
  - balanced_step. exact IH.
  - destruct (guestEnteredACPIMode (id pItem)); cbn; repeat balanced_step;
      [reflexivity|exact IH].
Qed.

Lemma sessionsBalanced_isActionEnabled mgr iActionIndex items :
  sessionsBalanced (events (isActionEnabled mgr iActionIndex items)).
Proof.
  destruct (decide (iActionIndex = UIActionIndexST_M_Group_M_Close_S_Shutdown)) as [Hg|Hg];
    [|destruct (decide (iActionIndex = UIActionIndexST_M_Machine_M_Close_S_Shutdown))
        as [Hm|Hm]].
  3: now rewrite events_isActionEnabled_not_shutdown.
  all: destruct items as [|pItem rest]; [subst; reflexivity|];
    rewrite isActionEnabled_Shutdown by auto;
    destruct (isAtLeastOneItemStarted (pItem :: rest));
    [apply sessionsBalanced_isAtLeastOneItemAbleToShutdown|reflexivity].
Qed.

Lemma sessionsBalanced_itemsEnabledFor mgr iActionIndex items :
  sessionsBalanced (events (itemsEnabledFor mgr iActionIndex items)).
Proof.
  induction items as [|pItem rest IH]; [reflexivity|].
  cbn [itemsEnabledFor]. rewrite !events_bind, events_ret, app_nil_r.
  apply sessionsBalanced_app; [apply sessionsBalanced_isActionEnabled|exact IH].
Qed.

Lemma sessionsBalanced_updateEnabled items l mgr :
  sessionsBalanced (events (updateEnabled items l mgr)).
Proof.
  revert mgr. induction l as [|i rest IH]; intros mgr; [reflexivity|].
  cbn [updateEnabled]. rewrite events_bind.
  apply sessionsBalanced_app; [apply sessionsBalanced_isActionEnabled|apply IH].
Qed.

Lemma sessionsBalanced_updateActionsAppearance mgr :
  sessionsBalanced (events (updateActionsAppearance mgr)).
Proof.
  unfold updateActionsAppearance. rewrite events_bind, events_ret, app_nil_r.
  apply sessionsBalanced_updateEnabled.
Qed.

Lemma sessionsBalanced_confirmedLog c names accepted :
  sessionsBalanced accepted -> sessionsBalanced (confirmedLog c names accepted).
Proof.
  intros Haccepted. unfold confirmedLog, sessionsBalanced.
  cbn [sessionRun sessionStep].
  now destruct (confirmAnswer c names).
Qed.

Lemma sessionsBalanced_each_single mgr fPause pItem :
  sessionsBalanced (events (discardEach [pItem])) /\
  sessionsBalanced (events (resetEach [pItem])) /\
  sessionsBalanced (events (shutdownEach [pItem])) /\
  sessionsBalanced (events (powerOffEach [pItem])) /\
  sessionsBalanced (events (pauseOrResumeEach mgr fPause [pItem])).
Proof.
  repeat split.
  - cbn [discardEach]. unfold openSession, remoteCall.
    destruct (sessionOpens (id pItem)); run; [|reflexivity].
    destruct (remoteCallIsOk Call_DiscardSavedState (id pItem)); cbn;
      repeat balanced_step; reflexivity.
  - cbn [resetEach]. unfold openExistingSession, remoteCall.
    destruct (existingSessionOpens (id pItem)); run; [|reflexivity].
    repeat balanced_step; reflexivity.
  - cbn [shutdownEach]. unfold openExistingSession, remoteCall.
    destruct (existingSessionOpens (id pItem)); run; [|reflexivity].
    destruct (remoteCallIsOk Call_PowerButton (id pItem)); cbn;
      repeat balanced_step; reflexivity.
  - cbn [powerOffEach]. unfold openExistingSession, remoteCall.
    destruct (existingSessionOpens (id pItem)); run; [|reflexivity].
    destruct (remoteCallIsOk Call_PowerDown (id pItem)); run;
      [destruct (negb (progressIsOk (id pItem)) ||
                 negb (progressResultCode (id pItem) =? 0)%Z)|];
      cbn; repeat balanced_step; reflexivity.
  - destruct (isItemStarted pItem) eqn:Hstarted;
      [|now rewrite pauseOrResumeEach_not_started].
    destruct (alreadyInRequestedState fPause pItem) eqn:Halready;
      [now rewrite pauseOrResumeEach_skip|].
    rewrite pauseOrResumeEach_step by assumption.
    unfold openExistingSession, remoteCall.
    destruct (existingSessionOpens (id pItem)); run; [|reflexivity].
    destruct fPause;
      [destruct (remoteCallIsOk Call_Pause (id pItem))
      |destruct (remoteCallIsOk Call_Resume (id pItem))];
      cbn; repeat balanced_step; reflexivity.
Qed.

Lemma sessionsBalanced_unlockAction i after :
  sessionsBalanced (events (unlockAction i after)).
Proof.
  destruct after as [mgr|]; [|reflexivity].
  cbn [unlockAction]. rewrite events_bind, events_ret, app_nil_r.
  apply sessionsBalanced_updateActionsAppearance.
Qed.

Lemma sessionsBalanced_execModal d mgr :
  sessionsBalanced (events (execModal d mgr)).
Proof. reflexivity. Qed.

(** X6. In the log of the evaluator, of the refresh, of each batch slot, of
    the start routine and of each slot behind the "opened" guard, whatever
    the collaborators answer: a session is acquired only while none is held;
    every console call, ACPI question and progress dialog addresses the
    machine whose session is held, so that a batch shows its progress dialog
    under the session of its machine; every acquired session is released
    before the next one is acquired; no confirmation is asked, and no wizard,
    settings dialog or file dialog of a guarded slot entered, while a session
    is held; and at the end of the run no session is held. *)
Theorem sessions_are_released (mgr : UIVirtualBoxManager) :
  (forall iActionIndex items,
     sessionsBalanced (events (isActionEnabled mgr iActionIndex items))) /\
  sessionsBalanced (events (updateActionsAppearance mgr)) /\
  sessionsBalanced (events (sltPerformDiscardMachineState mgr)) /\
  (forall fPause, sessionsBalanced (events (sltPerformPauseOrResumeMachine mgr fPause))) /\
  sessionsBalanced (events (sltPerformResetMachine mgr)) /\
  sessionsBalanced (events (sltPerformShutdownMachine mgr)) /\
  sessionsBalanced (events (sltPerformPowerOffMachine mgr)) /\
  (forall items enmLaunchMode,
     sessionsBalanced (events (performStartOrShowVirtualMachines mgr items enmLaunchMode))) /\
  (forall slot, sessionsBalanced (events (runSlot slot mgr))).
Proof.
  assert (Hloops := fun fPause items =>
            events_batch_loops mgr fPause items).
  assert (Hsingle := sessionsBalanced_each_single mgr).
  split; [intros; apply sessionsBalanced_isActionEnabled|].
  split; [apply sessionsBalanced_updateActionsAppearance|].
  split; [|split; [|split; [|split; [|split; [|split]]]]].
  - unfold sltPerformDiscardMachineState.
    destruct (bool_decide (currentItems mgr = [])); [reflexivity|].
    rewrite events_confirmed_batch.
    apply sessionsBalanced_app; [apply sessionsBalanced_itemsEnabledFor|].
    apply sessionsBalanced_confirmedLog.
    destruct (Hloops true (snd (result (itemsEnabledFor mgr UIActionIndexST_M_Group_S_Discard
                                           (currentItems mgr))))) as (-> & _).
    apply sessionsBalanced_flat_map. intros p. apply (Hsingle true p).
  - intros fPause. unfold sltPerformPauseOrResumeMachine.
    destruct (bool_decide (currentItems mgr = [])); [reflexivity|].
    destruct (Hloops fPause (currentItems mgr)) as (_ & _ & _ & _ & ->).
    apply sessionsBalanced_flat_map. intros p. apply (Hsingle fPause p).
  - unfold sltPerformResetMachine.
    destruct (bool_decide (currentItems mgr = [])); [reflexivity|].
    rewrite events_confirmed_batch.
    apply sessionsBalanced_app; [apply sessionsBalanced_itemsEnabledFor|].
    apply sessionsBalanced_confirmedLog.
    destruct (Hloops true (snd (result (itemsEnabledFor mgr UIActionIndexST_M_Group_S_Reset
                                           (currentItems mgr))))) as (_ & -> & _).
    apply sessionsBalanced_flat_map. intros p. apply (Hsingle true p).
  - unfold sltPerformShutdownMachine.
    destruct (bool_decide (currentItems mgr = [])); [reflexivity|].
    rewrite events_confirmed_batch.
    apply sessionsBalanced_app; [apply sessionsBalanced_itemsEnabledFor|].
    apply sessionsBalanced_confirmedLog.
    destruct (Hloops true (snd (result (itemsEnabledFor mgr
                                           UIActionIndexST_M_Machine_M_Close_S_Shutdown
                                           (currentItems mgr))))) as (_ & _ & -> & _).
    apply sessionsBalanced_flat_map. intros p. apply (Hsingle true p).
  - unfold sltPerformPowerOffMachine.
    destruct (bool_decide (currentItems mgr = [])); [reflexivity|].
    rewrite events_confirmed_batch.
    apply sessionsBalanced_app; [apply sessionsBalanced_itemsEnabledFor|].
    apply sessionsBalanced_confirmedLog.
    destruct (Hloops true (snd (result (itemsEnabledFor mgr
                                           UIActionIndexST_M_Machine_M_Close_S_PowerOff
                                           (currentItems mgr))))) as (_ & _ & _ & -> & _).
    apply sessionsBalanced_flat_map. intros p. apply (Hsingle true p).
  - intros items enmLaunchMode. unfold performStartOrShowVirtualMachines.
    destruct (isGroupSavingInProgress mgr); [reflexivity|].
    rewrite events_bind. apply sessionsBalanced_app.
    + destruct (1 <? length (fst (startableOf items)))%nat; reflexivity.
    + apply sessionsBalanced_neutral.
      eapply Forall_impl; [|apply launches_launchEach].
      intros e He. destruct e; try discriminate He; reflexivity.
  - intros slot. destruct slot; cbn [runSlot].
    + unfold sltOpenImportApplianceWizard. rewrite !events_bind.
      apply sessionsBalanced_app; [apply sessionsBalanced_updateActionsAppearance|].
      apply sessionsBalanced_app; [|apply sessionsBalanced_unlockAction].
      destruct (isEmpty strFileName || wizardImportIsValid _); reflexivity.
    + unfold sltOpenExportApplianceWizard. rewrite !events_bind.
      apply sessionsBalanced_app; [apply sessionsBalanced_updateActionsAppearance|].
      apply sessionsBalanced_app; [reflexivity|].
      destruct (result (execModal _ _)); [|reflexivity].
      rewrite events_bind, events_ret, app_nil_r.
      apply sessionsBalanced_updateActionsAppearance.
    + unfold sltOpenPreferencesDialog. rewrite !events_bind.
      apply sessionsBalanced_app; [apply sessionsBalanced_updateActionsAppearance|].
      apply sessionsBalanced_app; [reflexivity|apply sessionsBalanced_unlockAction].
    + unfold sltOpenAddMachineDialog. rewrite events_bind.
      apply sessionsBalanced_app; [apply sessionsBalanced_updateActionsAppearance|].
      rewrite events_bind. apply sessionsBalanced_app.
      * destruct (isEmpty _); reflexivity.
      * cbv zeta. rewrite events_bind.
        apply sessionsBalanced_app; [apply sessionsBalanced_unlockAction|].
        destruct (isEmpty _); [reflexivity|].
        destruct (openMachineIsOk _); [destruct (findMachineName _)|]; reflexivity.
    + unfold sltOpenMachineSettingsDialog.
      destruct (currentItem mgr); [|reflexivity].
      rewrite !events_bind.
      apply sessionsBalanced_app; [apply sessionsBalanced_updateActionsAppearance|].
      apply sessionsBalanced_app; [|apply sessionsBalanced_unlockAction].
      destruct (isHref strCategory); reflexivity.
Qed.

(** ** Start or show *)

Lemma events_launchEach fStartConfirmed enmLaunchMode items :
  events (launchEach fStartConfirmed enmLaunchMode items)
  = map (fun pItem => EvLaunchMachine (id pItem) (itemLaunchMode enmLaunchMode pItem))
        (List.filter (fun pItem =>
                        isAtLeastOneItemCanBeShown [pItem] ||
                        isAtLeastOneItemCanBeStarted [pItem] && fStartConfirmed) items).
Proof.
  induction items as [|pItem rest IH]; [reflexivity|].
  cbn [launchEach List.filter]. rewrite events_bind, IH.
  now destruct (isAtLeastOneItemCanBeShown [pItem] ||
                isAtLeastOneItemCanBeStarted [pItem] && fStartConfirmed).
Qed.

Lemma startableOf_filter items :
  startableOf items
  = (List.filter (fun pItem => isAtLeastOneItemCanBeStarted [pItem]) items,
     map name (List.filter (fun pItem => isAtLeastOneItemCanBeStarted [pItem]) items)).
Proof.
  induction items as [|pItem rest IH]; [reflexivity|].
  cbn [startableOf List.filter]. rewrite IH.
  now destruct (isAtLeastOneItemCanBeStarted [pItem]).
Qed.

(** X7. While group saving is in progress a start-or-show request does
    nothing.  Otherwise it launches, in the order of the selection and each
    once, the items that can be shown and, unless a confirmation was asked
    and declined, the items that can be started; the confirmation, naming the
    startable items, is asked exactly when more than one item is startable.
    A declined confirmation thus still brings up the machines that are
    already running. *)
Theorem performStartOrShow_launches (mgr : UIVirtualBoxManager)
    (items : list UIVirtualMachineItem) (enmLaunchMode : LaunchMode) :
  let startable := List.filter (fun pItem => isAtLeastOneItemCanBeStarted [pItem]) items in
  let names := join ", " (map name startable) in
  let fAsked := (1 <? length startable)%nat in
  let fConfirmed :=
    if fAsked then confirmAnswer confirmStartMultipleMachines names else true in
  events (performStartOrShowVirtualMachines mgr items enmLaunchMode)
  = if isGroupSavingInProgress mgr then []
    else
      (if fAsked
       then [EvConfirm confirmStartMultipleMachines names
                       (confirmAnswer confirmStartMultipleMachines names)]
       else []) ++
      map (fun pItem => EvLaunchMachine (id pItem) (itemLaunchMode enmLaunchMode pItem))
          (List.filter (fun pItem =>
                          isAtLeastOneItemCanBeShown [pItem] ||
                          isAtLeastOneItemCanBeStarted [pItem] && fConfirmed) items).
Proof.
  cbv zeta. unfold performStartOrShowVirtualMachines.
  destruct (isGroupSavingInProgress mgr); [reflexivity|].
  rewrite events_bind, events_launchEach, startableOf_filter. cbn [fst snd].
  now destruct (1 <? length _)%nat.
Qed.

(** ** Adding a machine *)

(** X8. The add-machine slot registers a machine only for a non-empty file
    that could be opened and whose machine is not registered yet, and then
    exactly once; a file that cannot be opened is reported and not
    registered, a file whose machine is registered already is reported and
    not registered again, and with no file chosen the registry is not
    called at all. *)
Theorem sltOpenAddMachineDialog_registers_only_new_machines
    (mgr : UIVirtualBoxManager) (strFileName : QString) :
  let log := events (sltOpenAddMachineDialog mgr strFileName) in
  let strFile := addMachineFile mgr strFileName in
  let registry := List.filter isRegistryCall log in
  registry =
    if isEmpty strFile then []
    else if negb (openMachineIsOk strFile)
         then [EvOpenMachine strFile false; EvMessage (cannotOpenMachine strFile)]
         else match findMachineName strFile with
              | Some strOldName =>
                  [EvOpenMachine strFile true;
                   EvMessage (cannotReregisterExistingMachine strFile strOldName)]
              | None => [EvOpenMachine strFile true; EvRegisterMachine strFile]
              end.
Proof.
  cbv zeta. unfold sltOpenAddMachineDialog, addMachineFile.
  set (strTmpFile := if VBOX_WS_MAC then _ else _).
  set (entry := result (updateActionsAppearance _)).
  rewrite events_bind. fold entry.
  rewrite events_bind. cbv zeta. rewrite events_bind.
  rewrite !filter_app.
  assert (Hprobes : forall l, Forall (fun e => isProbe e = true) l ->
                              List.filter isRegistryCall l = []).
  { induction 1 as [|e l He _ IH]; [reflexivity|].
    cbn [List.filter]. destruct e; try discriminate He; exact IH. }
  rewrite (Hprobes _ (probes_updateActionsAppearance _)).
  assert (Hunlock : forall i after,
            List.filter isRegistryCall (events (unlockAction i after)) = []).
  { intros i [m|]; [|reflexivity]. cbn [unlockAction].
    rewrite events_bind, events_ret, app_nil_r.
    apply Hprobes, probes_updateActionsAppearance. }
  rewrite Hunlock. cbn [app].
  destruct (isEmpty strTmpFile) eqn:Hempty.
  - rewrite result_bind, events_bind, result_ret, events_ret. cbn [snd app].
    unfold execModal. cbn [events emit bind snd app List.filter isRegistryCall].
    set (strFile := match chosenFileNames entry with
                    | strChosen :: _ => strChosen
                    | [] => strTmpFile
                    end).
    destruct (isEmpty strFile); [reflexivity|].
    destruct (openMachineIsOk strFile); [destruct (findMachineName strFile)|];
      reflexivity.
  - rewrite result_ret, events_ret. cbn [snd app List.filter].
    rewrite Hempty.
    destruct (openMachineIsOk strTmpFile); [destruct (findMachineName strTmpFile)|];
      reflexivity.
Qed.

(** ** The selection and its items *)

Lemma isActionEnabled_any_item_cons mgr iActionIndex pItem rest :
  isAnyItemAction iActionIndex = true ->
  result (isActionEnabled mgr iActionIndex (pItem :: rest))
  = result (isActionEnabled mgr iActionIndex [pItem])
    || result (isActionEnabled mgr iActionIndex rest).
Proof.
  destruct iActionIndex; try discriminate; intros _;
    destruct rest as [|pNext rest];
    unfold isActionEnabled;
    cbn [isActionEnabled_body result ret fst
         isAtLeastOneItemRemovable isAtLeastOneItemCanBeStartedOrShown
         isAtLeastOneItemDiscardable isAtLeastOneItemAccessible
         isAtLeastOneItemStarted isAtLeastOneItemRunning
         isAtLeastOneItemInaccessible isAtLeastOneItemSupportsShortcuts
         existsb];
    btauto.
Qed.

Lemma isActionEnabled_any_item_nil mgr iActionIndex :
  isAnyItemAction iActionIndex = true ->
  result (isActionEnabled mgr iActionIndex []) = false.
Proof. destruct iActionIndex; try discriminate; reflexivity. Qed.

Lemma existsb_filter_nil {A : Type} (f : A -> bool) (l : list A) :
  existsb f l = true <-> List.filter f l <> [].
Proof.
  induction l as [|a l IH]; cbn [existsb List.filter].
  - split; [discriminate|congruence].
  - destruct (f a); cbn [orb]; [|exact IH].
    split; [discriminate|reflexivity].
Qed.

Lemma result_itemsEnabledFor mgr iActionIndex items :
  result (itemsEnabledFor mgr iActionIndex items)
  = (map name (List.filter (fun pItem => result (isActionEnabled mgr iActionIndex [pItem]))
                           items),
     List.filter (fun pItem => result (isActionEnabled mgr iActionIndex [pItem])) items).
Proof.
  induction items as [|pItem rest IH]; [reflexivity|].
  cbn [itemsEnabledFor List.filter]. rewrite !result_bind, result_ret, IH.
  now destruct (result (isActionEnabled mgr iActionIndex [pItem])).
Qed.

(** X17. For an action whose rule asks for at least one item of some kind,
    the evaluator's verdict for a selection is the disjunction of its
    verdicts for the items taken alone.  Such an action is therefore enabled
    for the selection exactly when the per-item filter of the slots keeps at
    least one item of it. *)
Theorem any_item_action_enabled_iff_for_an_item (mgr : UIVirtualBoxManager)
    (iActionIndex : ActionIndex) (items : list UIVirtualMachineItem)
    (Hkind : isAnyItemAction iActionIndex = true) :
  result (isActionEnabled mgr iActionIndex items)
  = existsb (fun pItem => result (isActionEnabled mgr iActionIndex [pItem])) items /\
  (result (isActionEnabled mgr iActionIndex items) = true <->
   snd (result (itemsEnabledFor mgr iActionIndex items)) <> []).
Proof.
  assert (Hany : result (isActionEnabled mgr iActionIndex items)
                 = existsb (fun pItem => result (isActionEnabled mgr iActionIndex [pItem]))
                           items).
  { induction items as [|pItem rest IH].
    - now apply isActionEnabled_any_item_nil.
    - rewrite isActionEnabled_any_item_cons by exact Hkind.
      cbn [existsb]. now rewrite IH. }
  split; [exact Hany|].
  rewrite Hany, result_itemsEnabledFor. cbn [snd].
  apply existsb_filter_nil.
Qed.

Lemma result_isAtLeastOneItemAbleToShutdown_cons pItem rest :
  result (isAtLeastOneItemAbleToShutdown (pItem :: rest))
  = result (isAtLeastOneItemAbleToShutdown [pItem])
    || result (isAtLeastOneItemAbleToShutdown rest).
Proof.
  cbn [isAtLeastOneItemAbleToShutdown].
  destruct (isItemRunning pItem); cbn [negb]; [|reflexivity].
  unfold openExistingSession, GetGuestEnteredACPIMode, UnlockMachine.
  rewrite !result_bind.
  destruct (existingSessionOpens (id pItem)); rewrite ?result_bind, ?result_ret;
    [|reflexivity].
  destruct (consoleIsNull (id pItem)); rewrite ?result_bind, ?result_ret;
    [reflexivity|].
  destruct (guestEnteredACPIMode (id pItem)); rewrite ?result_bind, ?result_ret;
    reflexivity.
Qed.

Lemma result_isAtLeastOneItemAbleToShutdown_running items :
  result (isAtLeastOneItemAbleToShutdown items) = true ->
  isAtLeastOneItemRunning items = true.
Proof.
  induction items as [|pItem rest IH]; [discriminate|].
  rewrite result_isAtLeastOneItemAbleToShutdown_cons.
  unfold isAtLeastOneItemRunning in *. cbn [existsb].
  intros Hable. apply orb_true_iff in Hable as [Hhere|Hrest].
  - cbn [isAtLeastOneItemAbleToShutdown] in Hhere.
    destruct (isItemRunning pItem); [reflexivity|discriminate Hhere].
  - rewrite (IH Hrest). apply orb_true_r.
Qed.

(** X18. Where every running item counts as started, the verdict of the
    Shutdown action for a selection is likewise the disjunction of its
    verdicts for the items taken alone: the action is enabled exactly when
    the shutdown slot finds an item to shut down. *)
Theorem shutdown_enabled_iff_for_an_item (mgr : UIVirtualBoxManager)
    (iActionIndex : ActionIndex) (items : list UIVirtualMachineItem)
    (Hstarted : forall pItem, isItemRunning pItem = true -> isItemStarted pItem = true)
    (Hkind : iActionIndex = UIActionIndexST_M_Group_M_Close_S_Shutdown \/
             iActionIndex = UIActionIndexST_M_Machine_M_Close_S_Shutdown) :
  result (isActionEnabled mgr iActionIndex items)
  = existsb (fun pItem => result (isActionEnabled mgr iActionIndex [pItem])) items /\
  (result (isActionEnabled mgr iActionIndex items) = true <->
   snd (result (itemsEnabledFor mgr iActionIndex items)) <> []).
Proof.
  assert (Hprobe : forall selection,
            result (isActionEnabled mgr iActionIndex selection)
            = result (isAtLeastOneItemAbleToShutdown selection)).
  { intros [|pItem rest].
    - destruct Hkind as [-> | ->]; reflexivity.
    - rewrite (isActionEnabled_Shutdown _ _ _ _ Hkind).
      destruct (isAtLeastOneItemStarted (pItem :: rest)) eqn:Hany; [reflexivity|].
      destruct (result (isAtLeastOneItemAbleToShutdown (pItem :: rest))) eqn:Hable;
        [|reflexivity].
      apply result_isAtLeastOneItemAbleToShutdown_running in Hable.
      unfold isAtLeastOneItemRunning, isAtLeastOneItemStarted in *.
      apply existsb_exists in Hable as (p & Hin & Hrunning).
      assert (Hex : existsb isItemStarted (pItem :: rest) = true)
        by (apply existsb_exists; exists p; auto).
      congruence. }
  assert (Hany : result (isActionEnabled mgr iActionIndex items)
                 = existsb (fun pItem => result (isActionEnabled mgr iActionIndex [pItem]))
                           items).
  { rewrite Hprobe. induction items as [|pItem rest IH]; [reflexivity|].
    rewrite result_isAtLeastOneItemAbleToShutdown_cons. cbn [existsb].
    now rewrite IH, Hprobe. }
  split; [exact Hany|].
  rewrite Hany, result_itemsEnabledFor. cbn [snd].
  apply existsb_filter_nil.
Qed.

End FurtherProperties.

Create Rewrite HintDb further_monad.

Section FurtherCollaboratorProperties.

Context {vbox : Collaborators} {further : FurtherCollaborators}.

Local Open Scope further_scope.

Lemma fresult_fret {A : Type} (a : A) : fresult (fret a) = a.
Proof. reflexivity. Qed.

Lemma fevents_fret {A : Type} (a : A) : fevents (fret a) = [].
Proof. reflexivity. Qed.

Lemma fresult_fbind {A B : Type} (m : MF A) (f : A -> MF B) :
  fresult (fbind m f) = fresult (f (fresult m)).
Proof. destruct m as [a l]; unfold fbind, fresult; simpl. now destruct (f a). Qed.

Lemma fevents_fbind {A B : Type} (m : MF A) (f : A -> MF B) :
  fevents (fbind m f) = fevents m ++ fevents (f (fresult m)).
Proof. destruct m as [a l]; unfold fbind, fevents, fresult; simpl. now destruct (f a). Qed.

Lemma fevents_femit (e : FurtherEvent) : fevents (femit e) = [e].
Proof. reflexivity. Qed.

Lemma fresult_lift {A : Type} (m : M A) : fresult (lift m) = result m.
Proof. reflexivity. Qed.

Lemma fevents_lift {A : Type} (m : M A) : fevents (lift m) = map EvBase (events m).
Proof. reflexivity. Qed.

Lemma fbind_fret_l {A B : Type} (a : A) (f : A -> MF B) : fbind (fret a) f = f a.
Proof. unfold fbind, fret. now destruct (f a). Qed.

#[local] Hint Rewrite @fresult_fret @fevents_fret @fresult_fbind @fevents_fbind
  fevents_femit @fresult_lift @fevents_lift
  @result_ret @events_ret @result_bind @events_bind events_emit : further_monad.



Lemma furtherSessionRun_base held log :
  furtherSessionRun held (map EvBase log) = sessionRun held log.
Proof.
  revert held. induction log as [|e log IH]; intros held; [reflexivity|].
  cbn [map furtherSessionRun furtherSessionStep sessionRun].
  destruct (sessionStep held e); [apply IH|reflexivity].
Qed.

(** ** Saving the state *)







(** ** Moving a machine *)


(** ** File manager and shortcuts *)

Lemma isActionEnabled_ShowInFileManager mgr pItem :
  isActionEnabled mgr UIActionIndexST_M_Group_S_ShowInFileManager [pItem]
  = ret (accessible pItem).
Proof.
  change (isActionEnabled mgr UIActionIndexST_M_Group_S_ShowInFileManager [pItem])
    with (ret (accessible pItem || false)).
  now rewrite orb_false_r.
Qed.

Lemma isActionEnabled_CreateShortcut mgr pItem :
  isActionEnabled mgr UIActionIndexST_M_Group_S_CreateShortcut [pItem]
  = ret (accessible pItem &&
         (if VBOX_WS_MAC
          then endsWith_CaseInsensitive (settingsFile pItem) ".vbox"
          else true)).
Proof.
  change (isActionEnabled mgr UIActionIndexST_M_Group_S_CreateShortcut [pItem])
    with (ret (accessible pItem &&
               (if VBOX_WS_MAC
                then endsWith_CaseInsensitive (settingsFile pItem) ".vbox"
                else true) || false)).
  now rewrite orb_false_r.
Qed.

(** X11. The file-manager slot opens the settings file of exactly the
    accessible items of the selection, and the shortcut slot creates a
    desktop shortcut for exactly the accessible items (on a Mac build: those
    whose settings file ends with ".vbox", letter case aside), each once and
    in the order of the selection; neither touches an inaccessible item nor
    opens a session. *)
Theorem file_manager_and_shortcut_slots_serve_accessible_items
    (mgr : UIVirtualBoxManager) :
  fevents (sltShowMachineInFileManager mgr)
  = map (fun pItem => EvOpenInFileManager (settingsFilePath (id pItem)))
        (List.filter accessible (currentItems mgr)) /\
  fevents (sltPerformCreateMachineShortcut mgr)
  = map (fun pItem =>
           EvCreateMachineShortcut (settingsFilePath (id pItem)) desktopLocation
                                   (machineName (id pItem)) (id pItem))
        (List.filter
           (fun pItem =>
              accessible pItem &&
              (if VBOX_WS_MAC
               then endsWith_CaseInsensitive (settingsFile pItem) ".vbox"
               else true))
           (currentItems mgr)).
Proof.
  unfold sltShowMachineInFileManager, sltPerformCreateMachineShortcut.
  split.
  - destruct (bool_decide (currentItems mgr = [])) eqn:Hsel.
    + apply bool_decide_eq_true in Hsel. now rewrite Hsel.
    + clear Hsel. induction (currentItems mgr) as [|pItem rest IH]; [reflexivity|].
      cbn [showInFileManagerEach List.filter].
      rewrite isActionEnabled_ShowInFileManager.
      change (lift (ret (accessible pItem))) with (fret (accessible pItem)).
      rewrite fbind_fret_l, fevents_fbind, IH.
      now destruct (accessible pItem).
  - destruct (bool_decide (currentItems mgr = [])) eqn:Hsel.
    + apply bool_decide_eq_true in Hsel. now rewrite Hsel.
    + clear Hsel. induction (currentItems mgr) as [|pItem rest IH]; [reflexivity|].
      cbn [createMachineShortcutEach List.filter].
      rewrite isActionEnabled_CreateShortcut.
      match goal with
      | |- context [lift (ret ?b)] => change (lift (ret b)) with (fret b)
      end.
      rewrite fbind_fret_l, fevents_fbind, IH.
      now destruct (accessible pItem && _).
Qed.

(** ** The log-viewer map *)

Lemma compare_refl (s : QString) : String.compare s s = Eq.
Proof. now apply OrderedTypeEx.String_as_OT.cmp_eq. Qed.

Lemma compare_Lt_neq (s1 s2 : QString) : String.compare s1 s2 = Lt -> s1 <> s2.
Proof. intros Hlt ->. rewrite compare_refl in Hlt. discriminate. Qed.

Lemma compare_Gt_neq (s1 s2 : QString) : String.compare s1 s2 = Gt -> s1 <> s2.
Proof. intros Hgt ->. rewrite compare_refl in Hgt. discriminate. Qed.

Lemma compare_Lt_trans (s1 s2 s3 : QString) :
  String.compare s1 s2 = Lt -> String.compare s2 s3 = Lt -> String.compare s1 s3 = Lt.
Proof.
  intros H12 H23.
  apply OrderedTypeEx.String_as_OT.cmp_lt.
  apply OrderedTypeEx.String_as_OT.cmp_lt in H12, H23.
  exact (OrderedTypeEx.String_as_OT.lt_trans _ _ _ H12 H23).
Qed.

Lemma compare_Gt_Lt (s1 s2 : QString) :
  String.compare s1 s2 = Gt -> String.compare s2 s1 = Lt.
Proof.
  intros Hgt. rewrite String.compare_antisym, Hgt. reflexivity.
Qed.

Lemma qmap_find_insert_same {V : Type} (strKey : QString) (v : V) (m : QMap V) :
  qmap_find (qmap_insert strKey v m) strKey = Some v.
Proof.
  induction m as [|[strEntry v'] rest IH]; cbn [qmap_insert qmap_find].
  - now rewrite String.eqb_refl.
  - destruct (String.compare strKey strEntry) eqn:Hcmp; cbn [qmap_find].
    + apply String.compare_eq_iff in Hcmp. subst. now rewrite String.eqb_refl.
    + now rewrite String.eqb_refl.
    + apply compare_Gt_neq in Hcmp.
      rewrite (proj2 (String.eqb_neq strEntry strKey)) by congruence. exact IH.
Qed.

Lemma qmap_find_insert_other {V : Type} (strKey strOther : QString) (v : V) (m : QMap V) :
  strOther <> strKey ->
  qmap_find (qmap_insert strKey v m) strOther = qmap_find m strOther.
Proof.
  intros Hne.
  induction m as [|[strEntry v'] rest IH]; cbn [qmap_insert qmap_find].
  - now rewrite (proj2 (String.eqb_neq strKey strOther)) by congruence.
  - destruct (String.compare strKey strEntry) eqn:Hcmp; cbn [qmap_find].
    + apply String.compare_eq_iff in Hcmp. subst.
      now rewrite (proj2 (String.eqb_neq strEntry strOther)) by congruence.
    + now rewrite (proj2 (String.eqb_neq strKey strOther)) by congruence.
    + now rewrite IH.
Qed.

Lemma qmap_keys_insert_above {V : Type} (strLow strKey : QString) (v : V) (m : QMap V) :
  String.compare strLow strKey = Lt ->
  Forall (fun strNext => String.compare strLow strNext = Lt) (qmap_keys m) ->
  Forall (fun strNext => String.compare strLow strNext = Lt)
         (qmap_keys (qmap_insert strKey v m)).
Proof.
  intros Hkey. induction m as [|[strEntry v'] rest IH]; intros Hall.
  - repeat constructor. exact Hkey.
  - cbn [qmap_insert]. inversion Hall as [|? ? Hhead Htail]; subst.
    destruct (String.compare strKey strEntry); cbn [qmap_keys map fst].
    + now constructor.
    + constructor; [exact Hkey|]. now constructor.
    + constructor; [exact Hhead|]. now apply IH.
Qed.

Lemma qmap_sorted_insert {V : Type} (strKey : QString) (v : V) (m : QMap V) :
  qmap_sorted m -> qmap_sorted (qmap_insert strKey v m).
Proof.
  unfold qmap_sorted.
  induction m as [|[strEntry v'] rest IH]; intros Hsorted.
  - repeat constructor.
  - cbn [qmap_insert]. cbn [qmap_keys map fst] in Hsorted.
    inversion Hsorted as [|? ? Hrest Habove]; subst.
    destruct (String.compare strKey strEntry) eqn:Hcmp; cbn [qmap_keys map fst].
    + now constructor.
    + constructor; [now constructor|].
      constructor; [exact Hcmp|].
      eapply Forall_impl; [|exact Habove].
      intros strNext Hnext. now apply (compare_Lt_trans _ strEntry).
    + constructor; [now apply IH|].
      apply qmap_keys_insert_above; [now apply compare_Gt_Lt|exact Habove].
Qed.

Lemma qmap_sorted_subscripted (strKey : QString) (m : LogViewers) :
  qmap_sorted m -> qmap_sorted (qmap_subscripted m strKey).
Proof.
  unfold qmap_subscripted. destruct (qmap_find m strKey); [auto|].
  apply qmap_sorted_insert.
Qed.

Lemma qmap_sorted_NoDup {V : Type} (m : QMap V) :
  qmap_sorted m -> NoDup (qmap_keys m).
Proof.
  unfold qmap_sorted. induction 1 as [|strKey keys _ IH Habove]; constructor.
  - intros Hin. rewrite Forall_forall in Habove.
    apply list_elem_of_In in Hin.
    specialize (Habove _ Hin). now apply compare_Lt_neq in Habove.
  - exact IH.
Qed.

Lemma qmap_find_subscripted (strKey strAny : QString) (m : LogViewers) :
  qmap_find (qmap_subscripted m strKey) strAny
  = if String.eqb strAny strKey
    then Some (qmap_value m strKey)
    else qmap_find m strAny.
Proof.
  unfold qmap_subscripted, qmap_value.
  destruct (String.eqb strAny strKey) eqn:Heq.
  - apply String.eqb_eq in Heq. subst.
    destruct (qmap_find m strKey) eqn:Hfind; [exact Hfind|].
    apply qmap_find_insert_same.
  - apply String.eqb_neq in Heq.
    destruct (qmap_find m strKey); [reflexivity|].
    now apply qmap_find_insert_other.
Qed.

(** What an item leaves under a key of the map. *)
Lemma qmap_find_viewersAfterItem strKey pPrepared viewers strAny :
  qmap_find (viewersAfterItem strKey pPrepared viewers) strAny
  = if String.eqb strAny strKey
    then Some match qmap_value viewers strKey with
              | Some pDialog => Some pDialog
              | None => pPrepared
              end
    else qmap_find viewers strAny.
Proof.
  unfold viewersAfterItem.
  assert (Hvalue : qmap_value (qmap_subscripted viewers strKey) strKey
                   = qmap_value viewers strKey).
  { unfold qmap_value at 1. rewrite qmap_find_subscripted, String.eqb_refl.
    reflexivity. }
  rewrite Hvalue.
  destruct (String.eqb strAny strKey) eqn:Heq.
  - apply String.eqb_eq in Heq. subst.
    destruct (qmap_value viewers strKey) eqn:Hv.
    + rewrite qmap_find_subscripted, String.eqb_refl. now rewrite Hv.
    + destruct pPrepared.
      * apply qmap_find_insert_same.
      * rewrite qmap_find_subscripted, String.eqb_refl. now rewrite Hv.
  - assert (Hne := proj1 (String.eqb_neq _ _) Heq).
    destruct (qmap_value viewers strKey); [|destruct pPrepared];
      rewrite ?qmap_find_insert_other by assumption;
      now rewrite qmap_find_subscripted, Heq.
Qed.

Lemma qmap_sorted_viewersAfterItem strKey pPrepared viewers :
  qmap_sorted viewers -> qmap_sorted (viewersAfterItem strKey pPrepared viewers).
Proof.
  intros Hsorted. unfold viewersAfterItem.
  destruct (qmap_value _ _); [|destruct pPrepared];
    try apply qmap_sorted_insert; now apply qmap_sorted_subscripted.
Qed.

Lemma isActionEnabled_ShowLogDialog mgr pItem :
  isActionEnabled mgr UIActionIndexST_M_Group_S_ShowLogDialog [pItem]
  = ret (accessible pItem).
Proof.
  change (isActionEnabled mgr UIActionIndexST_M_Group_S_ShowLogDialog [pItem])
    with (ret (accessible pItem || false)).
  now rewrite orb_false_r.
Qed.

Lemma fresult_openLogViewerEach_cons mgr pItem rest viewers :
  fresult (openLogViewerEach mgr (pItem :: rest) viewers)
  = fresult (openLogViewerEach mgr rest
               (if accessible pItem
                then viewersAfterItem (hardwareUUID (id pItem))
                                      (prepareLogViewer (id pItem)) viewers
                else viewers)).
Proof.
  cbn [openLogViewerEach]. rewrite isActionEnabled_ShowLogDialog.
  change (lift (ret (accessible pItem))) with (fret (accessible pItem)).
  rewrite fbind_fret_l.
  destruct (accessible pItem); cbn [negb]; [|reflexivity].
  cbv zeta. rewrite !fresult_fbind. unfold viewersAfterItem.
  destruct (qmap_value _ _); [reflexivity|].
  rewrite !fresult_fbind, fresult_fret. cbn [snd].
  reflexivity.
Qed.

(** The loop invariant: entries are never dropped, a dialog is never
    replaced, the keys stay in order, and every item for which the log may
    be shown leaves an entry, with a dialog when the factory gave one. *)
Lemma openLogViewerEach_fills mgr items viewers :
  let after := fresult (openLogViewerEach mgr items viewers) in
  (forall strKey pDialog,
     qmap_find viewers strKey = Some (Some pDialog) ->
     qmap_find after strKey = Some (Some pDialog)) /\
  (forall strKey, qmap_find viewers strKey <> None -> qmap_find after strKey <> None) /\
  (forall pItem,
     In pItem items -> accessible pItem = true ->
     qmap_find after (hardwareUUID (id pItem)) <> None /\
     (prepareLogViewer (id pItem) <> None ->
      exists pDialog,
        qmap_find after (hardwareUUID (id pItem)) = Some (Some pDialog))) /\
  (qmap_sorted viewers -> qmap_sorted after).
Proof.
  cbv zeta. revert viewers.
  induction items as [|pItem rest IH]; intros viewers.
  - cbn [openLogViewerEach]. rewrite fresult_fret.
    split; [|split; [|split]]; auto. intros p [].
  - rewrite fresult_openLogViewerEach_cons.
    set (viewers1 := if accessible pItem then _ else viewers).
    destruct (IH viewers1) as (Hkept & Hkeys & Hitems & Hsorted).
    assert (Hkept1 : forall strKey pDialog,
              qmap_find viewers strKey = Some (Some pDialog) ->
              qmap_find viewers1 strKey = Some (Some pDialog)).
    { intros strKey pDialog Hfind. subst viewers1.
      destruct (accessible pItem); [|exact Hfind].
      rewrite qmap_find_viewersAfterItem.
      destruct (String.eqb strKey (hardwareUUID (id pItem))) eqn:Heq; [|exact Hfind].
      apply String.eqb_eq in Heq. subst strKey.
      unfold qmap_value. now rewrite Hfind. }
    assert (Hkeys1 : forall strKey,
              qmap_find viewers strKey <> None -> qmap_find viewers1 strKey <> None).
    { intros strKey Hfind. subst viewers1.
      destruct (accessible pItem); [|exact Hfind].
      rewrite qmap_find_viewersAfterItem.
      now destruct (String.eqb strKey (hardwareUUID (id pItem))). }
    split; [|split; [|split]].
    + intros strKey pDialog Hfind. now apply Hkept, Hkept1.
    + intros strKey Hfind. now apply Hkeys, Hkeys1.
    + intros p [<-|Hin] Haccessible; [|now apply Hitems].
      assert (Hhere : qmap_find viewers1 (hardwareUUID (id pItem))
                      = Some match qmap_value viewers (hardwareUUID (id pItem)) with
                             | Some pDialog => Some pDialog
                             | None => prepareLogViewer (id pItem)
                             end).
      { subst viewers1. rewrite Haccessible, qmap_find_viewersAfterItem.
        now rewrite String.eqb_refl. }
      split.
      * apply Hkeys. rewrite Hhere. discriminate.
      * intros Hprepared.
        destruct (qmap_value viewers (hardwareUUID (id pItem))) as [pDialog|];
          [|destruct (prepareLogViewer (id pItem)) as [pDialog|];
            [|contradiction]];
          exists pDialog; now apply Hkept.
    + intros Hs. apply Hsorted. subst viewers1.
      destruct (accessible pItem); [|exact Hs].
      now apply qmap_sorted_viewersAfterItem.
Qed.

Lemma fresult_sltOpenLogViewerWindow mgr viewers :
  fresult (sltOpenLogViewerWindow mgr viewers)
  = fresult (openLogViewerEach mgr (currentItems mgr) viewers).
Proof.
  unfold sltOpenLogViewerWindow.
  destruct (bool_decide (currentItems mgr = [])) eqn:Hsel.
  - apply bool_decide_eq_true in Hsel. now rewrite Hsel.
  - now rewrite fresult_fbind.
Qed.

(** X12. After the log-viewer slot, every selected item that is accessible
    has an entry in the map under its hardware identifier, holding a dialog
    whenever the factory could prepare one; a dialog that was in the map is
    still there under the same key, no key has been dropped, and the keys
    are still in strictly growing order. *)
Theorem sltOpenLogViewerWindow_fills_map (mgr : UIVirtualBoxManager)
    (viewers : LogViewers) :
  let after := fresult (sltOpenLogViewerWindow mgr viewers) in
  (forall strKey pDialog,
     qmap_find viewers strKey = Some (Some pDialog) ->
     qmap_find after strKey = Some (Some pDialog)) /\
  (forall strKey, qmap_find viewers strKey <> None -> qmap_find after strKey <> None) /\
  (forall pItem,
     In pItem (currentItems mgr) -> accessible pItem = true ->
     qmap_find after (hardwareUUID (id pItem)) <> None /\
     (prepareLogViewer (id pItem) <> None ->
      exists pDialog,
        qmap_find after (hardwareUUID (id pItem)) = Some (Some pDialog))) /\
  (qmap_sorted viewers -> qmap_sorted after).
Proof.
  cbv zeta. rewrite fresult_sltOpenLogViewerWindow.
  apply openLogViewerEach_fills.
Qed.

Lemma openLogViewerEach_reuses mgr items viewers :
  (forall pItem, In pItem items -> accessible pItem = true ->
     exists pDialog, qmap_find viewers (hardwareUUID (id pItem)) = Some (Some pDialog)) ->
  openLogViewerEach mgr items viewers = (viewers, shownDialogs viewers items).
Proof.
  induction items as [|pItem rest IH]; intros Hheld; [reflexivity|].
  cbn [openLogViewerEach]. rewrite isActionEnabled_ShowLogDialog.
  change (lift (ret (accessible pItem))) with (fret (accessible pItem)).
  rewrite fbind_fret_l.
  unfold shownDialogs. cbn [flat_map]. fold (shownDialogs viewers rest).
  destruct (accessible pItem) eqn:Haccessible; cbn [negb].
  - destruct (Hheld pItem (or_introl eq_refl) Haccessible) as [pDialog Hfind].
    cbv zeta.
    assert (Hsub : qmap_subscripted viewers (hardwareUUID (id pItem)) = viewers).
    { unfold qmap_subscripted. now rewrite Hfind. }
    rewrite Hsub.
    assert (Hvalue : qmap_value viewers (hardwareUUID (id pItem)) = Some pDialog).
    { unfold qmap_value. now rewrite Hfind. }
    rewrite Hvalue, fbind_fret_l. cbn [fst snd].
    rewrite IH by (intros p Hin; apply Hheld; now right).
    reflexivity.
  - rewrite IH by (intros p Hin; apply Hheld; now right). reflexivity.
Qed.

Lemma shownDialogs_no_prepare viewers items uId pPrepared :
  ~ In (EvPrepareLogViewer uId pPrepared) (shownDialogs viewers items).
Proof.
  unfold shownDialogs. rewrite in_flat_map. intros (pItem & _ & Hin).
  destruct (accessible pItem); [|destruct Hin].
  destruct (qmap_value _ _); [|destruct Hin].
  destruct Hin as [Heq|[]]. discriminate.
Qed.

Lemma shownDialogs_shows viewers items pItem pDialog :
  In pItem items -> accessible pItem = true ->
  qmap_find viewers (hardwareUUID (id pItem)) = Some (Some pDialog) ->
  In (EvShowDialog pDialog) (shownDialogs viewers items).
Proof.
  intros Hin Haccessible Hfind. unfold shownDialogs. rewrite in_flat_map.
  exists pItem. split; [exact Hin|].
  rewrite Haccessible. unfold qmap_value. rewrite Hfind. now left.
Qed.

Lemma sltOpenLogViewerWindow_reuses mgr viewers :
  (forall pItem, In pItem (currentItems mgr) -> accessible pItem = true ->
     exists pDialog, qmap_find viewers (hardwareUUID (id pItem)) = Some (Some pDialog)) ->
  fresult (sltOpenLogViewerWindow mgr viewers) = viewers /\
  exists toolEvents,
    fevents (sltOpenLogViewerWindow mgr viewers)
    = toolEvents ++ shownDialogs viewers (currentItems mgr) /\
    forall uId pPrepared, ~ In (EvPrepareLogViewer uId pPrepared) toolEvents.
Proof.
  intros Hheld. unfold sltOpenLogViewerWindow.
  destruct (bool_decide (currentItems mgr = [])) eqn:Hsel.
  - apply bool_decide_eq_true in Hsel. rewrite Hsel.
    split; [reflexivity|]. exists []. split; [reflexivity|]. intros ? ? [].
  - rewrite (openLogViewerEach_reuses _ _ _ Hheld).
    split; [now rewrite fresult_fbind|].
    rewrite fevents_fbind.
    destruct (isMachineToolOpened UIToolType_Logs).
    + exists [EvSetToolsType UIToolType_Details; EvCloseMachineTool UIToolType_Logs].
      split; [reflexivity|].
      intros uId pPrepared [Heq|[Heq|[]]]; discriminate.
    + exists []. split; [reflexivity|]. intros ? ? [].
Qed.

(** X13. When every accessible item of the selection already has a dialog
    in the map, the log-viewer slot creates nothing: the map is returned as
    it was, the dialog factory is never asked, and the dialog of each such
    item is shown. *)
Theorem sltOpenLogViewerWindow_reuses_dialogs (mgr : UIVirtualBoxManager)
    (viewers : LogViewers)
    (Hheld : forall pItem,
        In pItem (currentItems mgr) -> accessible pItem = true ->
        exists pDialog,
          qmap_find viewers (hardwareUUID (id pItem)) = Some (Some pDialog)) :
  fresult (sltOpenLogViewerWindow mgr viewers) = viewers /\
  (forall uId pPrepared,
     ~ In (EvPrepareLogViewer uId pPrepared)
          (fevents (sltOpenLogViewerWindow mgr viewers))) /\
  (forall pItem pDialog,
     In pItem (currentItems mgr) -> accessible pItem = true ->
     qmap_find viewers (hardwareUUID (id pItem)) = Some (Some pDialog) ->
     In (EvShowDialog pDialog) (fevents (sltOpenLogViewerWindow mgr viewers))).
Proof.
  destruct (sltOpenLogViewerWindow_reuses mgr viewers Hheld)
    as (Hresult & toolEvents & Hevents & Htools).
  split; [exact Hresult|]. rewrite Hevents. split.
  - intros uId pPrepared Hin. apply in_app_or in Hin as [Hin|Hin].
    + exact (Htools _ _ Hin).
    + exact (shownDialogs_no_prepare _ _ _ _ Hin).
  - intros pItem pDialog Hin Haccessible Hfind.
    apply in_or_app. right. now apply (shownDialogs_shows _ _ pItem).
Qed.

(** X14. Where the dialog factory does not fail for the selection, running
    the log-viewer slot a second time on the map the first run produced
    leaves that map as it is and asks the factory for nothing: no machine
    gets a second dialog. *)
Theorem sltOpenLogViewerWindow_second_run_creates_nothing
    (mgr : UIVirtualBoxManager) (viewers : LogViewers)
    (Hprepared : forall pItem,
        In pItem (currentItems mgr) -> accessible pItem = true ->
        prepareLogViewer (id pItem) <> None) :
  let once := fresult (sltOpenLogViewerWindow mgr viewers) in
  fresult (sltOpenLogViewerWindow mgr once) = once /\
  forall uId pPrepared,
    ~ In (EvPrepareLogViewer uId pPrepared)
         (fevents (sltOpenLogViewerWindow mgr once)).
Proof.
  cbv zeta.
  assert (Hheld : forall pItem,
            In pItem (currentItems mgr) -> accessible pItem = true ->
            exists pDialog,
              qmap_find (fresult (sltOpenLogViewerWindow mgr viewers))
                        (hardwareUUID (id pItem)) = Some (Some pDialog)).
  { intros pItem Hin Haccessible.
    rewrite fresult_sltOpenLogViewerWindow.
    destruct (openLogViewerEach_fills mgr (currentItems mgr) viewers)
      as (_ & _ & Hitems & _).
    destruct (Hitems pItem Hin Haccessible) as [_ Hdialog].
    apply Hdialog. now apply Hprepared. }
  destruct (sltOpenLogViewerWindow_reuses mgr _ Hheld)
    as (Hresult & toolEvents & Hevents & Htools).
  split; [exact Hresult|]. rewrite Hevents.
  intros uId pPrepared Hin. apply in_app_or in Hin as [Hin|Hin].
  - exact (Htools _ _ Hin).
  - exact (shownDialogs_no_prepare _ _ _ _ Hin).
Qed.

(** ** Closing log viewers *)

Lemma eraseFirstHolding_absent pSender (viewers : LogViewers) :
  ~ In (Some pSender) (map snd viewers) ->
  eraseFirstHolding pSender viewers = None.
Proof.
  induction viewers as [|[strEntry pDialog] rest IH]; intros Habsent; [reflexivity|].
  cbn [eraseFirstHolding]. cbn [map snd In] in Habsent.
  rewrite bool_decide_eq_false_2 by (intros Heq; apply Habsent; now left).
  rewrite IH by (intros Hin; apply Habsent; now right). reflexivity.
Qed.

Lemma eraseFirstHolding_first pSender (before after : LogViewers) strKey :
  ~ In (Some pSender) (map snd before) ->
  eraseFirstHolding pSender (before ++ (strKey, Some pSender) :: after)
  = Some (before ++ after).
Proof.
  induction before as [|[strEntry pDialog] rest IH]; intros Habsent.
  - cbn [app eraseFirstHolding]. now rewrite bool_decide_eq_true_2.
  - cbn [app eraseFirstHolding]. cbn [map snd In] in Habsent.
    rewrite bool_decide_eq_false_2 by (intros Heq; apply Habsent; now left).
    rewrite IH by (intros Hin; apply Habsent; now right). reflexivity.
Qed.

Lemma eraseFirstHolding_found pSender (viewers viewers' : LogViewers) :
  eraseFirstHolding pSender viewers = Some viewers' ->
  exists before strKey after,
    viewers = before ++ (strKey, Some pSender) :: after /\
    viewers' = before ++ after /\
    ~ In (Some pSender) (map snd before).
Proof.
  revert viewers'.
  induction viewers as [|[strEntry pDialog] rest IH]; intros viewers' Herase;
    [discriminate|].
  cbn [eraseFirstHolding] in Herase.
  destruct (bool_decide (pDialog = Some pSender)) eqn:Hheld.
  - apply bool_decide_eq_true in Hheld. subst pDialog.
    injection Herase as <-. exists [], strEntry, rest. 
    split; [reflexivity|]. split; [reflexivity|]. intros [].
  - apply bool_decide_eq_false in Hheld.
    destruct (eraseFirstHolding pSender rest) as [rest'|]; [|discriminate].
    injection Herase as <-.
    destruct (IH rest' eq_refl) as (before & strKey & after & -> & -> & Habsent).
    exists ((strEntry, pDialog) :: before), strKey, after.
    split; [reflexivity|]. split; [reflexivity|].
    cbn [map snd In]. intros [Heq|Hin]; [now apply Hheld|now apply Habsent].
Qed.

Lemma StronglySorted_app_drop {A : Type} (R : A -> A -> Prop) (l1 : list A) (a : A)
    (l2 : list A) :
  Sorted.StronglySorted R (l1 ++ a :: l2) -> Sorted.StronglySorted R (l1 ++ l2).
Proof.
  induction l1 as [|b l1 IH]; cbn [app]; intros Hsorted.
  - now inversion Hsorted.
  - inversion Hsorted as [|? ? Hrest Habove]; subst.
    constructor; [now apply IH|].
    rewrite Forall_app in Habove |- *. destruct Habove as [H1 H2].
    split; [exact H1|]. now inversion H2.
Qed.

(** X15. A close request of a dialog: when no entry of the map holds the
    sender, nothing is cleaned up and the map is returned as it was;
    otherwise the first entry holding it, and only that entry, is taken out
    of the map and exactly one cleanup, of the sender, is issued.  The keys
    stay ordered, and once the entry of a dialog registered once is gone a
    further close request of the same dialog (as its cleanup incurs) does
    nothing, so the dialog is not deleted twice. *)
Theorem sltCloseLogViewerWindow_erases_the_sender_once
    (pSender : QIManagerDialog) (viewers : LogViewers) :
  (~ In (Some pSender) (map snd viewers) ->
   sltCloseLogViewerWindow (Some pSender) viewers = fret viewers) /\
  (forall before strKey after,
     viewers = before ++ (strKey, Some pSender) :: after ->
     ~ In (Some pSender) (map snd before) ->
     sltCloseLogViewerWindow (Some pSender) viewers
     = (before ++ after, [EvCleanupLogViewer (Some pSender)]) /\
     (~ In (Some pSender) (map snd after) ->
      sltCloseLogViewerWindow (Some pSender) (before ++ after)
      = fret (before ++ after))) /\
  (qmap_sorted viewers ->
   qmap_sorted (fresult (sltCloseLogViewerWindow (Some pSender) viewers))).
Proof.
  split; [|split].
  - intros Habsent. unfold sltCloseLogViewerWindow.
    now rewrite eraseFirstHolding_absent.
  - intros before strKey after -> Habsent. split.
    + unfold sltCloseLogViewerWindow.
      now rewrite eraseFirstHolding_first.
    + intros Hafter. unfold sltCloseLogViewerWindow.
      rewrite eraseFirstHolding_absent; [reflexivity|].
      rewrite map_app, in_app_iff. tauto.
  - intros Hsorted. unfold sltCloseLogViewerWindow.
    destruct (eraseFirstHolding pSender viewers) as [viewers'|] eqn:Herase;
      [|exact Hsorted].
    apply eraseFirstHolding_found in Herase
      as (before & strKey & after & -> & -> & _).
    rewrite fresult_fbind, fresult_fret.
    unfold qmap_sorted, qmap_keys in *.
    rewrite map_app in *. cbn [map] in Hsorted.
    exact (StronglySorted_app_drop _ _ _ _ Hsorted).
Qed.

Lemma qmap_remove_absent {V : Type} (strKey : QString) (m : QMap V) :
  ~ In strKey (qmap_keys m) -> qmap_remove strKey m = m.
Proof.
  induction m as [|[strEntry v] rest IH]; intros Habsent; [reflexivity|].
  unfold qmap_remove in *. cbn [List.filter fst]. cbn [qmap_keys map fst In] in Habsent.
  rewrite (proj2 (String.eqb_neq strEntry strKey)) by (intros ->; apply Habsent; now left).
  cbn [negb]. f_equal. apply IH. intros Hin. apply Habsent. now right.
Qed.

Lemma wipeLogViewers_all (viewers : LogViewers) :
  NoDup (qmap_keys viewers) ->
  wipeLogViewers (qmap_keys viewers) viewers
  = ([], map (fun entry => EvCleanupLogViewer (snd entry)) viewers).
Proof.
  induction viewers as [|[strEntry pDialog] rest IH]; intros Hkeys; [reflexivity|].
  cbn [qmap_keys map fst] in Hkeys. inversion Hkeys as [|? ? Hfresh Hrest]; subst.
  cbn [qmap_keys map fst wipeLogViewers]. cbv zeta.
  assert (Hvalue : qmap_value ((strEntry, pDialog) :: rest) strEntry = pDialog).
  { unfold qmap_value. cbn [qmap_find]. now rewrite String.eqb_refl. }
  assert (Hremove : qmap_remove strEntry ((strEntry, pDialog) :: rest) = rest).
  { unfold qmap_remove. cbn [List.filter fst]. rewrite String.eqb_refl. cbn [negb].
    apply (qmap_remove_absent strEntry rest).
    intros Hin. apply Hfresh. now apply list_elem_of_In. }
  rewrite Hvalue, Hremove.
  change (map fst rest) with (qmap_keys rest).
  rewrite IH by exact Hrest. reflexivity.
Qed.

(** X16. A close request without a dialog as its sender wipes the map: on a
    map whose keys are in order the result is the empty map, and the
    cleanups issued are those of the entries of the map, one for each entry
    and in the order of the keys. *)
Theorem sltCloseLogViewerWindow_wipes_everything (viewers : LogViewers)
    (Hsorted : qmap_sorted viewers) :
  sltCloseLogViewerWindow None viewers
  = ([], map (fun entry => EvCleanupLogViewer (snd entry)) viewers).
Proof.
  unfold sltCloseLogViewerWindow.
  apply wipeLogViewers_all. now apply qmap_sorted_NoDup.
Qed.

(** ** The menus shown *)

Lemma visible_updateActionsVisibility mgr selection bar i :
  menu_visible (updateActionsVisibility mgr selection bar) i
  = let fGroupMenuShown := isGroupItemSelected selection && isSingleGroupSelected mgr in
    let fMachineMenuShown :=
      isMachineItemSelected selection && negb (isSingleGroupSelected mgr) in
    match i with
    | UIActionIndexST_M_Welcome => isGlobalItemSelected selection
    | UIActionIndexST_M_Group => fGroupMenuShown
    | UIActionIndexST_M_Machine => fMachineMenuShown
    | UIActionIndexST_M_Medium =>
        isGlobalItemSelected selection &&
        bool_decide (currentGlobalTool selection = UIToolType_Media)
    | UIActionIndexST_M_Network =>
        isGlobalItemSelected selection &&
        bool_decide (currentGlobalTool selection = UIToolType_Network)
    | UIActionIndexST_M_Cloud =>
        isGlobalItemSelected selection &&
        bool_decide (currentGlobalTool selection = UIToolType_Cloud)
    | UIActionIndexST_M_Snapshot =>
        (fMachineMenuShown || fGroupMenuShown) &&
        bool_decide (widget_currentMachineTool (m_pWidget mgr) = UIToolType_Snapshots)
    | UIActionIndex_M_Log =>
        (fMachineMenuShown || fGroupMenuShown) &&
        bool_decide (widget_currentMachineTool (m_pWidget mgr) = UIToolType_Logs)
    end.
Proof.
  unfold updateActionsVisibility.
  destruct selection as [fGlobal fGroup fMachine enmTool]. cbn [isGlobalItemSelected 
    isGroupItemSelected isMachineItemSelected currentGlobalTool].
  destruct fGlobal, fGroup, fMachine, (isSingleGroupSelected mgr), i; reflexivity.
Qed.

Lemma shortcuts_updateActionsVisibility mgr selection bar i :
  menu_shortcutsVisible (updateActionsVisibility mgr selection bar) i
  = if isChooserMenu i
    then menu_visible (updateActionsVisibility mgr selection bar) i
    else menu_shortcutsVisible bar i.
Proof.
  unfold updateActionsVisibility.
  destruct selection as [fGlobal fGroup fMachine enmTool]. cbn [isGlobalItemSelected 
    isGroupItemSelected isMachineItemSelected currentGlobalTool].
  destruct fGlobal, fGroup, fMachine, (isSingleGroupSelected mgr), i; reflexivity.
Qed.

(** X19. Whatever the widget answers and whatever was visible before, after
    [updateActionsVisibility] the Group and the Machine menu are never both
    visible; of the Medium, Network and Cloud menus at most one is visible,
    and only beside the Welcome menu; of the Snapshot and Log menus at most
    one is visible, and only beside the Group or the Machine menu; the
    shortcuts of the Welcome, Group and Machine menus are visible exactly
    when their menu is, and those of the other menus are left as they
    were. *)
Theorem updateActionsVisibility_menus_exclude_one_another
    (mgr : UIVirtualBoxManager) (selection : ChooserSelection) (bar : MenuBar) :
  let shown := menu_visible (updateActionsVisibility mgr selection bar) in
  shown UIActionIndexST_M_Group && shown UIActionIndexST_M_Machine = false /\
  (forall i j,
     isGlobalToolMenu i = true -> isGlobalToolMenu j = true -> i <> j ->
     shown i && shown j = false) /\
  (forall i,
     isGlobalToolMenu i = true -> shown i = true ->
     shown UIActionIndexST_M_Welcome = true) /\
  shown UIActionIndexST_M_Snapshot && shown UIActionIndex_M_Log = false /\
  (shown UIActionIndexST_M_Snapshot || shown UIActionIndex_M_Log = true ->
   shown UIActionIndexST_M_Group || shown UIActionIndexST_M_Machine = true) /\
  (forall i,
     menu_shortcutsVisible (updateActionsVisibility mgr selection bar) i
     = if isChooserMenu i then shown i else menu_shortcutsVisible bar i).
Proof.
  cbv zeta. repeat apply conj.
  - rewrite !visible_updateActionsVisibility. cbv zeta.
    destruct (isSingleGroupSelected mgr); cbn [negb]; btauto.
  - intros i j Hi Hj Hne. rewrite !visible_updateActionsVisibility. cbv zeta.
    destruct (currentGlobalTool selection), (isGlobalItemSelected selection), i;
      try discriminate Hi; destruct j; try discriminate Hj;
      try reflexivity; now contradict Hne.
  - intros i Hi. rewrite !visible_updateActionsVisibility. cbv zeta.
    destruct i; try discriminate Hi;
      now destruct (isGlobalItemSelected selection).
  - rewrite !visible_updateActionsVisibility. cbv zeta.
    destruct (widget_currentMachineTool (m_pWidget mgr));
      try (rewrite ?andb_false_r; reflexivity).
  - rewrite !visible_updateActionsVisibility. cbv zeta.
    destruct (isMachineItemSelected selection && negb (isSingleGroupSelected mgr)),
             (isGroupItemSelected selection && isSingleGroupSelected mgr);
      cbn; try reflexivity; discriminate.
  - intros i. apply shortcuts_updateActionsVisibility.
Qed.

(** ** Showing the window *)

Lemma showEvents_polished n :
  showEvents n true = (true, repeat EvBaseClassShowEvent n).
Proof.
  induction n as [|n IH]; [reflexivity|].
  change (showEvents (S n) true)
    with (let (b, l2) := showEvents n true in (b, [EvBaseClassShowEvent] ++ l2)).
  rewrite IH. reflexivity.
Qed.

(** X20. A window that was not polished yet queues the handler of the
    medium enumeration at its first show event, and at no later one: however
    often it is shown, the handler is queued once, right after the first
    call of the base class, and the window is polished from then on.  A
    polished window never queues it. *)
Theorem showEvent_polishes_once (n : nat) :
  showEvents (S n) false
  = (true,
     EvBaseClassShowEvent :: EvQueueMediumEnumerationFinish
       :: repeat EvBaseClassShowEvent n) /\
  List.filter isPolish (fevents (showEvents (S n) false))
  = [EvQueueMediumEnumerationFinish] /\
  List.filter isPolish (fevents (showEvents n true)) = [].
Proof.
  assert (Hnone : forall k, List.filter isPolish (repeat EvBaseClassShowEvent k) = []).
  { induction k as [|k IH]; [reflexivity|exact IH]. }
  assert (Hfirst : showEvents (S n) false
                   = (true,
                      EvBaseClassShowEvent :: EvQueueMediumEnumerationFinish
                        :: repeat EvBaseClassShowEvent n)).
  { change (showEvents (S n) false)
      with (let (b, l2) := showEvents n true in
            (b, [EvBaseClassShowEvent; EvQueueMediumEnumerationFinish] ++ l2)).
    rewrite showEvents_polished. reflexivity. }
  split; [exact Hfirst|]. split.
  - rewrite Hfirst. cbn [fevents snd List.filter isPolish]. now rewrite Hnone.
  - rewrite showEvents_polished. cbn [fevents snd]. apply Hnone.
Qed.

(** ** URLs passed to the manager *)

Lemma fbind_ext {A B : Type} (m : MF A) (f g : A -> MF B) :
  (forall a, f a = g a) -> fbind m f = fbind m g.
Proof. intros Hext. unfold fbind. destruct m as [a l]. now rewrite Hext. Qed.

Lemma openUrlEach_filter after list :
  openUrlEach after list = openUrlEach after (List.filter urlIsHandled list).
Proof.
  revert after. induction list as [|url rest IH]; intros after; [reflexivity|].
  cbn [List.filter]. unfold urlIsHandled at 1. cbv zeta.
  cbn [openUrlEach]. cbv zeta.
  destruct (negb (isEmpty (urlLocalFile url)) && fileExists (urlLocalFile url))
    eqn:Hexists; cbn [andb]; [|apply IH].
  destruct (hasAllowedExtension (urlLocalFile url) VBoxFileExts) eqn:Hvbox; cbn [orb].
  - cbn [openUrlEach]. cbv zeta. rewrite Hexists, Hvbox.
    destruct (findMachineByFile (urlLocalFile url)).
    + apply fbind_ext. intros _. apply IH.
    + destruct after; [|reflexivity]. apply fbind_ext. intros after'. apply IH.
  - destruct (hasAllowedExtension (urlLocalFile url) OVFFileExts) eqn:Hovf; cbn [orb].
    + cbn [openUrlEach]. cbv zeta. now rewrite Hexists, Hvbox, Hovf.
    + destruct (hasAllowedExtension (urlLocalFile url) VBoxExtPackFileExts) eqn:Hpack;
        [|apply IH].
      cbn [openUrlEach]. cbv zeta. rewrite Hexists, Hvbox, Hovf, Hpack.
      do 3 (apply fbind_ext; intros _). apply IH.
Qed.

(** X21. The URL handler passes over every URL whose local file is empty or
    does not exist or has none of the three kinds of extension: such a URL
    causes no call and changes nothing for the URLs after it, so the handler
    behaves on a list as on the list of its remaining URLs.  An empty list
    stands for the URLs of the command line. *)
Theorem sltHandleOpenUrlCall_ignores_unusable_urls (mgr : UIVirtualBoxManager)
    (list : list QUrl) :
  sltHandleOpenUrlCall mgr list
  = openUrlEach (Some mgr)
      (List.filter urlIsHandled (if bool_decide (list = []) then takeArgumentUrls else list)) /\
  forall after urls,
    openUrlEach after urls = openUrlEach after (List.filter urlIsHandled urls).
Proof.
  split; [apply openUrlEach_filter|]. intros after urls. apply openUrlEach_filter.
Qed.

Lemma openUrlEach_stops after before url rest :
  urlIsAppliance url = true ->
  openUrlEach after (before ++ url :: rest) = openUrlEach after (before ++ [url]).
Proof.
  intros Happliance. unfold urlIsAppliance in Happliance. cbv zeta in Happliance.
  apply andb_true_iff in Happliance as [Happliance Hovf].
  apply andb_true_iff in Happliance as [Hexists Hvbox].
  apply negb_true_iff in Hvbox.
  revert after. induction before as [|url' before IH]; intros after.
  - cbn [app openUrlEach]. cbv zeta. rewrite Hexists, Hvbox, Hovf. reflexivity.
  - cbn [app openUrlEach]. cbv zeta.
    destruct (negb (isEmpty (urlLocalFile url')) && fileExists (urlLocalFile url'));
      [|apply IH].
    destruct (hasAllowedExtension (urlLocalFile url') VBoxFileExts).
    + destruct (findMachineByFile (urlLocalFile url')).
      * apply fbind_ext. intros _. apply IH.
      * destruct after; [|reflexivity]. apply fbind_ext. intros after'. apply IH.
    + destruct (hasAllowedExtension (urlLocalFile url') OVFFileExts); [reflexivity|].
      destruct (hasAllowedExtension (urlLocalFile url') VBoxExtPackFileExts);
        [|apply IH].
      do 3 (apply fbind_ext; intros _). apply IH.
Qed.

(** X22. The URL handler stops at the first appliance: when a URL of the
    list names an existing file with an appliance extension (and no machine
    extension), the URLs after it are never looked at, whatever they are,
    and on reaching it with the action pool alive the handler returns what
    the import wizard slot leaves. *)
Theorem sltHandleOpenUrlCall_stops_at_the_first_appliance
    (mgr : UIVirtualBoxManager) (before : list QUrl) (url : QUrl) (rest : list QUrl)
    (Happliance : urlIsAppliance url = true) :
  sltHandleOpenUrlCall mgr (before ++ url :: rest)
  = sltHandleOpenUrlCall mgr (before ++ [url]) /\
  forall mgr',
    openUrlEach (Some mgr') (url :: rest)
    = lift (let* after := sltOpenImportApplianceWizard mgr' (urlLocalFile url) in
            ret (UrlCallReturned after))%vbox.
Proof.
  split.
  - unfold sltHandleOpenUrlCall.
    rewrite !bool_decide_eq_false_2 by (now destruct before).
    now apply openUrlEach_stops.
  - intros mgr'.
    unfold urlIsAppliance in Happliance. cbv zeta in Happliance.
    apply andb_true_iff in Happliance as [Happliance Hovf].
    apply andb_true_iff in Happliance as [Hexists Hvbox].
    apply negb_true_iff in Hvbox.
    cbn [openUrlEach]. cbv zeta. rewrite Hexists, Hvbox, Hovf.
    destruct (sltOpenImportApplianceWizard mgr' (urlLocalFile url)) as [after log].
    unfold fbind, lift, fret, bind, ret. cbn [fst snd map].
    now rewrite !app_nil_r.
Qed.

Lemma no_import_in_probes (log : list Event) :
  Forall (fun e => isProbe e = true) log ->
  List.filter isImportWizard (map EvBase log) = [].
Proof.
  induction 1 as [|e l He _ IH]; [reflexivity|].
  cbn [map List.filter isImportWizard]. destruct e; try discriminate He; exact IH.
Qed.

Lemma no_import_in_unlockAction i after :
  List.filter isImportWizard (map EvBase (events (unlockAction i after))) = [].
Proof.
  destruct after as [mgr|]; [|reflexivity]. cbn [unlockAction].
  rewrite events_bind, events_ret, app_nil_r.
  apply no_import_in_probes, probes_updateActionsAppearance.
Qed.

Lemma no_import_in_sltOpenAddMachineDialog mgr strFileName :
  List.filter isImportWizard
    (map EvBase (events (sltOpenAddMachineDialog mgr strFileName))) = [].
Proof.
  unfold sltOpenAddMachineDialog.
  set (strTmpFile := if VBOX_WS_MAC then _ else _).
  rewrite events_bind.
  set (entry := result (updateActionsAppearance _)).
  rewrite events_bind. cbv zeta. rewrite events_bind.
  rewrite !map_app, !filter_app.
  rewrite (no_import_in_probes _ (probes_updateActionsAppearance _)).
  rewrite no_import_in_unlockAction. cbn [app].
  destruct (isEmpty strTmpFile) eqn:Hempty.
  - rewrite result_bind, events_bind, result_ret, events_ret. cbn [snd app].
    unfold execModal.
    cbn [events emit bind snd app map List.filter isImportWizard].
    set (strFile := match chosenFileNames entry with
                    | strChosen :: _ => strChosen
                    | [] => strTmpFile
                    end).
    destruct (isEmpty strFile); [reflexivity|].
    destruct (openMachineIsOk strFile); [destruct (findMachineName strFile)|];
      reflexivity.
  - rewrite result_ret, events_ret. cbn [snd app map List.filter].
    rewrite Hempty.
    destruct (openMachineIsOk strTmpFile); [destruct (findMachineName strTmpFile)|];
      reflexivity.
Qed.

Lemma one_import_in_sltOpenImportApplianceWizard mgr strFileName :
  (length (List.filter isImportWizard
             (map EvBase (events (sltOpenImportApplianceWizard mgr strFileName))))
   <= 1)%nat.
Proof.
  unfold sltOpenImportApplianceWizard.
  set (strTmpFile := if VBOX_WS_MAC then _ else _).
  rewrite !events_bind, !map_app, !filter_app.
  match goal with
  | |- context [map EvBase (events (updateActionsAppearance ?entry))] =>
      rewrite (no_import_in_probes _ (probes_updateActionsAppearance entry))
  end.
  rewrite no_import_in_unlockAction, app_nil_r. cbn [app].
  destruct (isEmpty strFileName || wizardImportIsValid strTmpFile).
  - unfold execModal. cbn. lia.
  - cbn. lia.
Qed.

Lemma imports_openUrlEach after list :
  (length (List.filter isImportWizard (fevents (openUrlEach after list))) <= 1)%nat.
Proof.
  revert after. induction list as [|url rest IH]; intros after; [cbn; lia|].
  cbn [openUrlEach]. cbv zeta.
  destruct (negb (isEmpty (urlLocalFile url)) && fileExists (urlLocalFile url));
    [|apply IH].
  destruct (hasAllowedExtension (urlLocalFile url) VBoxFileExts).
  - destruct (findMachineByFile (urlLocalFile url)).
    + rewrite fevents_fbind, fevents_femit. cbn [app List.filter isImportWizard].
      apply IH.
    + destruct after as [mgr|]; [|cbn; lia].
      rewrite fevents_fbind, fevents_lift, filter_app,
        no_import_in_sltOpenAddMachineDialog.
      apply IH.
  - destruct (hasAllowedExtension (urlLocalFile url) OVFFileExts).
    + destruct after as [mgr|]; [|cbn; lia].
      rewrite fevents_fbind, fevents_lift, fevents_fret, app_nil_r.
      apply one_import_in_sltOpenImportApplianceWizard.
    + destruct (hasAllowedExtension (urlLocalFile url) VBoxExtPackFileExts);
        [|apply IH].
      rewrite !fevents_fbind, !filter_app.
      destruct VBOX_GUI_WITH_NETWORK_MANAGER;
        cbn [fevents femit fret snd List.filter isImportWizard app]; apply IH.
Qed.

(** X23. Whatever URLs are passed and whatever the dialogs answer, one call
    of the URL handler starts the import wizard at most once. *)
Theorem sltHandleOpenUrlCall_imports_one_appliance_at_most
    (mgr : UIVirtualBoxManager) (list : list QUrl) :
  (length (List.filter isImportWizard (fevents (sltHandleOpenUrlCall mgr list)))
   <= 1)%nat.
Proof. apply imports_openUrlEach. Qed.

End FurtherCollaboratorProperties.

(** * The further statements at explicit inputs *)

Lemma scenario_runningItemsAreStarted (sc : Scenario) (pItem : UIVirtualMachineItem) :
  @isItemRunning (scenarioCollaborators sc) pItem = true ->
  @isItemStarted (scenarioCollaborators sc) pItem = true.
Proof.
  destruct pItem as [machine strName s fAccessible level fSwitch strFile].
  destruct fAccessible, s; intros Hrunning; try reflexivity;
    vm_compute in Hrunning; discriminate.
Defined.

Lemma any_item_action_enabled_iff_for_an_item_witness :
  isAnyItemAction UIActionIndexST_M_Machine_S_Reset = true /\
  result (@isActionEnabled (scenarioCollaborators calm) (managerOf [vmA_off; vmB_running])
            UIActionIndexST_M_Machine_S_Reset [vmA_off; vmB_running])
  = existsb (fun pItem =>
               result (@isActionEnabled (scenarioCollaborators calm)
                         (managerOf [vmA_off; vmB_running])
                         UIActionIndexST_M_Machine_S_Reset [pItem]))
            [vmA_off; vmB_running].
Proof.
  split; [reflexivity|].
  exact (proj1 (@any_item_action_enabled_iff_for_an_item (scenarioCollaborators calm)
                  (managerOf [vmA_off; vmB_running]) UIActionIndexST_M_Machine_S_Reset
                  [vmA_off; vmB_running] eq_refl)).
Defined.

Lemma shutdown_enabled_iff_for_an_item_witness :
  result (@isActionEnabled (scenarioCollaborators shutdownDeclined)
            (managerOf [vmA_running; vmB_running])
            UIActionIndexST_M_Machine_M_Close_S_Shutdown [vmA_running; vmB_running])
  = existsb (fun pItem =>
               result (@isActionEnabled (scenarioCollaborators shutdownDeclined)
                         (managerOf [vmA_running; vmB_running])
                         UIActionIndexST_M_Machine_M_Close_S_Shutdown [pItem]))
            [vmA_running; vmB_running].
Proof.
  exact (proj1 (@shutdown_enabled_iff_for_an_item (scenarioCollaborators shutdownDeclined)
                  (managerOf [vmA_running; vmB_running])
                  UIActionIndexST_M_Machine_M_Close_S_Shutdown [vmA_running; vmB_running]
                  (scenario_runningItemsAreStarted shutdownDeclined)
                  (or_intror eq_refl))).
Defined.

Lemma sltOpenLogViewerWindow_reuses_dialogs_witness :
  fresult (@sltOpenLogViewerWindow (scenarioCollaborators calm) furtherScenario
             (managerOf [vmA_running]) viewersOfA) = viewersOfA.
Proof.
  refine (proj1 (@sltOpenLogViewerWindow_reuses_dialogs (scenarioCollaborators calm)
                   furtherScenario (managerOf [vmA_running]) viewersOfA _)).
  intros pItem [<-|[]] _. exists 7%N. reflexivity.
Defined.

Lemma sltOpenLogViewerWindow_second_run_creates_nothing_witness :
  fresult (@sltOpenLogViewerWindow (scenarioCollaborators calm) furtherScenario
             (managerOf [vmA_running; vmB_running])
             (fresult (@sltOpenLogViewerWindow (scenarioCollaborators calm) furtherScenario
                         (managerOf [vmA_running; vmB_running]) viewersOfA)))
  = fresult (@sltOpenLogViewerWindow (scenarioCollaborators calm) furtherScenario
               (managerOf [vmA_running; vmB_running]) viewersOfA).
Proof.
  refine (proj1 (@sltOpenLogViewerWindow_second_run_creates_nothing
                   (scenarioCollaborators calm) furtherScenario
                   (managerOf [vmA_running; vmB_running]) viewersOfA _)).
  intros pItem _ _. discriminate.
Defined.

Lemma sltCloseLogViewerWindow_wipes_everything_witness :
  @sltCloseLogViewerWindow None viewersOfA
  = ([], [EvCleanupLogViewer (Some 7%N); EvCleanupLogViewer None]).
Proof.
  apply (sltCloseLogViewerWindow_wipes_everything viewersOfA).
  unfold qmap_sorted, viewersOfA. cbn [qmap_keys map fst].
  repeat constructor.
Defined.

Lemma sltHandleOpenUrlCall_stops_at_the_first_appliance_witness :
  @urlIsAppliance (scenarioCollaborators calm) furtherScenario "/tmp/a.ova" = true /\
  @sltHandleOpenUrlCall (scenarioCollaborators calm) furtherScenario (managerOf [])
     (["/tmp/readme.txt"] ++ "/tmp/a.ova" :: ["/tmp/b.vbox"])
  = @sltHandleOpenUrlCall (scenarioCollaborators calm) furtherScenario (managerOf [])
      (["/tmp/readme.txt"] ++ ["/tmp/a.ova"]).
Proof.
  split; [reflexivity|].
  exact (proj1 (@sltHandleOpenUrlCall_stops_at_the_first_appliance
                  (scenarioCollaborators calm) furtherScenario (managerOf [])
                  ["/tmp/readme.txt"] "/tmp/a.ova" ["/tmp/b.vbox"] eq_refl)).
Defined.
